(** * arsdk-ng: the UDP ("net") transport backend and the transport-ID table

    A shallow embedding of
      - [arsdk_transport_ids.h]  (the transport-ID namespace), and
      - the net transport backend ([process_rxbuf], [socket_read],
        [socket_write], [arsdk_transport_net_send_data]),
    followed by the properties of the frame codec, of the read/write error
    paths and of the ID table.

    The life cycle of the data socket ([setup_fd_flags], [socket_setup],
    [socket_start], [socket_stop], [socket_cleanup], and the transport's
    [dispose], [start], [stop] and [arsdk_transport_net_new]) is embedded in
    the module [Lifecycle]; its properties come last.

    Conventions of the embedding.
      - [uint32_t] values are integers of [Z] reduced with [u32]; every C
        operation that can wrap is written with its reduction.
      - [int] values are integers of [Z] reduced with [int_of] where the code
        narrows a wider value ([res = writelen]).
      - [uint8_t] is [Byte.byte]; [u8] gives its value, [to_u8] is the
        narrowing store into a byte.
      - A non-null pointer into a buffer is the list of the bytes from the
        pointed cell to the end of the object it points into; [NULL] is
        [None].  A (pointer, length) view is within bounds when the length does
        not exceed that list.
      - System calls and [rand()] take their outcomes from scripted queues
        (the [world]); logging and the calls into the parent transport are
        collected as a list of [event]s.  The [world] also keeps what each
        [sendmsg] call was handed: the descriptor and the bytes of the
        message. *)

From Stdlib Require Import ZArith List Bool Lia.
From Stdlib Require Import Strings.Byte.
Import ListNotations.
Local Open Scope Z_scope.

(** ** Transport-ID namespace ([arsdk_transport_ids.h]) *)

Module TransportIds.

Definition ARSDK_TRANSPORT_ID_MAX : Z := 256.
Definition ARSDK_TRANSPORT_ID_MAX_BLE : Z := 32.

Definition ARSDK_TRANSPORT_ID_INVALID : Z := 255.

Definition ARSDK_TRANSPORT_ID_PING : Z := 0.
Definition ARSDK_TRANSPORT_ID_PONG : Z := 1.

Definition ARSDK_TRANSPORT_ID_C2D_CMD_NOACK : Z := 10.
Definition ARSDK_TRANSPORT_ID_C2D_CMD_WITHACK : Z := 11.
Definition ARSDK_TRANSPORT_ID_C2D_CMD_HIGHPRIO : Z := 12.

Definition ARSDK_TRANSPORT_ID_D2C_CMD_NOACK : Z := 127.
Definition ARSDK_TRANSPORT_ID_D2C_CMD_WITHACK : Z := 126.

Definition ARSDK_TRANSPORT_ID_D2C_CMD_NOACK_BLE : Z := 15.
Definition ARSDK_TRANSPORT_ID_D2C_CMD_WITHACK_BLE : Z := 14.

(* C integer division truncates: [Z.quot]. *)
Definition ARSDK_TRANSPORT_ID_ACKOFF : Z :=
  Z.quot ARSDK_TRANSPORT_ID_MAX 2.

Definition ARSDK_TRANSPORT_ID_ACKOFF_BLE : Z :=
  Z.quot ARSDK_TRANSPORT_ID_MAX_BLE 2.

Definition ARSDK_TRANSPORT_ID_C2D_CMD_ACK : Z :=
  ARSDK_TRANSPORT_ID_D2C_CMD_WITHACK + ARSDK_TRANSPORT_ID_ACKOFF.

Definition ARSDK_TRANSPORT_ID_C2D_CMD_ACK_BLE : Z :=
  ARSDK_TRANSPORT_ID_D2C_CMD_WITHACK_BLE + ARSDK_TRANSPORT_ID_ACKOFF_BLE.

Definition ARSDK_TRANSPORT_ID_D2C_CMD_ACK : Z :=
  ARSDK_TRANSPORT_ID_C2D_CMD_WITHACK + ARSDK_TRANSPORT_ID_ACKOFF.

Definition ARSDK_TRANSPORT_ID_D2C_CMD_HIGHPRIO_ACK : Z :=
  ARSDK_TRANSPORT_ID_C2D_CMD_HIGHPRIO + ARSDK_TRANSPORT_ID_ACKOFF.

Definition ARSDK_TRANSPORT_ID_D2C_CMD_ACK_BLE : Z :=
  ARSDK_TRANSPORT_ID_C2D_CMD_WITHACK + ARSDK_TRANSPORT_ID_ACKOFF_BLE.

Definition ARSDK_TRANSPORT_ID_D2C_CMD_HIGHPRIO_ACK_BLE : Z :=
  ARSDK_TRANSPORT_ID_C2D_CMD_HIGHPRIO + ARSDK_TRANSPORT_ID_ACKOFF_BLE.

(** The primary (non-acknowledgment) channel IDs of the table. *)
Definition primary_ids : list Z :=
  [ ARSDK_TRANSPORT_ID_PING; ARSDK_TRANSPORT_ID_PONG;
    ARSDK_TRANSPORT_ID_C2D_CMD_NOACK; ARSDK_TRANSPORT_ID_C2D_CMD_WITHACK;
    ARSDK_TRANSPORT_ID_C2D_CMD_HIGHPRIO;
    ARSDK_TRANSPORT_ID_D2C_CMD_WITHACK; ARSDK_TRANSPORT_ID_D2C_CMD_NOACK;
    ARSDK_TRANSPORT_ID_D2C_CMD_WITHACK_BLE;
    ARSDK_TRANSPORT_ID_D2C_CMD_NOACK_BLE ].

(** The acknowledgment IDs of the table. *)
Definition ack_ids : list Z :=
  [ ARSDK_TRANSPORT_ID_C2D_CMD_ACK; ARSDK_TRANSPORT_ID_C2D_CMD_ACK_BLE;
    ARSDK_TRANSPORT_ID_D2C_CMD_ACK; ARSDK_TRANSPORT_ID_D2C_CMD_HIGHPRIO_ACK;
    ARSDK_TRANSPORT_ID_D2C_CMD_ACK_BLE;
    ARSDK_TRANSPORT_ID_D2C_CMD_HIGHPRIO_ACK_BLE ].

End TransportIds.

(** ** Machine integers and bytes *)

Definition UINT32_MOD : Z := 2 ^ 32.
Definition INT_MAX : Z := 2 ^ 31 - 1.
Definition INT_MIN : Z := - 2 ^ 31.

(** Reduction of a mathematical result to [uint32_t]. *)
Definition u32 (z : Z) : Z := z mod UINT32_MOD.

(** Narrowing of a mathematical result to a 32-bit two's complement [int]. *)
Definition int_of (z : Z) : Z := (z + 2 ^ 31) mod UINT32_MOD - 2 ^ 31.

Definition uint8_t := byte.

(** Value of a byte. *)
Definition u8 (b : uint8_t) : Z := Z.of_N (Byte.to_N b).

(** Store of an integer into a [uint8_t]: the low eight bits are kept. *)
Definition to_u8 (z : Z) : uint8_t :=
  match Byte.of_N (Z.to_N (z mod 256)) with
  | Some b => b
  | None => x00
  end.

(** [buf[i]]: [None] when the index is outside the object. *)
Definition rd (buf : list uint8_t) (i : Z) : option uint8_t :=
  if i <? 0 then None else nth_error buf (Z.to_nat i).

(** [&buf[i]]: the bytes from cell [i] to the end of the object. *)
Definition ptr_at (buf : list uint8_t) (i : Z) : list uint8_t :=
  skipn (Z.to_nat i) buf.

(** ** Frames *)

Definition ARSDK_FRAME_HEADER_SIZE : Z := 7.

(** Modelled from the spec: [struct arsdk_transport_header] (declared with
    the parent transport, not in the net backend), with the three fields
    the net backend reads and writes: [type], [id] and [seq]. *)
Record arsdk_transport_header := mk_header {
  type : Z;
  id : Z;
  seq : Z
}.

(** Modelled from the spec: [struct arsdk_transport_payload] (declared with
    the parent transport, not in the net backend), a borrowed view
    "pointer + length":
    the fields [cdata] (a constant pointer to the bytes) and [len] that the
    net backend reads. *)
Record arsdk_transport_payload := mk_payload {
  cdata : option (list uint8_t);
  len : Z
}.

(** Modelled from the spec: [arsdk_transport_payload_init_with_data(&payload,
    data, len)] (defined with the parent transport): the payload becomes the
    borrowed view of [len] bytes at [data]. *)
Definition arsdk_transport_payload_init_with_data
    (data : option (list uint8_t)) (l : Z) : arsdk_transport_payload :=
  {| cdata := data; len := l |}.

(** A view is within bounds when its [len] bytes exist behind [cdata]. *)
Definition payload_in_bounds (p : arsdk_transport_payload) : bool :=
  match cdata p with
  | None => len p =? 0
  | Some m => (0 <=? len p) && (len p <=? Z.of_nat (length m))
  end.

(** The bytes a view denotes. *)
Definition payload_bytes (p : arsdk_transport_payload) : list uint8_t :=
  match cdata p with
  | None => []
  | Some m => firstn (Z.to_nat (len p)) m
  end.

(** ** Observable events *)

Inductive arsdk_cmd_dir := ARSDK_CMD_DIR_RX | ARSDK_CMD_DIR_TX.

Inductive arsdk_link_status := ARSDK_LINK_STATUS_KO | ARSDK_LINK_STATUS_OK.

Definition link_status_eqb (a b : arsdk_link_status) : bool :=
  match a, b with
  | ARSDK_LINK_STATUS_KO, ARSDK_LINK_STATUS_KO => true
  | ARSDK_LINK_STATUS_OK, ARSDK_LINK_STATUS_OK => true
  | _, _ => false
  end.

Inductive log_level := LOGE | LOGW | LOGI.

(** The log statements of the file, one constructor per call site.  The
    logging macros ([ARSDK_LOGE], [ARSDK_LOGW], [ARSDK_LOGI],
    [ARSDK_LOG_FD_ERRNO]: error level) are observed as events. *)
Inductive log_msg :=
| Msg_partial_header (remaining : Z)              (* process_rxbuf *)
| Msg_bad_frame                                   (* process_rxbuf *)
| Msg_rx_drop (fd readlen : Z)                    (* socket_read *)
| Msg_eof (fd : Z)                                (* socket_read *)
| Msg_read_errno (fd err : Z)                     (* socket_read *)
| Msg_tx_drop (fd total : Z)                      (* socket_write *)
| Msg_sendmsg_enobufs (fd size err : Z)           (* send_data, warning *)
| Msg_sendmsg_errno (fd err : Z)                  (* send_data *)
| Msg_partial_write (fd writelen size : Z)        (* send_data *)
| Msg_succeed_after (fd size failures : Z).       (* send_data *)

(** What the net backend does to the outside: a log line, a frame handed to
    the parent's logging sink ([arsdk_transport_log_cmd]), a frame handed to
    the parent's receive sink ([arsdk_transport_recv_data]), a write of the
    parent's link status. *)
Inductive event :=
| Ev_log (lvl : log_level) (msg : log_msg)
| Ev_log_cmd (headerbuf : list uint8_t) (payload : arsdk_transport_payload)
             (dir : arsdk_cmd_dir)
| Ev_recv_data (header : arsdk_transport_header)
               (payload : arsdk_transport_payload)
| Ev_set_link_status (status : arsdk_link_status).

Definition is_error_log (e : event) : bool :=
  match e with
  | Ev_log LOGE _ => true
  | _ => false
  end.

Definition is_set_link_status (e : event) : bool :=
  match e with
  | Ev_set_link_status _ => true
  | _ => false
  end.

(** The frames handed to the parent's receive sink, in order. *)
Fixpoint forwarded (tr : list event)
    : list (arsdk_transport_header * arsdk_transport_payload) :=
  match tr with
  | [] => []
  | Ev_recv_data h p :: tr' => (h, p) :: forwarded tr'
  | _ :: tr' => forwarded tr'
  end.

(** ** Receive path: [process_rxbuf] *)

(** The seven bytes at [headerbuf = &rxbuf[rxoff]]. *)
Definition read_headerbuf (rxbuf : list uint8_t) (rxoff : Z)
    : option (list uint8_t) :=
  match rd rxbuf rxoff, rd rxbuf (rxoff + 1), rd rxbuf (rxoff + 2),
        rd rxbuf (rxoff + 3), rd rxbuf (rxoff + 4), rd rxbuf (rxoff + 5),
        rd rxbuf (rxoff + 6) with
  | Some b0, Some b1, Some b2, Some b3, Some b4, Some b5, Some b6 =>
      Some [b0; b1; b2; b3; b4; b5; b6]
  | _, _, _, _, _, _, _ => None
  end.

(** [headerbuf[3] | (headerbuf[4] << 8) | (headerbuf[5] << 16) |
    (headerbuf[6] << 24)], stored into the [uint32_t size].  The operands
    are promoted to [int]; the shift of a top byte above 0x7f is taken as
    GCC and Clang define it (the two's complement bit pattern), so that the
    store into [size] yields the little-endian value of the four bytes. *)
Definition decode_size (b3 b4 b5 b6 : uint8_t) : Z :=
  u32 (Z.lor (Z.lor (Z.lor (u8 b3) (Z.shiftl (u8 b4) 8))
                    (Z.shiftl (u8 b5) 16))
             (Z.shiftl (u8 b6) 24)).

(** What one pass through the body of the [while] loop does. *)
Inductive iter_result :=
| Iter_exit                                  (* loop condition is false *)
| Iter_return (e : event)                    (* logged, then [return] *)
| Iter_fault                                 (* a read outside [rxbuf] *)
| Iter_next (evs : list event) (rxoff' : Z). (* frame dispatched *)

Definition process_rxbuf_iter (rxbuf : list uint8_t) (rxlen rxoff : Z)
    : iter_result :=
  if negb (rxoff <? rxlen) then Iter_exit
  else if u32 (rxoff + ARSDK_FRAME_HEADER_SIZE) >? rxlen then
    Iter_return (Ev_log LOGE (Msg_partial_header (u32 (rxlen - rxoff))))
  else
    (* Decode header *)
    match read_headerbuf rxbuf rxoff with
    | Some ([b0; b1; b2; b3; b4; b5; b6] as headerbuf) =>
        let header := {| type := u8 b0; id := u8 b1; seq := u8 b2 |} in
        let size := decode_size b3 b4 b5 b6 in
        (* Check header validity *)
        if (size <? ARSDK_FRAME_HEADER_SIZE) || (u32 (rxoff + size) >? rxlen)
        then Iter_return (Ev_log LOGE Msg_bad_frame)
        else
          let rxoff1 := u32 (rxoff + ARSDK_FRAME_HEADER_SIZE) in
          (* Setup payload *)
          let payloadbuff := ptr_at rxbuf rxoff1 in
          let payloadlen := u32 (size - ARSDK_FRAME_HEADER_SIZE) in
          let payload :=
            arsdk_transport_payload_init_with_data
              (if payloadlen =? 0 then None else Some payloadbuff)
              payloadlen in
          let rxoff2 := u32 (rxoff1 + payloadlen) in
          Iter_next
            [ Ev_log_cmd headerbuf payload ARSDK_CMD_DIR_RX;
              Ev_recv_data header payload ]
            rxoff2
    | _ => Iter_fault
    end.

(** How a run of the loop ends, with the events it produced. *)
Inductive outcome :=
| Returned (tr : list event)   (* the function returned *)
| Faulted (tr : list event)    (* it read outside [rxbuf] *)
| Running (tr : list event).   (* still looping when the fuel ran out *)

Definition emit_before (evs : list event) (o : outcome) : outcome :=
  match o with
  | Returned tr => Returned (evs ++ tr)
  | Faulted tr => Faulted (evs ++ tr)
  | Running tr => Running (evs ++ tr)
  end.

Definition events_of (o : outcome) : list event :=
  match o with
  | Returned tr | Faulted tr | Running tr => tr
  end.

Definition has_returned (o : outcome) : bool :=
  match o with
  | Returned _ => true
  | _ => false
  end.

(** The [while] loop from a given [rxoff]; [fuel] bounds the number of
    passes. *)
Fixpoint process_rxbuf_loop (fuel : nat) (rxbuf : list uint8_t)
    (rxlen rxoff : Z) : outcome :=
  match fuel with
  | O => Running []
  | S fuel' =>
      match process_rxbuf_iter rxbuf rxlen rxoff with
      | Iter_exit => Returned []
      | Iter_return e => Returned [e]
      | Iter_fault => Faulted []
      | Iter_next evs rxoff' =>
          emit_before evs (process_rxbuf_loop fuel' rxbuf rxlen rxoff')
      end
  end.

Definition process_rxbuf (fuel : nat) (rxbuf : list uint8_t) (rxlen : Z)
    : outcome :=
  process_rxbuf_loop fuel rxbuf rxlen 0.

(** A 14-byte datagram of two frames: an empty frame of size 7, then a
    header whose size field is 0xfffffff9, so that [rxoff + size] is 2^32
    at [rxoff = 7]. *)
Definition wrapping_datagram : list uint8_t :=
  [ x00; x00; x00; x07; x00; x00; x00;
    x00; x00; x00; xf9; xff; xff; xff ].

(** The size field of the header that would start at [off], when its seven
    bytes exist. *)
Definition size_field_at (rxbuf : list uint8_t) (off : Z) : option Z :=
  match read_headerbuf rxbuf off with
  | Some [_; _; _; b3; b4; b5; b6] => Some (decode_size b3 b4 b5 b6)
  | _ => None
  end.

(** No offset below [rxlen] holds a size field that takes [offset + size]
    to 2^32 or beyond. *)
Definition no_wrapping_size (rxbuf : list uint8_t) (rxlen : Z) : bool :=
  forallb
    (fun k => match size_field_at rxbuf (Z.of_nat k) with
              | Some size => Z.of_nat k + size <? UINT32_MOD
              | None => true
              end)
    (List.seq 0 (Z.to_nat rxlen)).

(** What the parent's receive sink is given, frame by frame: the header and
    the bytes of the payload view. *)
Definition frame_content (f : arsdk_transport_header * arsdk_transport_payload)
    : arsdk_transport_header * list uint8_t :=
  (fst f, payload_bytes (snd f)).

(** ** The environment: [errno.h], system calls, the parent transport *)

(** The error numbers of the platform's [errno.h] that the file names.
    POSIX makes them positive values of type [int]; [EAGAIN] and
    [EWOULDBLOCK] may coincide. *)
Class errno_h := {
  EINTR : Z;
  EAGAIN : Z;
  EWOULDBLOCK : Z;
  ENOBUFS : Z;
  EPIPE : Z;
  EINVAL : Z;
  EINTR_int : 0 < EINTR <= INT_MAX;
  EAGAIN_int : 0 < EAGAIN <= INT_MAX;
  EWOULDBLOCK_int : 0 < EWOULDBLOCK <= INT_MAX;
  ENOBUFS_int : 0 < ENOBUFS <= INT_MAX;
  EPIPE_int : 0 < EPIPE <= INT_MAX;
  EINVAL_int : 0 < EINVAL <= INT_MAX
}.

(** The values of Linux ([asm-generic/errno-base.h], [asm-generic/errno.h]). *)
#[refine] Instance linux_errno : errno_h := {|
  EINTR := 4;
  EAGAIN := 11;
  EWOULDBLOCK := 11;
  ENOBUFS := 105;
  EPIPE := 32;
  EINVAL := 22
|}.
Proof. all: unfold INT_MAX; lia. Defined.

(** Outcome of one [recvfrom] call: a datagram, or [-1] with [errno] set. *)
Inductive recvfrom_result :=
| Recv_ok (datagram : list uint8_t)
| Recv_err (errno : Z).

(** Outcome of one [sendmsg] call: a byte count, or [-1] with [errno] set. *)
Inductive sendmsg_result :=
| Send_ok (n : N)
| Send_err (errno : Z).

(** What the outside will answer: the successive values of [rand()] and the
    successive outcomes of [recvfrom] and [sendmsg] on the data socket; and
    what it has been handed: for every [sendmsg] call made so far, in call
    order, the descriptor and the bytes of the scatter-gather list of the
    message. *)
Record world := mk_world {
  rand_q : list Z;
  recvfrom_q : list recvfrom_result;
  sendmsg_q : list sendmsg_result;
  sendmsg_calls : list (Z * list uint8_t)
}.

(** Computations that consume the world and emit events; [None] when the
    script of the world is exhausted. *)
Definition M (A : Type) : Type := world -> option (A * world * list event).

Definition ret {A : Type} (a : A) : M A :=
  fun w => Some (a, w, []).

Definition bind {A B : Type} (m : M A) (k : A -> M B) : M B :=
  fun w =>
    match m w with
    | None => None
    | Some (a, w1, e1) =>
        match k a w1 with
        | None => None
        | Some (b, w2, e2) => Some (b, w2, e1 ++ e2)
        end
    end.

Declare Scope net_scope.
Delimit Scope net_scope with net.
Notation "x <- m ;; k" := (bind m (fun x => k))
  (at level 61, m at next level, right associativity) : net_scope.
Notation "m ;;; k" := (bind m (fun _ => k))
  (at level 61, right associativity) : net_scope.
Local Open Scope net_scope.

Definition emit (e : event) : M unit :=
  fun w => Some (tt, w, [e]).

(** [rand()] *)
Definition rand : M Z :=
  fun w =>
    match rand_q w with
    | [] => None
    | r :: q =>
        Some (r, {| rand_q := q; recvfrom_q := recvfrom_q w;
                    sendmsg_q := sendmsg_q w;
                    sendmsg_calls := sendmsg_calls w |}, [])
    end.

(** Modelled from the spec: the parent transport object
    ([struct arsdk_transport], defined outside this file), of which this
    backend uses the link status only: an {OK, KO} cell owned by the parent,
    read with [arsdk_transport_get_link_status] and written with
    [arsdk_transport_set_link_status]. *)
Record arsdk_transport := mk_transport {
  link_status : arsdk_link_status
}.

(** Modelled from the spec: [arsdk_transport_get_link_status(parent)] reads
    the cell. *)
Definition arsdk_transport_get_link_status (p : arsdk_transport)
    : arsdk_link_status :=
  link_status p.

(** [struct socket]: the fields the read and write paths use.  [rxbuf] is
    the allocated receive buffer; [rxbufsize] is its size. *)
Record socket := mk_socket {
  fd : Z;
  rxbuf : list uint8_t
}.

Definition rxbufsize (sock : socket) : Z := Z.of_nat (length (rxbuf sock)).

(** [struct arsdk_transport_net] *)
Record arsdk_transport_net := mk_net {
  parent : arsdk_transport;
  started : Z;
  data_sock : socket;
  rx_drop_ratio : Z;
  tx_drop_ratio : Z;
  tx_fail : Z
}.

Definition with_tx_fail (self : arsdk_transport_net) (v : Z)
    : arsdk_transport_net :=
  {| parent := parent self; started := started self;
     data_sock := data_sock self; rx_drop_ratio := rx_drop_ratio self;
     tx_drop_ratio := tx_drop_ratio self; tx_fail := v |}.

Definition with_link_status (self : arsdk_transport_net)
    (s : arsdk_link_status) : arsdk_transport_net :=
  {| parent := {| link_status := s |}; started := started self;
     data_sock := data_sock self; rx_drop_ratio := rx_drop_ratio self;
     tx_drop_ratio := tx_drop_ratio self; tx_fail := tx_fail self |}.

Definition with_rxbuf (self : arsdk_transport_net) (buf : list uint8_t)
    : arsdk_transport_net :=
  {| parent := parent self; started := started self;
     data_sock := {| fd := fd (data_sock self); rxbuf := buf |};
     rx_drop_ratio := rx_drop_ratio self;
     tx_drop_ratio := tx_drop_ratio self; tx_fail := tx_fail self |}.

(** Modelled from the spec: [arsdk_transport_set_link_status(self->parent,
    status)] writes the cell; the call is observed as an event. *)
Definition arsdk_transport_set_link_status (self : arsdk_transport_net)
    (s : arsdk_link_status) : M arsdk_transport_net :=
  emit (Ev_set_link_status s) ;;;
  ret (with_link_status self s).

Section Net.

Context {E : errno_h}.

(** [ARSDK_WOULD_BLOCK(_err)] *)
Definition ARSDK_WOULD_BLOCK (err : Z) : bool :=
  (err =? EAGAIN) || (err =? EWOULDBLOCK).

(** ** Read path: [socket_read] *)

(** The value [recvfrom] returns into [readlen]. *)
Definition recvfrom_ret (sock : socket) (r : recvfrom_result) : Z :=
  match r with
  | Recv_ok d => Z.min (Z.of_nat (length d)) (rxbufsize sock)
  | Recv_err _ => -1
  end.

(** The content of [rxbuf] after the call. *)
Definition recvfrom_fill (sock : socket) (r : recvfrom_result)
    : list uint8_t :=
  match r with
  | Recv_ok d =>
      let n := Nat.min (length d) (length (rxbuf sock)) in
      firstn n d ++ skipn n (rxbuf sock)
  | Recv_err _ => rxbuf sock
  end.

(** [do { readlen = recvfrom(...); } while (readlen < 0 && errno == -EINTR);]
    over the scripted outcomes: the outcome at which the loop stops and the
    outcomes left. *)
Fixpoint recvfrom_loop (q : list recvfrom_result)
    : option (recvfrom_result * list recvfrom_result) :=
  match q with
  | [] => None
  | r :: q' =>
      let again :=
        match r with
        | Recv_ok _ => false                    (* readlen >= 0 *)
        | Recv_err errno => errno =? - EINTR
        end in
      if again then recvfrom_loop q' else Some (r, q')
  end.

Definition recvfrom_ignoring_interrupts : M recvfrom_result :=
  fun w =>
    match recvfrom_loop (recvfrom_q w) with
    | None => None
    | Some (r, q) =>
        Some (r, {| rand_q := rand_q w; recvfrom_q := q;
                    sendmsg_q := sendmsg_q w;
                    sendmsg_calls := sendmsg_calls w |}, [])
    end.

(** [ratio != 0 && rand() % 100 < ratio]; [rand()] is called only when
    the ratio is not zero. *)
Definition drop_draw (ratio : Z) : M bool :=
  if ratio =? 0 then ret false
  else v <- rand ;; ret (Z.rem v 100 <? ratio).

Definition socket_read (self : arsdk_transport_net)
    (check_link_status : Z) : M (Z * arsdk_transport_net) :=
  let sock := data_sock self in
  (* Read data, ignoring interrupts *)
  r <- recvfrom_ignoring_interrupts ;;
  let readlen := recvfrom_ret sock r in
  let self := with_rxbuf self (recvfrom_fill sock r) in
  (* Something read ? *)
  if readlen >? 0 then
    drop <- drop_draw (rx_drop_ratio self) ;;
    if drop then
      emit (Ev_log LOGI (Msg_rx_drop (fd sock) readlen)) ;;;
      ret (- EAGAIN, self)
    else ret (readlen, self)
  (* EOF ? *)
  else if readlen =? 0 then
    emit (Ev_log LOGI (Msg_eof (fd sock))) ;;;
    ret (0, self)
  else
    (* Only print error if link status is currently OK (and checked) *)
    let errno := match r with Recv_err e => e | Recv_ok _ => 0 end in
    let res := - errno in
    let link_status := arsdk_transport_get_link_status (parent self) in
    if negb (ARSDK_WOULD_BLOCK (- res)) &&
       ((check_link_status =? 0) ||
        link_status_eqb link_status ARSDK_LINK_STATUS_OK)
    then
      emit (Ev_log LOGE (Msg_read_errno (fd sock) (- res))) ;;;
      self <- (if check_link_status =? 0 then ret self
               else arsdk_transport_set_link_status self
                      ARSDK_LINK_STATUS_KO) ;;
      ret (res, self)
    else ret (res, self).

(** ** Receive callback: [data_fd_cb]

    The decode loop runs with [fuel]; the outcome carries the events of the
    read followed by those of the decoding. *)
Definition data_fd_cb (fuel : nat) (self : arsdk_transport_net)
    : world -> option (arsdk_transport_net * world * outcome) :=
  fun w =>
    (* Read data and check link status *)
    match socket_read self 1 w with
    | None => None
    | Some ((readlen, self), w', evs) =>
        if readlen >? 0 then
          Some (self, w',
                emit_before evs
                  (process_rxbuf fuel (rxbuf (data_sock self))
                     (u32 readlen)))
        else Some (self, w', Returned evs)
    end.

(** ** Write path: [socket_write] (the POSIX variant) *)

(** [struct iovec] *)
Record iovec := mk_iovec {
  iov_base : option (list uint8_t);
  iov_len : Z
}.

(** The bytes a scatter-gather list denotes, segment after segment. *)
Definition iov_bytes (iov : list iovec) : list uint8_t :=
  flat_map
    (fun s => match iov_base s with
              | Some m => firstn (Z.to_nat (iov_len s)) m
              | None => []
              end) iov.

(** [do { writelen = sendmsg(sock->fd, &msg, 0); } while (writelen < 0 &&
    errno == EINTR);] over the scripted outcomes.  Every pass makes the
    call [call] (the descriptor and the bytes of [msg.msg_iov]), which is
    added to the calls made, and takes the next outcome: the result is the
    outcome at which the loop stops, the outcomes left and the calls
    made. *)
Fixpoint sendmsg_loop (call : Z * list uint8_t) (q : list sendmsg_result)
    (calls : list (Z * list uint8_t))
    : option (sendmsg_result * list sendmsg_result
              * list (Z * list uint8_t)) :=
  match q with
  | [] => None
  | r :: q' =>
      let calls := calls ++ [call] in
      let again :=
        match r with
        | Send_ok _ => false                    (* writelen >= 0 *)
        | Send_err errno => errno =? EINTR
        end in
      if again then sendmsg_loop call q' calls else Some (r, q', calls)
  end.

(** The write loop on the world.  Of the message handed to [sendmsg] the
    descriptor and the bytes of [msg_iov] are recorded; the destination
    ([msg_name], built from the configured address and port) is not part of
    this view of the socket. *)
Definition sendmsg_ignoring_interrupts (fd : Z) (iov : list iovec)
    : M sendmsg_result :=
  fun w =>
    match sendmsg_loop (fd, iov_bytes iov) (sendmsg_q w)
                       (sendmsg_calls w) with
    | None => None
    | Some (r, q, calls) =>
        Some (r, {| rand_q := rand_q w; recvfrom_q := recvfrom_q w;
                    sendmsg_q := q; sendmsg_calls := calls |}, [])
    end.

(** [socket_write]; a simulated drop answers [total] without any call. *)
Definition socket_write (self : arsdk_transport_net) (iov : list iovec)
    (total : Z) : M Z :=
  let sock := data_sock self in
  drop <- drop_draw (tx_drop_ratio self) ;;
  if drop then
    emit (Ev_log LOGI (Msg_tx_drop (fd sock) total)) ;;;
    ret total
  else
    (* Construct socket message with address and iov;
       write ignoring interrupts *)
    r <- sendmsg_ignoring_interrupts (fd sock) iov ;;
    (* return writelen >= 0 ? writelen : -errno; *)
    ret (match r with
         | Send_ok n => Z.of_N n
         | Send_err errno => - errno
         end).

(** ** Send: [arsdk_transport_net_send_data] *)

(** [size = ARSDK_FRAME_HEADER_SIZE + extra_hdrlen + payload->len], stored
    into a [uint32_t]. *)
Definition frame_size (extra_hdrlen : Z) (payload : arsdk_transport_payload)
    : Z :=
  u32 (ARSDK_FRAME_HEADER_SIZE + extra_hdrlen + len payload).

(** Construct header *)
Definition send_headerbuf (header : arsdk_transport_header) (size : Z)
    : list uint8_t :=
  [ to_u8 (type header);
    to_u8 (id header);
    to_u8 (seq header);
    to_u8 (Z.land size 255);
    to_u8 (Z.land (Z.shiftr size 8) 255);
    to_u8 (Z.land (Z.shiftr size 16) 255);
    to_u8 (Z.land (Z.shiftr size 24) 255) ].

(** Setup iov *)
Definition send_iov (headerbuf : list uint8_t)
    (payload : arsdk_transport_payload)
    (extra_hdr : option (list uint8_t)) (extra_hdrlen : Z) : list iovec :=
  [ {| iov_base := Some headerbuf; iov_len := ARSDK_FRAME_HEADER_SIZE |} ]
  ++ (if extra_hdrlen >? 0
      then [ {| iov_base := extra_hdr; iov_len := extra_hdrlen |} ]
      else [])
  ++ (if len payload >? 0
      then [ {| iov_base := cdata payload; iov_len := len payload |} ]
      else []).

Definition is_null {A : Type} (p : option A) : bool :=
  match p with
  | None => true
  | Some _ => false
  end.

(** The body of the function; [self], [header] and [payload] are values, so
    their three null checks hold by typing, and of
    [ARSDK_RETURN_ERR_IF_FAILED] the early return is kept.  [tx_fail++] is
    written with the narrowing to [int] (C leaves the increment of [INT_MAX]
    undefined). *)
Definition arsdk_transport_net_send_data (self : arsdk_transport_net)
    (header : arsdk_transport_header) (payload : arsdk_transport_payload)
    (extra_hdr : option (list uint8_t)) (extra_hdrlen : Z)
    : M (Z * arsdk_transport_net) :=
  if negb ((extra_hdrlen =? 0) || negb (is_null extra_hdr)) then
    ret (- EINVAL, self)
  else if negb ((len payload =? 0) || negb (is_null (cdata payload))) then
    ret (- EINVAL, self)
  else if (started self =? 0) || (fd (data_sock self) <? 0) then
    ret (- EPIPE, self)
  else
    let sock := data_sock self in
    (* Construct header *)
    let size := frame_size extra_hdrlen payload in
    let headerbuf := send_headerbuf header size in
    (* Log sent data *)
    emit (Ev_log_cmd headerbuf payload ARSDK_CMD_DIR_TX) ;;;
    (* Setup iov, do the write *)
    let iov := send_iov headerbuf payload extra_hdr extra_hdrlen in
    writelen <- socket_write self iov size ;;
    let link_status := arsdk_transport_get_link_status (parent self) in
    if writelen <? 0 then
      let res := int_of writelen in
      if res =? - ENOBUFS then
        emit (Ev_log LOGW (Msg_sendmsg_enobufs (fd sock) size (- res))) ;;;
        ret (0, with_tx_fail self (int_of (tx_fail self + 1)))
      else if negb (ARSDK_WOULD_BLOCK (- res)) &&
              link_status_eqb link_status ARSDK_LINK_STATUS_OK then
        emit (Ev_log LOGE (Msg_sendmsg_errno (fd sock) (- res))) ;;;
        self <- arsdk_transport_set_link_status self ARSDK_LINK_STATUS_KO ;;
        ret (res, self)
      else ret (res, self)
    else if negb (u32 writelen =? size) then
      emit (Ev_log LOGE (Msg_partial_write (fd sock) (u32 writelen) size)) ;;;
      ret (- EAGAIN, self)
    else if tx_fail self >? 0 then
      emit (Ev_log LOGI (Msg_succeed_after (fd sock) size (tx_fail self))) ;;;
      ret (0, with_tx_fail self 0)
    else ret (0, self).

(** The checks at the top of [send_data], taken together: they hold exactly
    when a call reaches the write. *)
Definition send_checks_pass (self : arsdk_transport_net)
    (payload : arsdk_transport_payload)
    (extra_hdr : option (list uint8_t)) (extra_hdrlen : Z) : bool :=
  ((extra_hdrlen =? 0) || negb (is_null extra_hdr))
  && ((len payload =? 0) || negb (is_null (cdata payload)))
  && negb ((started self =? 0) || (fd (data_sock self) <? 0)).

(** The datagram a send hands to the socket when there is no extra header:
    the bytes of the scatter-gather list that [send_data] builds. *)
Definition send_datagram (header : arsdk_transport_header)
    (payload : arsdk_transport_payload) : list uint8_t :=
  iov_bytes
    (send_iov (send_headerbuf header (frame_size 0 payload)) payload None 0).

End Net.

(** One frame on the wire without extra header, as the send path lays it
    out: the seven header bytes for the size [7 + length], then the payload
    bytes. *)
Definition wire_frame (f : arsdk_transport_header * list uint8_t)
    : list uint8_t :=
  send_headerbuf (fst f) (7 + Z.of_nat (length (snd f))) ++ snd f.

(** Frames laid back to back. *)
Definition wire_frames (fs : list (arsdk_transport_header * list uint8_t))
    : list uint8_t :=
  flat_map wire_frame fs.

(** The header fields fit their byte. *)
Definition header_in_range (h : arsdk_transport_header) : Prop :=
  0 <= type h <= 255 /\ 0 <= id h <= 255 /\ 0 <= seq h <= 255.

(** ** Life cycle: sockets, start, stop, dispose, creation

    The functions that open, register, unregister and close the data socket
    do little but system calls.  Each call that yields a result takes it
    from a script of answers, in call order; all calls, with their
    arguments, are recorded.  The module has the full [struct socket] and
    [struct arsdk_transport_net]; [to_net] gives the view of them that the
    read and write paths above work on. *)

(** The transport as the read and write paths see it. *)
Definition net_io : Type := arsdk_transport_net.

Module Lifecycle.

(** Further constants of the platform headers: error numbers (positive
    [int]s) and the [fcntl] flags. *)
Class platform_h := {
  EADDRINUSE : Z;
  ENOMEM : Z;
  EBUSY : Z;
  FD_CLOEXEC : Z;
  O_NONBLOCK : Z;
  EADDRINUSE_int : 0 < EADDRINUSE <= INT_MAX;
  ENOMEM_int : 0 < ENOMEM <= INT_MAX;
  EBUSY_int : 0 < EBUSY <= INT_MAX
}.

(** The values of Linux. *)
#[refine] Instance linux_platform : platform_h := {|
  EADDRINUSE := 98;
  ENOMEM := 12;
  EBUSY := 16;
  FD_CLOEXEC := 1;
  O_NONBLOCK := 2048
|}.
Proof. all: unfold INT_MAX; lia. Defined.

(** [IPTOS_PREC_INTERNETCONTROL] (CS6) and [IPTOS_PREC_FLASHOVERRIDE]
    (CS4), with the values the file itself gives where the system headers
    lack them. *)
Definition IPTOS_PREC_INTERNETCONTROL : Z := 192.
Definition IPTOS_PREC_FLASHOVERRIDE : Z := 128.

(** Store into a [uint16_t]. *)
Definition u16 (z : Z) : Z := z mod 2 ^ 16.

(** Modelled from the spec: [enum arsdk_socket_kind] (declared with the
    public net interface, not in the net backend), the channel-kind tag used
    for QoS marking: the control kind, the media kind, and the others, which
    the backend does not tell apart. *)
Inductive arsdk_socket_kind :=
| ARSDK_SOCKET_KIND_COMMAND
| ARSDK_SOCKET_KIND_VIDEO
| ARSDK_SOCKET_KIND_OTHER.

(** Modelled from the spec: [struct arsdk_transport_net_cfg] (declared with
    the public net interface): tx target address, tx port, rx port and the
    QoS mode flag. *)
Record arsdk_transport_net_cfg := mk_cfg {
  tx_addr : Z;
  data_rx_port : Z;
  data_tx_port : Z;
  qos_mode : Z
}.

(** [struct socket].  [txaddr], [rxport] and [txport] point into the
    transport's [cfg]; they are read and written there.  [rxbuf] is [None]
    for [NULL]. *)
Record socket := mk_sock {
  fd : Z;
  rxbuf : option (list uint8_t);
  rxbufsize : Z;
  rxenabled : Z;
  txenabled : Z;
  kind : arsdk_socket_kind
}.

(** [struct arsdk_transport_net] *)
Record arsdk_transport_net := mk_self {
  parent : arsdk_transport;
  started : Z;
  cfg : arsdk_transport_net_cfg;
  data_sock : socket;
  rx_drop_ratio : Z;
  tx_drop_ratio : Z;
  tx_fail : Z
}.

(** The view the read and write paths work on. *)
Definition to_net (self : arsdk_transport_net) : net_io :=
  mk_net (parent self) (started self)
         (mk_socket (fd (data_sock self))
                    (match rxbuf (data_sock self) with
                     | Some buf => buf
                     | None => []
                     end))
         (rx_drop_ratio self) (tx_drop_ratio self) (tx_fail self).

Definition with_sock (self : arsdk_transport_net) (sock : socket)
    : arsdk_transport_net :=
  mk_self (parent self) (started self) (cfg self) sock
          (rx_drop_ratio self) (tx_drop_ratio self) (tx_fail self).

Definition with_started (self : arsdk_transport_net) (v : Z)
    : arsdk_transport_net :=
  mk_self (parent self) v (cfg self) (data_sock self)
          (rx_drop_ratio self) (tx_drop_ratio self) (tx_fail self).

Definition with_cfg (self : arsdk_transport_net)
    (c : arsdk_transport_net_cfg) : arsdk_transport_net :=
  mk_self (parent self) (started self) c (data_sock self)
          (rx_drop_ratio self) (tx_drop_ratio self) (tx_fail self).

(** [*sock->rxport = v] *)
Definition with_rxport (self : arsdk_transport_net) (v : Z)
    : arsdk_transport_net :=
  with_cfg self
    (mk_cfg (tx_addr (cfg self)) v (data_tx_port (cfg self))
            (qos_mode (cfg self))).

Definition with_fd (sock : socket) (v : Z) : socket :=
  mk_sock v (rxbuf sock) (rxbufsize sock) (rxenabled sock) (txenabled sock)
          (kind sock).

Definition with_kind (sock : socket) (k : arsdk_socket_kind) : socket :=
  mk_sock (fd sock) (rxbuf sock) (rxbufsize sock) (rxenabled sock)
          (txenabled sock) k.

Definition with_rxbuf (sock : socket) (buf : option (list uint8_t))
    : socket :=
  mk_sock (fd sock) buf (rxbufsize sock) (rxenabled sock) (txenabled sock)
          (kind sock).

Definition with_rxbufsize (sock : socket) (v : Z) : socket :=
  mk_sock (fd sock) (rxbuf sock) v (rxenabled sock) (txenabled sock)
          (kind sock).

(** The places that log an error number. *)
Inductive log_site :=
| Log_fcntl_setfd | Log_fcntl_setfl | Log_socket | Log_bind
| Log_getsockname | Log_setsockopt_rcvbuf | Log_getsockopt_rcvbuf
| Log_setsockopt_sndbuf | Log_setsockopt_tos | Log_pomp_loop_add.

Inductive env_var :=
| ARSDK_TRANSPORT_NET_RX_DROP_RATIO
| ARSDK_TRANSPORT_NET_TX_DROP_RATIO.

(** The calls to the outside, with their arguments: system calls, the event
    loop ([pomp_loop_add], [pomp_loop_remove]), the owner's socket callback,
    the parent transport ([arsdk_transport_new], [arsdk_transport_destroy]),
    the logs. *)
Inductive call :=
| C_socket
| C_fcntl_getfd (fd : Z)
| C_fcntl_setfd (fd flags : Z)
| C_fcntl_getfl (fd : Z)
| C_fcntl_setfl (fd flags : Z)
| C_bind (fd port : Z)
| C_getsockname (fd : Z)
| C_setsockopt_rcvbuf (fd buflen : Z)
| C_getsockopt_rcvbuf (fd : Z)
| C_setsockopt_sndbuf (fd buflen : Z)
| C_setsockopt_tos (fd tos : Z)
| C_malloc (size : Z)
| C_free (null : bool)
| C_close (fd : Z)
| C_loop_add (fd : Z)
| C_loop_remove (fd : Z)
| C_socketcb (fd : Z) (kind : arsdk_socket_kind)
| C_log_errno (site : log_site) (err : Z)
| C_log_dynamic_port (newport oldport : Z)
| C_calloc
| C_getenv (name : env_var)
| C_transport_new
| C_transport_destroy
| C_free_self.

(** The answer to a call: its return value, the [errno] it leaves when it
    fails, and the value it stores through its result pointer when it has
    one (the port of [getsockname], the size of [getsockopt]; for [getenv],
    what [atoi] makes of the string). *)
Record answer := mk_answer {
  ret : Z;
  errno : Z;
  out : Z
}.

(** Computations that take the answers of the calls they make from the
    script [sc], from position [n] on, and record the calls. *)
Definition S (A : Type) : Type :=
  (nat -> answer) -> nat -> A * nat * list call.

Definition pure {A : Type} (a : A) : S A :=
  fun _ n => (a, n, []).

Definition andthen {A B : Type} (m : S A) (k : A -> S B) : S B :=
  fun sc n =>
    let '(a, n1, t1) := m sc n in
    let '(b, n2, t2) := k a sc n1 in
    (b, n2, t1 ++ t2).

(** A call whose result is used. *)
Definition ask (c : call) : S answer :=
  fun sc n => (sc n, Datatypes.S n, [c]).

(** A call whose result is not used. *)
Definition tell (c : call) : S unit :=
  fun _ n => (tt, n, [c]).

Declare Scope life_scope.
Delimit Scope life_scope with life.
Notation "x <- m ;; k" := (andthen m (fun x => k))
  (at level 61, m at next level, right associativity) : life_scope.
Notation "m ;;; k" := (andthen m (fun _ => k))
  (at level 61, right associativity) : life_scope.

(** The calls recorded, the state and the value at the end of a run. *)
Definition calls_of {A : Type} (r : A * nat * list call) : list call :=
  snd r.
Definition value_of {A : Type} (r : A * nat * list call) : A :=
  fst (fst r).

Definition is_bind (c : call) : bool :=
  match c with C_bind _ _ => true | _ => false end.
Definition is_close (c : call) : bool :=
  match c with C_close _ => true | _ => false end.
Definition is_socketcb (c : call) : bool :=
  match c with C_socketcb _ _ => true | _ => false end.
Definition is_setsockopt_tos (c : call) : bool :=
  match c with C_setsockopt_tos _ _ => true | _ => false end.
Definition is_loop_call (c : call) : bool :=
  match c with C_loop_add _ | C_loop_remove _ => true | _ => false end.
Definition is_log_dynamic_port (c : call) : bool :=
  match c with C_log_dynamic_port _ _ => true | _ => false end.

(** The error numbers a script leaves are positive, as POSIX has them. *)
Definition errno_positive (sc : nat -> answer) : Prop :=
  forall m, 0 < errno (sc m).

(** The script that gives the answers of a list, then [d] for ever. *)
Definition script_of (l : list answer) (d : answer) : nat -> answer :=
  fun m => nth m l d.

Section Calls.

Context {E : errno_h} {P : platform_h}.
Local Open Scope life_scope.

(** [setup_fd_flags]; the inner [fcntl] of each statement is evaluated
    first. *)
Definition setup_fd_flags (fd : Z) : S Z :=
  getfd <- ask (C_fcntl_getfd fd) ;;
  setfd <- ask (C_fcntl_setfd fd (Z.lor FD_CLOEXEC (ret getfd))) ;;
  if ret setfd <? 0 then
    let res := - errno setfd in
    tell (C_log_errno Log_fcntl_setfd (errno setfd)) ;;;
    pure res
  else
    getfl <- ask (C_fcntl_getfl fd) ;;
    setfl <- ask (C_fcntl_setfl fd (Z.lor O_NONBLOCK (ret getfl))) ;;
    if ret setfl <? 0 then
      let res := - errno setfl in
      tell (C_log_errno Log_fcntl_setfl (errno setfl)) ;;;
      pure res
    else pure 0.

(** [socket_setup], from the label [error:] on: cleanup in case of error. *)
Definition socket_setup_error (self : arsdk_transport_net) (res : Z)
    : S (Z * arsdk_transport_net) :=
  let sock := data_sock self in
  tell (C_free (is_null (rxbuf sock))) ;;;
  let sock := with_rxbuf sock None in
  if fd sock >=? 0 then
    tell (C_close (fd sock)) ;;;
    pure (res, with_sock self (with_fd sock (-1)))
  else pure (res, with_sock self sock).

(** [socket_setup], from [if (sock->txenabled)] on: size the send buffer,
    then notify the owner and return 0. *)
Definition socket_setup_tx (self : arsdk_transport_net)
    (k : arsdk_socket_kind) : S (Z * arsdk_transport_net) :=
  let sock := data_sock self in
  if negb (txenabled sock =? 0) then
    (* Set Tx buffer size *)
    setsnd <- ask (C_setsockopt_sndbuf (fd sock) 65536) ;;
    if ret setsnd <? 0 then
      tell (C_log_errno Log_setsockopt_sndbuf (errno setsnd)) ;;;
      socket_setup_error self (- errno setsnd)
    else
      (* Success *)
      tell (C_socketcb (fd sock) k) ;;;
      pure (0, self)
  else
    tell (C_socketcb (fd sock) k) ;;;
    pure (0, self).

(** [socket_setup], from the successful [bind] on: read back the port, size
    and allocate the receive buffer (whose content is not initialised: zeros
    stand for it), then the transmit part. *)
Definition socket_setup_bound (self : arsdk_transport_net)
    (k : arsdk_socket_kind) : S (Z * arsdk_transport_net) :=
  let sock := data_sock self in
  (* Retrieve back address to determine bound port *)
  name <- ask (C_getsockname (fd sock)) ;;
  if ret name <? 0 then
    tell (C_log_errno Log_getsockname (errno name)) ;;;
    socket_setup_error self (- errno name)
  else
    let newrxport := u16 (out name) in
    (if negb (newrxport =? data_rx_port (cfg self))
     then tell (C_log_dynamic_port newrxport (data_rx_port (cfg self)))
     else pure tt) ;;;
    let self := with_rxport self newrxport in
    (* Set Rx buffer size *)
    setrcv <- ask (C_setsockopt_rcvbuf (fd sock) 65536) ;;
    if ret setrcv <? 0 then
      tell (C_log_errno Log_setsockopt_rcvbuf (errno setrcv)) ;;;
      socket_setup_error self (- errno setrcv)
    else
      (* Determine receive buffer size *)
      getrcv <- ask (C_getsockopt_rcvbuf (fd sock)) ;;
      if ret getrcv <? 0 then
        tell (C_log_errno Log_getsockopt_rcvbuf (errno getrcv)) ;;;
        socket_setup_error self (- errno getrcv)
      else
        (* sock->rxbufsize /= 2 *)
        let size := Z.quot (out getrcv) 2 in
        let self := with_sock self (with_rxbufsize sock size) in
        (* Allocate rx buffer *)
        buf <- ask (C_malloc size) ;;
        if ret buf =? 0 then
          socket_setup_error self (- ENOMEM)
        else
          let sock :=
            with_rxbuf (data_sock self)
              (Some (repeat x00 (Z.to_nat size))) in
          socket_setup_tx (with_sock self sock) k.

(** [socket_setup(self, &self->data_sock, kind)] *)
Definition socket_setup (self : arsdk_transport_net)
    (k : arsdk_socket_kind) : S (Z * arsdk_transport_net) :=
  let sock := data_sock self in
  (* Nothing to do if neither rx nor tx is enabled *)
  if (rxenabled sock =? 0) && (txenabled sock =? 0) then pure (0, self)
  else
    (* Create socket fd *)
    s <- ask C_socket ;;
    let sock := with_fd sock (ret s) in
    let self := with_sock self sock in
    if fd sock <? 0 then
      tell (C_log_errno Log_socket (errno s)) ;;;
      socket_setup_error self (- errno s)
    else
      let sock := with_kind sock k in
      let self := with_sock self sock in
      res <- setup_fd_flags (fd sock) ;;
      if res <? 0 then socket_setup_error self res
      else if negb (rxenabled sock =? 0) then
        (* Bind to address *)
        let port := data_rx_port (cfg self) in
        b1 <- ask (C_bind (fd sock) port) ;;
        if ret b1 <? 0 then
          if (- errno b1 =? - EADDRINUSE) && negb (port =? 0) then
            (* addr.sin_port = 0; goto retry_bind; *)
            b2 <- ask (C_bind (fd sock) 0) ;;
            if ret b2 <? 0 then
              (* the port is 0 now: no further retry *)
              tell (C_log_errno Log_bind (errno b2)) ;;;
              socket_setup_error self (- errno b2)
            else socket_setup_bound self k
          else
            tell (C_log_errno Log_bind (errno b1)) ;;;
            socket_setup_error self (- errno b1)
        else socket_setup_bound self k
      else socket_setup_tx self k.

(** [socket_stop] *)
Definition socket_stop (self : arsdk_transport_net) : S Z :=
  let sock := data_sock self in
  (* Stop monitoring IN events *)
  (if negb (rxenabled sock =? 0) then tell (C_loop_remove (fd sock))
   else pure tt) ;;;
  pure 0.

(** [socket_start]; [pomp_loop_add] answers with its result code. *)
Definition socket_start (self : arsdk_transport_net) : S Z :=
  let sock := data_sock self in
  (* Monitor IN events of rx socket *)
  add <- (if negb (rxenabled sock =? 0)
          then a <- ask (C_loop_add (fd sock)) ;; pure (ret a)
          else pure 0) ;;
  if add <? 0 then
    tell (C_log_errno Log_pomp_loop_add (- add)) ;;;
    pure add
  else if qos_mode (cfg self) =? 1 then
    let tos :=
      match kind sock with
      | ARSDK_SOCKET_KIND_COMMAND => IPTOS_PREC_INTERNETCONTROL
      | ARSDK_SOCKET_KIND_VIDEO => IPTOS_PREC_FLASHOVERRIDE
      | ARSDK_SOCKET_KIND_OTHER => 0
      end in
    if negb (tos =? 0) then
      settos <- ask (C_setsockopt_tos (fd sock) tos) ;;
      if ret settos <? 0 then
        let res := - errno settos in
        tell (C_log_errno Log_setsockopt_tos (- res)) ;;;
        pure res
      else pure add
    else pure add
  else pure add.

(** [socket_cleanup] *)
Definition socket_cleanup (self : arsdk_transport_net)
    : S (Z * arsdk_transport_net) :=
  let sock := data_sock self in
  self <- (if fd sock >=? 0 then
             (if negb (started self =? 0) then socket_stop self
              else pure 0) ;;;
             tell (C_close (fd sock)) ;;;
             pure (with_sock self (with_fd sock (-1)))
           else pure self) ;;
  let sock := data_sock self in
  if negb (rxenabled sock =? 0) then
    tell (C_free (is_null (rxbuf sock))) ;;;
    pure (0, with_sock self (with_rxbufsize (with_rxbuf sock None) 0))
  else pure (0, self).

(** [arsdk_transport_net_dispose]: the transport as it is when its memory
    is released. *)
Definition arsdk_transport_net_dispose (self : arsdk_transport_net)
    : S (Z * arsdk_transport_net) :=
  (* Free sockets *)
  r <- socket_cleanup self ;;
  tell C_free_self ;;;
  pure (0, snd r).

(** [arsdk_transport_net_start] *)
Definition arsdk_transport_net_start (self : arsdk_transport_net)
    : S (Z * arsdk_transport_net) :=
  if negb (started self =? 0) then pure (- EBUSY, self)
  else
    (* Start sockets *)
    res <- socket_start self ;;
    if res <? 0 then
      (* Cleanup in case of error *)
      socket_stop self ;;;
      pure (res, self)
    else pure (0, with_started self 1).

(** [arsdk_transport_net_stop] *)
Definition arsdk_transport_net_stop (self : arsdk_transport_net)
    : S (Z * arsdk_transport_net) :=
  if started self =? 0 then pure (0, self)
  else
    (* Stop sockets (ignore errors) *)
    socket_stop self ;;;
    pure (0, with_started self 0).

(** [getenv(name)] then, when the variable is set, [atoi] of it. *)
Definition getenv_ratio (name : env_var) (current : Z) : S Z :=
  val <- ask (C_getenv name) ;;
  pure (if negb (ret val =? 0) then int_of (out val) else current).

(** [arsdk_transport_net_new]: [ret_obj], [loop], [cbs] and
    [cbs->socketcb] are given by whether they are not [NULL], [cfg] by its
    content; [parent0] is the base object [arsdk_transport_new] creates.
    The result is the return code and what [*ret_obj] holds. *)
Definition arsdk_transport_net_new (parent0 : arsdk_transport)
    (loop : bool) (c : option arsdk_transport_net_cfg)
    (cbs socketcb ret_obj : bool)
    : S (Z * option arsdk_transport_net) :=
  if negb ret_obj then pure (- EINVAL, None)
  else if negb loop then pure (- EINVAL, None)
  else
    match c with
    | None => pure (- EINVAL, None)
    | Some c =>
        if negb cbs then pure (- EINVAL, None)
        else if negb socketcb then pure (- EINVAL, None)
        else
          (* Allocate structure *)
          mem <- ask C_calloc ;;
          if ret mem =? 0 then pure (- ENOMEM, None)
          else
            (* Initialize structure *)
            rx <- getenv_ratio ARSDK_TRANSPORT_NET_RX_DROP_RATIO 0 ;;
            tx <- getenv_ratio ARSDK_TRANSPORT_NET_TX_DROP_RATIO 0 ;;
            (* Setup base structure *)
            base <- ask C_transport_new ;;
            if ret base <? 0 then
              tell C_transport_destroy ;;;
              pure (ret base, None)
            else
              (* Data socket *)
              let self :=
                mk_self parent0 0 c
                  (mk_sock (-1) None 0 1 1 ARSDK_SOCKET_KIND_OTHER)
                  rx tx 0 in
              r <- socket_setup self ARSDK_SOCKET_KIND_COMMAND ;;
              if fst r <? 0 then
                tell C_transport_destroy ;;;
                pure (fst r, None)
              else pure (0, Some (snd r))
    end.

(** [arsdk_transport_net_get_parent], for a transport that exists. *)
Definition arsdk_transport_net_get_parent (self : arsdk_transport_net)
    : arsdk_transport :=
  parent self.

(** [arsdk_transport_net_get_cfg] *)
Definition arsdk_transport_net_get_cfg (self : arsdk_transport_net)
    : Z * arsdk_transport_net_cfg :=
  (0, cfg self).

(** [arsdk_transport_net_update_cfg] *)
Definition arsdk_transport_net_update_cfg (self : arsdk_transport_net)
    (c : arsdk_transport_net_cfg) : Z * arsdk_transport_net :=
  (0, with_cfg self c).

(** [arsdk_transport_net_socket_cb] *)
Definition arsdk_transport_net_socket_cb (self : arsdk_transport_net)
    (fd : Z) (k : arsdk_socket_kind) : S Z :=
  tell (C_socketcb fd k) ;;;
  pure 0.

End Calls.

End Lifecycle.

(** * Properties *)

(** ** Bytes and 32-bit values *)

Lemma u8_range (b : uint8_t) : 0 <= u8 b < 256.
Proof.
  unfold u8. pose proof (Byte.to_N_bounded b). lia.
Qed.

Lemma u8_to_u8 (z : Z) : u8 (to_u8 z) = z mod 256.
Proof.
  unfold u8, to_u8.
  assert (Hr : 0 <= z mod 256 < 256) by (apply Z.mod_pos_bound; lia).
  destruct (Byte.of_N (Z.to_N (z mod 256))) as [b|] eqn:Hb.
  - apply Byte.to_of_N in Hb. rewrite Hb. apply Z2N.id. lia.
  - apply Byte.of_N_None_iff in Hb. lia.
Qed.

Lemma u8_to_u8_small (z : Z) : 0 <= z <= 255 -> u8 (to_u8 z) = z.
Proof.
  intros Hz. rewrite u8_to_u8. apply Z.mod_small. lia.
Qed.

Lemma u32_small (z : Z) : 0 <= z < UINT32_MOD -> u32 z = z.
Proof.
  intros Hz. unfold u32. apply Z.mod_small. exact Hz.
Qed.

Lemma u32_range (z : Z) : 0 <= u32 z < UINT32_MOD.
Proof.
  unfold u32, UINT32_MOD. apply Z.mod_pos_bound. lia.
Qed.

Lemma int_of_small (z : Z) : INT_MIN <= z <= INT_MAX -> int_of z = z.
Proof.
  unfold int_of, INT_MIN, INT_MAX, UINT32_MOD. intros Hz.
  rewrite Z.mod_small by lia. lia.
Qed.

(** Byte [k] of a value, as the send path extracts it. *)
Lemma u8_byte_of (s k : Z) :
  0 <= k ->
  u8 (to_u8 (Z.land (Z.shiftr s k) 255)) = Z.land (Z.shiftr s k) (Z.ones 8).
Proof.
  intros Hk. rewrite u8_to_u8. change 255 with (Z.ones 8).
  rewrite Z.land_ones by lia. apply Z.mod_small.
  apply Z.mod_pos_bound. lia.
Qed.

(** The four size bytes written by the send path decode to the size. *)
Lemma decode_size_send (s : Z) :
  0 <= s < UINT32_MOD ->
  decode_size (to_u8 (Z.land s 255))
              (to_u8 (Z.land (Z.shiftr s 8) 255))
              (to_u8 (Z.land (Z.shiftr s 16) 255))
              (to_u8 (Z.land (Z.shiftr s 24) 255)) = s.
Proof.
  intros Hs. unfold decode_size.
  rewrite <- (Z.shiftr_0_r s) at 1.
  rewrite !u8_byte_of by lia.
  rewrite Z.shiftr_0_r.
  assert (Hbits :
    Z.lor (Z.lor (Z.lor (Z.land s (Z.ones 8))
                        (Z.shiftl (Z.land (Z.shiftr s 8) (Z.ones 8)) 8))
                 (Z.shiftl (Z.land (Z.shiftr s 16) (Z.ones 8)) 16))
          (Z.shiftl (Z.land (Z.shiftr s 24) (Z.ones 8)) 24) = s).
  { apply Z.bits_inj'. intros n Hn.
    rewrite !Z.lor_spec, !Z.shiftl_spec, !Z.land_spec by lia.
    destruct (Z.ltb_spec n 8) as [H8|H8].
    - rewrite (Z.testbit_neg_r _ (n - 8)), (Z.testbit_neg_r _ (n - 16)),
        (Z.testbit_neg_r _ (n - 24)) by lia.
      rewrite Z.testbit_ones_nonneg by lia.
      replace (n <? 8) with true by (symmetry; apply Z.ltb_lt; lia).
      rewrite !orb_false_r, andb_true_r. reflexivity.
    - rewrite (Z.testbit_ones_nonneg 8 n) by lia.
      replace (n <? 8) with false by (symmetry; apply Z.ltb_ge; lia).
      rewrite andb_false_r, orb_false_l.
      rewrite !Z.shiftr_spec by lia.
      destruct (Z.ltb_spec n 16) as [H16|H16].
      + rewrite (Z.testbit_neg_r _ (n - 16)), (Z.testbit_neg_r _ (n - 24))
          by lia.
        rewrite Z.testbit_ones_nonneg by lia.
        replace (n - 8 <? 8) with true by (symmetry; apply Z.ltb_lt; lia).
        rewrite !orb_false_r, andb_true_r. f_equal. lia.
      + rewrite (Z.testbit_ones_nonneg 8 (n - 8)) by lia.
        replace (n - 8 <? 8) with false by (symmetry; apply Z.ltb_ge; lia).
        rewrite andb_false_r, orb_false_l.
        destruct (Z.ltb_spec n 24) as [H24|H24].
        * rewrite (Z.testbit_neg_r _ (n - 24)) by lia.
          rewrite !Z.shiftr_spec by lia.
          rewrite Z.testbit_ones_nonneg by lia.
          replace (n - 16 <? 8) with true by (symmetry; apply Z.ltb_lt; lia).
          rewrite orb_false_r, andb_true_r. f_equal. lia.
        * rewrite !Z.shiftr_spec by lia.
          rewrite (Z.testbit_ones_nonneg 8 (n - 16)) by lia.
          replace (n - 16 <? 8) with false by (symmetry; apply Z.ltb_ge; lia).
          rewrite andb_false_r, orb_false_l.
          rewrite Z.testbit_ones_nonneg by lia.
          replace (n - 24 + 24) with n by lia.
          destruct (Z.ltb_spec (n - 24) 8) as [H32|H32].
          -- apply andb_true_r.
          -- rewrite andb_false_r. symmetry.
             rewrite <- (Z.mod_small s (2 ^ 32)) by exact Hs.
             apply Z.mod_pow2_bits_high. lia. }
  rewrite Hbits. apply u32_small. exact Hs.
Qed.

(** ** Reading a buffer *)

Lemma rd_app_r (pre l : list uint8_t) (k : Z) :
  0 <= k ->
  rd (pre ++ l) (Z.of_nat (length pre) + k) = rd l k.
Proof.
  intros Hk. unfold rd.
  destruct (Z.ltb_spec (Z.of_nat (length pre) + k) 0) as [H|_]; [lia|].
  destruct (Z.ltb_spec k 0) as [H|_]; [lia|].
  rewrite nth_error_app2 by lia. f_equal. lia.
Qed.

Lemma read_headerbuf_at (pre rest : list uint8_t)
    (b0 b1 b2 b3 b4 b5 b6 : uint8_t) :
  read_headerbuf (pre ++ [b0; b1; b2; b3; b4; b5; b6] ++ rest)
                 (Z.of_nat (length pre))
  = Some [b0; b1; b2; b3; b4; b5; b6].
Proof.
  unfold read_headerbuf.
  rewrite <- (Z.add_0_r (Z.of_nat (length pre))) at 1.
  rewrite !rd_app_r by lia. reflexivity.
Qed.

Lemma ptr_at_payload (pre hb rest : list uint8_t) :
  length hb = 7%nat ->
  ptr_at (pre ++ hb ++ rest) (Z.of_nat (length pre) + 7) = rest.
Proof.
  intros Hhb. unfold ptr_at.
  replace (Z.to_nat (Z.of_nat (length pre) + 7))
    with (length (pre ++ hb))%nat by (rewrite length_app; lia).
  rewrite app_assoc, skipn_app, skipn_all, Nat.sub_diag. reflexivity.
Qed.

(** ** One pass of the decode loop *)

(** A frame that lies whole inside the first [rxlen] bytes is dispatched:
    header fields from its own seven bytes, a view of [size - 7] bytes
    starting right behind them ([NULL] when that is zero), and the offset
    moved to the byte behind the frame. *)
Lemma process_rxbuf_iter_frame (pre body post : list uint8_t)
    (b0 b1 b2 b3 b4 b5 b6 : uint8_t) (rxlen : Z) :
  decode_size b3 b4 b5 b6 = 7 + Z.of_nat (length body) ->
  Z.of_nat (length pre) + 7 + Z.of_nat (length body) <= rxlen ->
  rxlen < UINT32_MOD ->
  let payload :=
    {| cdata := if Z.of_nat (length body) =? 0 then None
                else Some (body ++ post);
       len := Z.of_nat (length body) |} in
  process_rxbuf_iter (pre ++ [b0; b1; b2; b3; b4; b5; b6] ++ body ++ post)
                     rxlen (Z.of_nat (length pre))
  = Iter_next
      [ Ev_log_cmd [b0; b1; b2; b3; b4; b5; b6] payload ARSDK_CMD_DIR_RX;
        Ev_recv_data {| type := u8 b0; id := u8 b1; seq := u8 b2 |} payload ]
      (Z.of_nat (length pre) + 7 + Z.of_nat (length body)).
Proof.
  intros Hsize Hfit Hlen payload. subst payload.
  unfold process_rxbuf_iter, ARSDK_FRAME_HEADER_SIZE.
  set (off := Z.of_nat (length pre)) in *.
  set (n := Z.of_nat (length body)) in *.
  assert (Hoff : 0 <= off) by (subst off; lia).
  assert (Hn : 0 <= n) by (subst n; lia).
  destruct (Z.ltb_spec off rxlen) as [_|H]; [cbn [negb]|lia].
  rewrite (u32_small (off + 7)) by lia.
  destruct (Z.gtb_spec (off + 7) rxlen) as [H|_]; [lia|].
  subst off. rewrite read_headerbuf_at.
  set (off := Z.of_nat (length pre)) in *.
  rewrite Hsize.
  destruct (Z.ltb_spec (7 + n) 7) as [H|_]; [lia|cbn [orb]].
  rewrite (u32_small (off + (7 + n))) by lia.
  destruct (Z.gtb_spec (off + (7 + n)) rxlen) as [H|_]; [lia|].
  replace (7 + n - 7) with n by lia.
  rewrite (u32_small n) by lia.
  rewrite (u32_small (off + 7 + n)) by lia.
  subst off. rewrite ptr_at_payload by reflexivity.
  reflexivity.
Qed.

(** Past the end of the received bytes the loop condition is false. *)
Lemma process_rxbuf_iter_end (rxbuf : list uint8_t) (rxlen rxoff : Z) :
  rxlen <= rxoff -> process_rxbuf_iter rxbuf rxlen rxoff = Iter_exit.
Proof.
  intros H. unfold process_rxbuf_iter.
  destruct (Z.ltb_spec rxoff rxlen) as [H'|_]; [lia|reflexivity].
Qed.

(** The remaining fuel does not matter once the loop has exited. *)
Lemma process_rxbuf_loop_end (fuel : nat) (rxbuf : list uint8_t)
    (rxlen rxoff : Z) :
  rxlen <= rxoff ->
  process_rxbuf_loop (S fuel) rxbuf rxlen rxoff = Returned [].
Proof.
  intros H. simpl. rewrite process_rxbuf_iter_end by exact H. reflexivity.
Qed.

Lemma process_rxbuf_loop_next (fuel : nat) (rxbuf : list uint8_t)
    (rxlen rxoff rxoff' : Z) (evs : list event) :
  process_rxbuf_iter rxbuf rxlen rxoff = Iter_next evs rxoff' ->
  process_rxbuf_loop (S fuel) rxbuf rxlen rxoff
  = emit_before evs (process_rxbuf_loop fuel rxbuf rxlen rxoff').
Proof.
  intros H. cbn [process_rxbuf_loop]. rewrite H. reflexivity.
Qed.

(** ** The send path's datagram *)

(** Without extra header, the datagram is the seven header bytes followed by
    the bytes of the payload view. *)
Lemma send_datagram_layout (header : arsdk_transport_header)
    (payload : arsdk_transport_payload) :
  payload_in_bounds payload = true ->
  send_datagram header payload
  = send_headerbuf header (frame_size 0 payload) ++ payload_bytes payload
  /\ Z.of_nat (length (payload_bytes payload)) = len payload.
Proof.
  unfold payload_in_bounds, payload_bytes, send_datagram, send_iov, iov_bytes.
  cbn [Z.gtb Z.compare app flat_map iov_base iov_len].
  intros Hin. destruct (cdata payload) as [m|].
  - apply andb_prop in Hin. destruct Hin as [H0 Hm].
    apply Z.leb_le in H0. apply Z.leb_le in Hm.
    split.
    + destruct (Z.gtb_spec (len payload) 0) as [Hpos|Hzero].
      * cbn [app flat_map iov_base iov_len]. rewrite app_nil_r. reflexivity.
      * replace (len payload) with 0 by lia. reflexivity.
    + rewrite length_firstn. lia.
  - apply Z.eqb_eq in Hin. rewrite Hin. split; reflexivity.
Qed.

(** ** Round trip, packing, empty payloads *)

(** Decoding "seven header bytes as the send path writes them, then the
    payload bytes": one frame, then the end of the buffer. *)
Lemma decode_sent_frame (header : arsdk_transport_header)
    (data : list uint8_t) (k : nat) :
  0 <= type header <= 255 ->
  0 <= id header <= 255 ->
  0 <= seq header <= 255 ->
  7 + Z.of_nat (length data) < UINT32_MOD ->
  let n := Z.of_nat (length data) in
  let hb := send_headerbuf header (7 + n) in
  let view := {| cdata := if n =? 0 then None else Some data; len := n |} in
  process_rxbuf (2 + k) (hb ++ data) (7 + n)
  = Returned [ Ev_log_cmd hb view ARSDK_CMD_DIR_RX;
               Ev_recv_data header view ].
Proof.
  intros Ht Hi Hs Hfit n hb view.
  unfold process_rxbuf. change (2 + k)%nat with (S (S k)).
  pose proof (process_rxbuf_iter_frame [] data []
                (to_u8 (type header)) (to_u8 (id header))
                (to_u8 (seq header))
                (to_u8 (Z.land (7 + n) 255))
                (to_u8 (Z.land (Z.shiftr (7 + n) 8) 255))
                (to_u8 (Z.land (Z.shiftr (7 + n) 16) 255))
                (to_u8 (Z.land (Z.shiftr (7 + n) 24) 255))
                (7 + n)) as Hframe.
  cbn [length app Z.of_nat] in Hframe. rewrite app_nil_r in Hframe.
  cbn zeta in Hframe.
  unfold hb, send_headerbuf.
  rewrite (process_rxbuf_loop_next _ _ _ _ _ _
             (Hframe (decode_size_send (7 + n)
                        ltac:(subst n; unfold UINT32_MOD in *; lia))
                     ltac:(fold n; lia)
                     ltac:(fold n; lia))).
  fold n. rewrite process_rxbuf_loop_end by lia.
  cbn [emit_before app]. rewrite !u8_to_u8_small by lia.
  subst view. destruct header as [t i s]. reflexivity.
Qed.

(** C9.  Three frames of sizes 10, 7 and 23 laid back to back in a buffer of
    40 bytes decode to exactly three frames, in buffer order, with payloads
    of 3, 0 and 16 bytes, each with the header fields of its own seven
    header bytes and a view of its own payload bytes. *)
Theorem three_packed_frames
    (t1 i1 s1 t2 i2 s2 t3 i3 s3 : uint8_t) (p1 p3 : list uint8_t) (k : nat) :
  length p1 = 3%nat ->
  length p3 = 16%nat ->
  let hb1 := [t1; i1; s1; x0a; x00; x00; x00] in
  let hb2 := [t2; i2; s2; x07; x00; x00; x00] in
  let hb3 := [t3; i3; s3; x17; x00; x00; x00] in
  let rxbuf := (hb1 ++ p1) ++ hb2 ++ (hb3 ++ p3) in
  let v1 := {| cdata := Some (p1 ++ hb2 ++ hb3 ++ p3); len := 3 |} in
  let v2 := {| cdata := None; len := 0 |} in
  let v3 := {| cdata := Some p3; len := 16 |} in
  Z.of_nat (length rxbuf) = 40
  /\ process_rxbuf (4 + k) rxbuf 40
     = Returned
         [ Ev_log_cmd hb1 v1 ARSDK_CMD_DIR_RX;
           Ev_recv_data {| type := u8 t1; id := u8 i1; seq := u8 s1 |} v1;
           Ev_log_cmd hb2 v2 ARSDK_CMD_DIR_RX;
           Ev_recv_data {| type := u8 t2; id := u8 i2; seq := u8 s2 |} v2;
           Ev_log_cmd hb3 v3 ARSDK_CMD_DIR_RX;
           Ev_recv_data {| type := u8 t3; id := u8 i3; seq := u8 s3 |} v3 ]
  /\ payload_bytes v1 = p1
  /\ payload_bytes v2 = []
  /\ payload_bytes v3 = p3.
Proof.
  intros H1 H3.
  destruct p1 as [|a0 [|a1 [|a2 [|? ?]]]]; try discriminate H1.
  do 16 (destruct p3 as [|? p3]; [discriminate H3|]).
  destruct p3 as [|? ?]; [|discriminate H3].
  intros hb1 hb2 hb3 rxbuf v1 v2 v3.
  split; [reflexivity|]. split; [|repeat split].
  unfold process_rxbuf. change (4 + k)%nat with (S (S (S (S k)))).
  rewrite (process_rxbuf_loop_next _ _ _ _ 10
             [ Ev_log_cmd hb1 v1 ARSDK_CMD_DIR_RX;
               Ev_recv_data {| type := u8 t1; id := u8 i1; seq := u8 s1 |} v1 ])
    by reflexivity.
  rewrite (process_rxbuf_loop_next _ _ _ _ 17
             [ Ev_log_cmd hb2 v2 ARSDK_CMD_DIR_RX;
               Ev_recv_data {| type := u8 t2; id := u8 i2; seq := u8 s2 |} v2 ])
    by reflexivity.
  rewrite (process_rxbuf_loop_next _ _ _ _ 40
             [ Ev_log_cmd hb3 v3 ARSDK_CMD_DIR_RX;
               Ev_recv_data {| type := u8 t3; id := u8 i3; seq := u8 s3 |} v3 ])
    by reflexivity.
  rewrite process_rxbuf_loop_end by lia.
  reflexivity.
Qed.

Lemma three_packed_frames_witness :
  let p1 := [x61; x62; x63] in
  let p3 := repeat x41 16 in
  (length p1 = 3%nat /\ length p3 = 16%nat) /\
  forwarded (events_of (process_rxbuf 4
    (([x02; x0b; x01; x0a; x00; x00; x00] ++ p1)
     ++ [x02; x0b; x02; x07; x00; x00; x00]
     ++ ([x04; x7e; x03; x17; x00; x00; x00] ++ p3)) 40))
  = [ ({| type := 2; id := 11; seq := 1 |},
       {| cdata := Some (p1 ++ [x02; x0b; x02; x07; x00; x00; x00]
                            ++ [x04; x7e; x03; x17; x00; x00; x00] ++ p3);
          len := 3 |});
      ({| type := 2; id := 11; seq := 2 |}, {| cdata := None; len := 0 |});
      ({| type := 4; id := 126; seq := 3 |},
       {| cdata := Some p3; len := 16 |}) ].
Proof.
  intros p1 p3. split; [split; reflexivity|].
  pose proof (proj1 (proj2 (three_packed_frames x02 x0b x01 x02 x0b x02
                              x04 x7e x03 p1 p3 0 eq_refl eq_refl))) as Hrun.
  refine (eq_trans (f_equal (fun o => forwarded (events_of o)) Hrun) _).
  reflexivity.
Defined.

(** C10.  When the frame being decoded has a size field of exactly 7, the
    payload handed to the parent's receive sink has length 0 and a null
    data pointer. *)
Theorem empty_payload_forwarded_as_null (rxbuf : list uint8_t)
    (rxlen rxoff rxoff' : Z) (b0 b1 b2 b3 b4 b5 b6 : uint8_t)
    (evs : list event) :
  read_headerbuf rxbuf rxoff = Some [b0; b1; b2; b3; b4; b5; b6] ->
  decode_size b3 b4 b5 b6 = 7 ->
  process_rxbuf_iter rxbuf rxlen rxoff = Iter_next evs rxoff' ->
  forwarded evs
  = [ ({| type := u8 b0; id := u8 b1; seq := u8 b2 |},
       {| cdata := None; len := 0 |}) ].
Proof.
  intros Hhdr Hsize Hiter. unfold process_rxbuf_iter in Hiter.
  rewrite Hhdr, Hsize in Hiter.
  destruct (negb (rxoff <? rxlen)); [discriminate Hiter|].
  destruct (u32 (rxoff + ARSDK_FRAME_HEADER_SIZE) >? rxlen);
    [discriminate Hiter|].
  destruct ((7 <? ARSDK_FRAME_HEADER_SIZE) || (u32 (rxoff + 7) >? rxlen));
    [discriminate Hiter|].
  injection Hiter as Hevs _. subst evs. reflexivity.
Qed.

Lemma empty_payload_forwarded_as_null_witness :
  let rxbuf := [x02; x0b; x09; x07; x00; x00; x00] in
  (read_headerbuf rxbuf 0 = Some rxbuf /\
   decode_size x07 x00 x00 x00 = 7 /\
   exists evs, process_rxbuf_iter rxbuf 7 0 = Iter_next evs 7) /\
  forwarded
    [ Ev_log_cmd rxbuf {| cdata := None; len := 0 |} ARSDK_CMD_DIR_RX;
      Ev_recv_data {| type := 2; id := 11; seq := 9 |}
        {| cdata := None; len := 0 |} ]
  = [ ({| type := 2; id := 11; seq := 9 |}, {| cdata := None; len := 0 |}) ].
Proof.
  intros rxbuf.
  split; [split; [reflexivity|split; [reflexivity|eexists; reflexivity]]|].
  exact (empty_payload_forwarded_as_null rxbuf 7 0 7
           x02 x0b x09 x07 x00 x00 x00 _ eq_refl eq_refl eq_refl).
Defined.

(** ** Corrupted size fields *)

(** A size field below the header size ends the decoding: the error is
    logged, no frame is forwarded, the rest of the buffer is dropped. *)
Lemma process_rxbuf_iter_short_size (rxbuf : list uint8_t) (rxlen rxoff : Z)
    (b0 b1 b2 b3 b4 b5 b6 : uint8_t) :
  rxoff < rxlen ->
  u32 (rxoff + 7) <= rxlen ->
  read_headerbuf rxbuf rxoff = Some [b0; b1; b2; b3; b4; b5; b6] ->
  decode_size b3 b4 b5 b6 < 7 ->
  process_rxbuf_iter rxbuf rxlen rxoff
  = Iter_return (Ev_log LOGE Msg_bad_frame).
Proof.
  intros Hoff Hhdr Hrd Hsize. unfold process_rxbuf_iter.
  unfold ARSDK_FRAME_HEADER_SIZE. rewrite Hrd.
  destruct (Z.ltb_spec rxoff rxlen) as [_|H]; [cbn [negb]|lia].
  destruct (Z.gtb_spec (u32 (rxoff + 7)) rxlen) as [H|_]; [lia|].
  destruct (Z.ltb_spec (decode_size b3 b4 b5 b6) 7) as [_|H]; [|lia].
  reflexivity.
Qed.

(** A size field that runs past the received bytes ends the decoding as
    well, as long as [rxoff + size] is below 2^32. *)
Lemma process_rxbuf_iter_long_size (rxbuf : list uint8_t) (rxlen rxoff : Z)
    (b0 b1 b2 b3 b4 b5 b6 : uint8_t) :
  0 <= rxoff < rxlen ->
  u32 (rxoff + 7) <= rxlen ->
  read_headerbuf rxbuf rxoff = Some [b0; b1; b2; b3; b4; b5; b6] ->
  rxlen < rxoff + decode_size b3 b4 b5 b6 < UINT32_MOD ->
  process_rxbuf_iter rxbuf rxlen rxoff
  = Iter_return (Ev_log LOGE Msg_bad_frame).
Proof.
  intros Hoff Hhdr Hrd Hsize. unfold process_rxbuf_iter.
  unfold ARSDK_FRAME_HEADER_SIZE. rewrite Hrd.
  destruct (Z.ltb_spec rxoff rxlen) as [_|H]; [cbn [negb]|lia].
  destruct (Z.gtb_spec (u32 (rxoff + 7)) rxlen) as [H|_]; [lia|].
  assert (Hs : 0 <= decode_size b3 b4 b5 b6)
    by (unfold decode_size; apply u32_range).
  rewrite (u32_small (rxoff + decode_size b3 b4 b5 b6)) by lia.
  destruct (Z.gtb_spec (rxoff + decode_size b3 b4 b5 b6) rxlen) as [_|H];
    [|lia].
  rewrite orb_true_r. reflexivity.
Qed.

(** The header bytes themselves are read inside the buffer whenever the
    length passed in does not exceed the buffer and leaves room for the
    32-bit sum [rxoff + 7]. *)
Lemma process_rxbuf_iter_reads_inside (rxbuf : list uint8_t)
    (rxlen rxoff : Z) :
  0 <= rxoff ->
  rxlen <= Z.of_nat (length rxbuf) ->
  rxlen + 7 <= UINT32_MOD ->
  process_rxbuf_iter rxbuf rxlen rxoff <> Iter_fault.
Proof.
  intros Hoff Hlen Hmax. unfold process_rxbuf_iter, ARSDK_FRAME_HEADER_SIZE.
  destruct (Z.ltb_spec rxoff rxlen) as [Hlt|_]; [cbn [negb]|discriminate].
  rewrite (u32_small (rxoff + 7)) by lia.
  destruct (Z.gtb_spec (rxoff + 7) rxlen) as [_|Hroom]; [discriminate|].
  assert (Hrd : forall k, 0 <= k < 7 -> exists b, rd rxbuf (rxoff + k) = Some b).
  { intros k Hk. unfold rd.
    destruct (Z.ltb_spec (rxoff + k) 0) as [H|_]; [lia|].
    destruct (nth_error rxbuf (Z.to_nat (rxoff + k))) as [b|] eqn:Hb.
    - exists b. reflexivity.
    - apply nth_error_None in Hb. lia. }
  unfold read_headerbuf.
  destruct (Hrd 0 ltac:(lia)) as [c0 H0]. rewrite Z.add_0_r in H0.
  destruct (Hrd 1 ltac:(lia)) as [c1 H1].
  destruct (Hrd 2 ltac:(lia)) as [c2 H2].
  destruct (Hrd 3 ltac:(lia)) as [c3 H3].
  destruct (Hrd 4 ltac:(lia)) as [c4 H4].
  destruct (Hrd 5 ltac:(lia)) as [c5 H5].
  destruct (Hrd 6 ltac:(lia)) as [c6 H6].
  rewrite H0, H1, H2, H3, H4, H5, H6.
  destruct ((decode_size c3 c4 c5 c6 <? 7)
            || (u32 (rxoff + decode_size c3 c4 c5 c6) >? rxlen));
    discriminate.
Qed.

(** C1.  The datagram [wrapping_datagram] (14 bytes) carries at offset 7 a
    header whose size field is 0xfffffff9: offset + size is 2^32, far
    beyond the 14 received bytes.  The 32-bit sum [rxoff + size] wraps to 0,
    the validity check passes, and the entry is forwarded with a payload
    view of 4294967282 bytes that starts at the end of the buffer: a view
    outside the received bytes. *)
Theorem wrapped_size_forwards_out_of_bounds_view :
  let h0 := {| type := 0; id := 0; seq := 0 |} in
  let bad := {| cdata := Some []; len := 4294967282 |} in
  Z.of_nat (length wrapping_datagram) = 14
  /\ read_headerbuf wrapping_datagram 7
     = Some [x00; x00; x00; xf9; xff; xff; xff]
  /\ decode_size xf9 xff xff xff = 4294967289
  /\ 14 < 7 + 4294967289
  /\ process_rxbuf_iter wrapping_datagram 14 7
     = Iter_next [ Ev_log_cmd [x00; x00; x00; xf9; xff; xff; xff] bad
                     ARSDK_CMD_DIR_RX;
                   Ev_recv_data h0 bad ] 0
  /\ forwarded (events_of (process_rxbuf 2 wrapping_datagram 14))
     = [ (h0, {| cdata := None; len := 0 |}); (h0, bad) ]
  /\ payload_in_bounds bad = false.
Proof.
  intros h0 bad. repeat split; reflexivity.
Qed.

(** On [wrapping_datagram], alone or at the head of a larger receive
    buffer, the offset goes 0, 7, 0, 7, ...: from either offset the loop is
    still running whatever the fuel. *)
Lemma wrapping_datagram_cycles (rest : list uint8_t) (fuel : nat) :
  (exists tr,
     process_rxbuf_loop fuel (wrapping_datagram ++ rest) 14 0 = Running tr)
  /\ (exists tr,
        process_rxbuf_loop fuel (wrapping_datagram ++ rest) 14 7 = Running tr).
Proof.
  induction fuel as [|fuel [[tr0 IH0] [tr7 IH7]]].
  - split; exists []; reflexivity.
  - split.
    + rewrite (process_rxbuf_loop_next fuel (wrapping_datagram ++ rest) 14 0 7
                 [ Ev_log_cmd [x00; x00; x00; x07; x00; x00; x00]
                     {| cdata := None; len := 0 |} ARSDK_CMD_DIR_RX;
                   Ev_recv_data {| type := 0; id := 0; seq := 0 |}
                     {| cdata := None; len := 0 |} ]) by reflexivity.
      rewrite IH7. eexists. reflexivity.
    + rewrite (process_rxbuf_loop_next fuel (wrapping_datagram ++ rest) 14 7 0
                 [ Ev_log_cmd [x00; x00; x00; xf9; xff; xff; xff]
                     {| cdata := Some rest; len := 4294967282 |}
                     ARSDK_CMD_DIR_RX;
                   Ev_recv_data {| type := 0; id := 0; seq := 0 |}
                     {| cdata := Some rest; len := 4294967282 |} ])
        by reflexivity.
      rewrite IH0. eexists. reflexivity.
Qed.

(** C3.  On the 14-byte datagram [wrapping_datagram] the decode loop never
    returns: after any number of passes it is still running (the second
    frame's size field 0xfffffff9 brings the 32-bit offset back to 0). *)
Theorem wrapped_size_never_returns (fuel : nat) :
  (exists tr, process_rxbuf fuel wrapping_datagram 14 = Running tr)
  /\ has_returned (process_rxbuf fuel wrapping_datagram 14) = false.
Proof.
  destruct (wrapping_datagram_cycles [] fuel) as [[tr Htr] _].
  rewrite app_nil_r in Htr.
  unfold process_rxbuf. rewrite Htr. split; [exists tr|]; reflexivity.
Qed.

(** ** The transport-ID table *)

(** C8.  Each acknowledgment ID is its base reliable or high-priority ID
    plus half the namespace (128 of 256, 16 of 32 in the constrained
    variant); the acknowledgment IDs are pairwise distinct and none of them
    is a primary ID (0, 1, 10, 11, 12, 126, 127, 14, 15); the acknowledgment
    of device-to-controller reliable (126) is 254. *)
Theorem ack_ids_derived_and_disjoint :
  TransportIds.ARSDK_TRANSPORT_ID_ACKOFF = 128
  /\ TransportIds.ARSDK_TRANSPORT_ID_ACKOFF_BLE = 16
  /\ TransportIds.ARSDK_TRANSPORT_ID_C2D_CMD_ACK
     = TransportIds.ARSDK_TRANSPORT_ID_D2C_CMD_WITHACK + 128
  /\ TransportIds.ARSDK_TRANSPORT_ID_C2D_CMD_ACK_BLE
     = TransportIds.ARSDK_TRANSPORT_ID_D2C_CMD_WITHACK_BLE + 16
  /\ TransportIds.ARSDK_TRANSPORT_ID_D2C_CMD_ACK
     = TransportIds.ARSDK_TRANSPORT_ID_C2D_CMD_WITHACK + 128
  /\ TransportIds.ARSDK_TRANSPORT_ID_D2C_CMD_HIGHPRIO_ACK
     = TransportIds.ARSDK_TRANSPORT_ID_C2D_CMD_HIGHPRIO + 128
  /\ TransportIds.ARSDK_TRANSPORT_ID_D2C_CMD_ACK_BLE
     = TransportIds.ARSDK_TRANSPORT_ID_C2D_CMD_WITHACK + 16
  /\ TransportIds.ARSDK_TRANSPORT_ID_D2C_CMD_HIGHPRIO_ACK_BLE
     = TransportIds.ARSDK_TRANSPORT_ID_C2D_CMD_HIGHPRIO + 16
  /\ TransportIds.primary_ids = [0; 1; 10; 11; 12; 126; 127; 14; 15]
  /\ TransportIds.ack_ids = [254; 30; 139; 140; 27; 28]
  /\ NoDup TransportIds.ack_ids
  /\ (forall a, In a TransportIds.ack_ids ->
                ~ In a TransportIds.primary_ids)
  /\ TransportIds.ARSDK_TRANSPORT_ID_C2D_CMD_ACK = 254.
Proof.
  repeat split; try reflexivity.
  - change TransportIds.ack_ids with [254; 30; 139; 140; 27; 28].
    repeat constructor; cbn [In]; lia.
  - change TransportIds.ack_ids with [254; 30; 139; 140; 27; 28].
    change TransportIds.primary_ids with [0; 1; 10; 11; 12; 126; 127; 14; 15].
    cbn [In]. intros a Ha Hp. lia.
Qed.

(** ** The read and write error paths *)

Section NetProperties.

Context {E : errno_h}.

Lemma bind_emit {B : Type} (e : event) (k : unit -> M B) (w : world) :
  bind (emit e) k w
  = match k tt w with
    | None => None
    | Some (b, w2, e2) => Some (b, w2, e :: e2)
    end.
Proof. reflexivity. Qed.

Lemma bind_run {A B : Type} (m : M A) (k : A -> M B) (w w1 : world)
    (a : A) (e1 : list event) :
  m w = Some (a, w1, e1) ->
  bind m k w
  = match k a w1 with
    | None => None
    | Some (b, w2, e2) => Some (b, w2, e1 ++ e2)
    end.
Proof. intros H. unfold bind. rewrite H. reflexivity. Qed.

(** The interrupted-call test of the read loop never holds for an error
    number: [errno] is positive and [-EINTR] is negative. *)
Lemma read_loop_test_fails (errno : Z) : 0 < errno -> (errno =? - EINTR) = false.
Proof.
  intros H. pose proof EINTR_int. apply Z.eqb_neq. lia.
Qed.

(** C4.  When [recvfrom] fails with [EINTR] and the next attempt would
    deliver a datagram, [socket_read] does not make that next attempt: the
    loop test compares [errno] with [-EINTR], the loop ends at the first
    failure, and the caller receives [-EINTR] while the datagram stays
    unread. *)
Theorem socket_read_surfaces_EINTR (self : arsdk_transport_net)
    (check_link_status : Z) (rq : list Z) (d : list uint8_t)
    (q : list recvfrom_result) (sq : list sendmsg_result)
    (sent : list (Z * list uint8_t)) :
  exists self' evs,
    socket_read self check_link_status
      {| rand_q := rq; recvfrom_q := Recv_err EINTR :: Recv_ok d :: q;
         sendmsg_q := sq; sendmsg_calls := sent |}
    = Some ((- EINTR, self'),
            {| rand_q := rq; recvfrom_q := Recv_ok d :: q; sendmsg_q := sq;
               sendmsg_calls := sent |},
            evs).
Proof.
  pose proof EINTR_int as HE.
  unfold socket_read.
  erewrite bind_run; cycle 1.
  { unfold recvfrom_ignoring_interrupts. cbn [recvfrom_q recvfrom_loop].
    rewrite read_loop_test_fails by lia. cbn [rand_q sendmsg_q]. reflexivity. }
  cbn [recvfrom_ret Z.gtb Z.eqb Z.compare].
  destruct (negb (ARSDK_WOULD_BLOCK (- - EINTR)) &&
            ((check_link_status =? 0) ||
             link_status_eqb
               (arsdk_transport_get_link_status
                  (parent (with_rxbuf self
                             (recvfrom_fill (data_sock self)
                                (Recv_err EINTR)))))
               ARSDK_LINK_STATUS_OK)).
  - rewrite bind_emit.
    destruct (check_link_status =? 0); do 2 eexists; reflexivity.
  - do 2 eexists. reflexivity.
Qed.

(** Received through [data_fd_cb], with no receive fault injection and a
    receive buffer of at least 14 bytes, [wrapping_datagram] keeps the
    decode loop running whatever the fuel. *)
Lemma data_fd_cb_wrapping_datagram (fuel : nat) (self : arsdk_transport_net)
    (rq : list Z) (q : list recvfrom_result) (sq : list sendmsg_result)
    (sent : list (Z * list uint8_t)) :
  rx_drop_ratio self = 0 ->
  (14 <= length (rxbuf (data_sock self)))%nat ->
  exists self' tr,
    data_fd_cb fuel self
      {| rand_q := rq; recvfrom_q := Recv_ok wrapping_datagram :: q;
         sendmsg_q := sq; sendmsg_calls := sent |}
    = Some (self', {| rand_q := rq; recvfrom_q := q; sendmsg_q := sq;
                      sendmsg_calls := sent |},
            Running tr).
Proof.
  intros Hratio Hbuf.
  destruct (wrapping_datagram_cycles (skipn 14 (rxbuf (data_sock self))) fuel)
    as [[tr Htr] _].
  exists (with_rxbuf self
            (wrapping_datagram ++ skipn 14 (rxbuf (data_sock self)))), tr.
  unfold data_fd_cb, socket_read.
  erewrite bind_run; cycle 1.
  { unfold recvfrom_ignoring_interrupts. cbn [recvfrom_q recvfrom_loop].
    cbn [rand_q sendmsg_q]. reflexivity. }
  assert (Hret : recvfrom_ret (data_sock self) (Recv_ok wrapping_datagram)
                 = 14).
  { unfold recvfrom_ret, rxbufsize.
    change (Z.of_nat (length wrapping_datagram)) with 14. lia. }
  assert (Hfill : recvfrom_fill (data_sock self) (Recv_ok wrapping_datagram)
                  = wrapping_datagram ++ skipn 14 (rxbuf (data_sock self))).
  { unfold recvfrom_fill.
    change (length wrapping_datagram) with 14%nat.
    rewrite Nat.min_l by exact Hbuf. reflexivity. }
  rewrite Hret, Hfill.
  change (14 >? 0) with true. cbv iota.
  cbn [rx_drop_ratio with_rxbuf]. rewrite Hratio.
  unfold drop_draw. change (0 =? 0) with true. cbv iota.
  unfold bind, ret. cbn [app].
  change (u32 14) with 14. change (14 >? 0) with true. cbv iota.
  cbn [rxbuf data_sock with_rxbuf].
  unfold process_rxbuf. rewrite Htr. reflexivity.
Qed.

(** ** [socket_write] *)

(** The write loop over interrupted calls: the outcome, the outcomes left,
    and one recorded call per pass. *)
Lemma sendmsg_loop_interrupted (call : Z * list uint8_t) (n : nat)
    (r : sendmsg_result) (q : list sendmsg_result)
    (calls : list (Z * list uint8_t)) :
  r <> Send_err EINTR ->
  sendmsg_loop call (repeat (Send_err EINTR) n ++ r :: q) calls
  = Some (r, q, calls ++ repeat call (S n)).
Proof.
  intros Hr. revert calls. induction n as [|n IH]; intros calls.
  - cbn [repeat app sendmsg_loop]. destruct r as [c|e]; [reflexivity|].
    destruct (Z.eqb_spec e EINTR) as [->|_]; [congruence|reflexivity].
  - cbn [repeat app sendmsg_loop]. rewrite Z.eqb_refl.
    rewrite IH, <- app_assoc. reflexivity.
Qed.

Lemma sendmsg_loop_result (call : Z * list uint8_t)
    (q q' : list sendmsg_result) (r : sendmsg_result)
    (calls calls' : list (Z * list uint8_t)) :
  sendmsg_loop call q calls = Some (r, q', calls') -> r <> Send_err EINTR.
Proof.
  revert calls. induction q as [|r0 q IH]; intros calls; [discriminate|].
  cbn [sendmsg_loop]. destruct r0 as [c|e].
  - intros H. injection H as <- _ _. discriminate.
  - destruct (Z.eqb_spec e EINTR) as [_|Hne]; [apply IH|].
    intros H. injection H as <- _ _. congruence.
Qed.

(** A negative result of [socket_write] comes from [sendmsg], not from the
    fault injection, which answers [total]: it carries no event. *)
Lemma socket_write_negative (self : arsdk_transport_net) (iov : list iovec)
    (total writelen : Z) (w w' : world) (evs : list event) :
  socket_write self iov total w = Some (writelen, w', evs) ->
  0 <= total ->
  writelen < 0 ->
  evs = [].
Proof.
  unfold socket_write, drop_draw.
  intros H Htotal Hneg.
  destruct (tx_drop_ratio self =? 0);
    unfold bind, rand, emit, ret, sendmsg_ignoring_interrupts in H.
  - destruct (sendmsg_loop _ (sendmsg_q w) _) as [[[r q] cs]|];
      simpl in H; [|discriminate H].
    injection H as _ _ Hevs. symmetry. exact Hevs.
  - destruct (rand_q w) as [|v rq]; cbn [app] in H; [discriminate H|].
    destruct (Z.rem v 100 <? tx_drop_ratio self); cbn [app] in H.
    + injection H as Hwl _ _. lia.
    + cbn [sendmsg_q] in H.
      destruct (sendmsg_loop _ (sendmsg_q w) _) as [[[r q] cs]|];
        simpl in H; [|discriminate H].
      injection H as _ _ Hevs. symmetry. exact Hevs.
Qed.

(** ** [arsdk_transport_net_send_data] *)

Lemma send_checks_pass_elim (self : arsdk_transport_net)
    (payload : arsdk_transport_payload)
    (extra_hdr : option (list uint8_t)) (extra_hdrlen : Z) :
  send_checks_pass self payload extra_hdr extra_hdrlen = true ->
  (extra_hdrlen =? 0) || negb (is_null extra_hdr) = true
  /\ (len payload =? 0) || negb (is_null (cdata payload)) = true
  /\ (started self =? 0) || (fd (data_sock self) <? 0) = false.
Proof.
  unfold send_checks_pass. intros H.
  apply andb_prop in H. destruct H as [H H3].
  apply andb_prop in H. destruct H as [H1 H2].
  apply negb_true_iff in H3. auto.
Qed.

Lemma frame_size_range (extra_hdrlen : Z) (payload : arsdk_transport_payload) :
  0 <= frame_size extra_hdrlen payload < UINT32_MOD.
Proof. unfold frame_size. apply u32_range. Qed.

(** Entering [send_data] when the checks pass and the write answers
    [writelen]. *)
Ltac enter_send_data Hchk Hwrite :=
  unfold arsdk_transport_net_send_data;
  let G1 := fresh "G" in
  let G2 := fresh "G" in
  let G3 := fresh "G" in
  destruct (send_checks_pass_elim _ _ _ _ Hchk) as (G1 & G2 & G3);
  rewrite G1, G2, G3; cbn [negb]; cbv zeta;
  rewrite bind_emit, (bind_run _ _ _ _ _ _ Hwrite); cbv beta.

(** A send that passes the checks, without fault injection: the write loop
    runs over the interrupted calls to the first other outcome, and every
    [sendmsg] call is handed the socket's descriptor and the bytes of the
    scatter-gather list built from the header, the extra header and the
    payload. *)
Lemma send_data_hands_over (self : arsdk_transport_net)
    (header : arsdk_transport_header) (payload : arsdk_transport_payload)
    (extra_hdr : option (list uint8_t)) (extra_hdrlen : Z) (j : nat)
    (r : sendmsg_result) (q : list sendmsg_result) (rq : list Z)
    (cq : list recvfrom_result) (sent : list (Z * list uint8_t)) :
  send_checks_pass self payload extra_hdr extra_hdrlen = true ->
  tx_drop_ratio self = 0 ->
  r <> Send_err EINTR ->
  exists res self' evs,
    arsdk_transport_net_send_data self header payload extra_hdr extra_hdrlen
      {| rand_q := rq; recvfrom_q := cq;
         sendmsg_q := repeat (Send_err EINTR) j ++ r :: q;
         sendmsg_calls := sent |}
    = Some ((res, self'),
            {| rand_q := rq; recvfrom_q := cq; sendmsg_q := q;
               sendmsg_calls :=
                 sent
                 ++ repeat
                      (fd (data_sock self),
                       iov_bytes
                         (send_iov
                            (send_headerbuf header
                               (frame_size extra_hdrlen payload))
                            payload extra_hdr extra_hdrlen))
                      (S j) |},
            evs).
Proof.
  intros Hchk Hratio Hr.
  set (iov := send_iov (send_headerbuf header
                          (frame_size extra_hdrlen payload))
                payload extra_hdr extra_hdrlen).
  assert (Hwrite :
    socket_write self iov (frame_size extra_hdrlen payload)
      {| rand_q := rq; recvfrom_q := cq;
         sendmsg_q := repeat (Send_err EINTR) j ++ r :: q;
         sendmsg_calls := sent |}
    = Some (match r with
            | Send_ok c => Z.of_N c
            | Send_err errno => - errno
            end,
            {| rand_q := rq; recvfrom_q := cq; sendmsg_q := q;
               sendmsg_calls :=
                 sent ++ repeat (fd (data_sock self), iov_bytes iov) (S j) |},
            [])).
  { unfold socket_write, drop_draw. rewrite Hratio.
    cbn [Z.eqb]. unfold bind, ret, sendmsg_ignoring_interrupts.
    cbn [sendmsg_q rand_q recvfrom_q sendmsg_calls].
    rewrite (sendmsg_loop_interrupted _ j r q sent Hr). reflexivity. }
  enter_send_data Hchk Hwrite.
  unfold bind, emit, ret, arsdk_transport_set_link_status.
  repeat match goal with
         | |- context [if ?b then _ else _] => destruct b
         end;
    do 3 eexists; reflexivity.
Qed.

(** C5.  A send whose write answers a byte count from 0 up to, and not
    including, the computed frame size returns [-EAGAIN], a negative code,
    and logs the partial write as an error, whatever the link status held by
    the parent; the transport is left as it was. *)
Theorem partial_write_is_reported (self : arsdk_transport_net)
    (header : arsdk_transport_header) (payload : arsdk_transport_payload)
    (extra_hdr : option (list uint8_t)) (extra_hdrlen : Z)
    (w w' : world) (evs : list event) (writelen : Z) :
  send_checks_pass self payload extra_hdr extra_hdrlen = true ->
  socket_write self
    (send_iov (send_headerbuf header (frame_size extra_hdrlen payload))
              payload extra_hdr extra_hdrlen)
    (frame_size extra_hdrlen payload) w
  = Some (writelen, w', evs) ->
  0 <= writelen < frame_size extra_hdrlen payload ->
  arsdk_transport_net_send_data self header payload extra_hdr extra_hdrlen w
  = Some ((- EAGAIN, self), w',
          Ev_log_cmd (send_headerbuf header (frame_size extra_hdrlen payload))
                     payload ARSDK_CMD_DIR_TX
          :: evs
          ++ [ Ev_log LOGE
                 (Msg_partial_write (fd (data_sock self)) writelen
                    (frame_size extra_hdrlen payload)) ])
  /\ - EAGAIN < 0.
Proof.
  intros Hchk Hwrite Hpart.
  pose proof (frame_size_range extra_hdrlen payload) as Hsize.
  pose proof EAGAIN_int as HE.
  split; [|lia].
  enter_send_data Hchk Hwrite.
  destruct (Z.ltb_spec writelen 0) as [H|_]; [lia|].
  rewrite (u32_small writelen) by lia.
  destruct (Z.eqb_spec writelen (frame_size extra_hdrlen payload)) as [H|_];
    [lia|].
  reflexivity.
Qed.

(** C6.  A send whose write fails with [ENOBUFS] returns 0, adds one to
    [tx_fail], logs a warning and leaves the link status alone; a send whose
    write transmits the whole frame while [tx_fail] is positive returns 0,
    logs the recovery and resets [tx_fail] to zero. *)
Theorem enobufs_is_dropped_then_recovered (self : arsdk_transport_net)
    (header : arsdk_transport_header) (payload : arsdk_transport_payload)
    (extra_hdr : option (list uint8_t)) (extra_hdrlen : Z)
    (w w' : world) (evs : list event) (writelen : Z) :
  send_checks_pass self payload extra_hdr extra_hdrlen = true ->
  socket_write self
    (send_iov (send_headerbuf header (frame_size extra_hdrlen payload))
              payload extra_hdr extra_hdrlen)
    (frame_size extra_hdrlen payload) w
  = Some (writelen, w', evs) ->
  (writelen = - ENOBUFS ->
   0 <= tx_fail self < INT_MAX ->
   arsdk_transport_net_send_data self header payload extra_hdr extra_hdrlen w
   = Some ((0, with_tx_fail self (tx_fail self + 1)), w',
           [ Ev_log_cmd
               (send_headerbuf header (frame_size extra_hdrlen payload))
               payload ARSDK_CMD_DIR_TX;
             Ev_log LOGW
               (Msg_sendmsg_enobufs (fd (data_sock self))
                  (frame_size extra_hdrlen payload) ENOBUFS) ])
   /\ link_status (parent (with_tx_fail self (tx_fail self + 1)))
      = link_status (parent self))
  /\ (writelen = frame_size extra_hdrlen payload ->
      0 < tx_fail self ->
      arsdk_transport_net_send_data self header payload extra_hdr
        extra_hdrlen w
      = Some ((0, with_tx_fail self 0), w',
              Ev_log_cmd
                (send_headerbuf header (frame_size extra_hdrlen payload))
                payload ARSDK_CMD_DIR_TX
              :: evs
              ++ [ Ev_log LOGI
                     (Msg_succeed_after (fd (data_sock self))
                        (frame_size extra_hdrlen payload) (tx_fail self)) ])).
Proof.
  intros Hchk Hwrite.
  pose proof (frame_size_range extra_hdrlen payload) as Hsize.
  pose proof ENOBUFS_int as HE.
  split.
  - intros Hwl Hcnt. split; [|reflexivity].
    assert (Hevs : evs = [])
      by (apply (socket_write_negative _ _ _ _ _ _ _ Hwrite); lia).
    subst evs.
    enter_send_data Hchk Hwrite. subst writelen.
    destruct (Z.ltb_spec (- ENOBUFS) 0) as [_|H]; [|lia].
    rewrite (int_of_small (- ENOBUFS))
      by (unfold INT_MIN, INT_MAX in *; lia).
    rewrite Z.eqb_refl.
    rewrite (int_of_small (tx_fail self + 1))
      by (unfold INT_MIN, INT_MAX in *; lia).
    rewrite Z.opp_involutive. reflexivity.
  - intros Hwl Hcnt.
    enter_send_data Hchk Hwrite. subst writelen.
    destruct (Z.ltb_spec (frame_size extra_hdrlen payload) 0) as [H|_]; [lia|].
    rewrite (u32_small (frame_size extra_hdrlen payload)) by lia.
    rewrite Z.eqb_refl. cbn [negb].
    destruct (Z.gtb_spec (tx_fail self) 0) as [_|H]; [|lia].
    reflexivity.
Qed.

(** C7.  With the link status at OK, two sends in a row whose writes fail
    with error numbers [e1] and [e2] that are neither [ENOBUFS] nor a
    would-block error: the first logs the error and sets the link status to
    KO; the second, finding KO, logs no error and sets nothing.  Over the two
    sends there is exactly one logged error and exactly one status
    transition. *)
Theorem two_write_failures_one_transition (self : arsdk_transport_net)
    (h1 h2 : arsdk_transport_header) (p1 p2 : arsdk_transport_payload)
    (x1 x2 : option (list uint8_t)) (xl1 xl2 : Z)
    (w w1 w2 : world) (evs1 evs2 : list event) (e1 e2 : Z) :
  link_status (parent self) = ARSDK_LINK_STATUS_OK ->
  send_checks_pass self p1 x1 xl1 = true ->
  send_checks_pass self p2 x2 xl2 = true ->
  0 < e1 <= INT_MAX -> e1 <> ENOBUFS -> ARSDK_WOULD_BLOCK e1 = false ->
  0 < e2 <= INT_MAX -> e2 <> ENOBUFS -> ARSDK_WOULD_BLOCK e2 = false ->
  socket_write self
    (send_iov (send_headerbuf h1 (frame_size xl1 p1)) p1 x1 xl1)
    (frame_size xl1 p1) w
  = Some (- e1, w1, evs1) ->
  socket_write (with_link_status self ARSDK_LINK_STATUS_KO)
    (send_iov (send_headerbuf h2 (frame_size xl2 p2)) p2 x2 xl2)
    (frame_size xl2 p2) w1
  = Some (- e2, w2, evs2) ->
  let self1 := with_link_status self ARSDK_LINK_STATUS_KO in
  let tr1 :=
    [ Ev_log_cmd (send_headerbuf h1 (frame_size xl1 p1)) p1 ARSDK_CMD_DIR_TX;
      Ev_log LOGE (Msg_sendmsg_errno (fd (data_sock self)) e1);
      Ev_set_link_status ARSDK_LINK_STATUS_KO ] in
  let tr2 :=
    [ Ev_log_cmd (send_headerbuf h2 (frame_size xl2 p2)) p2
        ARSDK_CMD_DIR_TX ] in
  arsdk_transport_net_send_data self h1 p1 x1 xl1 w
  = Some ((- e1, self1), w1, tr1)
  /\ arsdk_transport_net_send_data self1 h2 p2 x2 xl2 w1
     = Some ((- e2, self1), w2, tr2)
  /\ length (filter is_error_log (tr1 ++ tr2)) = 1%nat
  /\ filter is_set_link_status (tr1 ++ tr2)
     = [ Ev_set_link_status ARSDK_LINK_STATUS_KO ].
Proof.
  intros Hok Hchk1 Hchk2 He1 Hn1 Hb1 He2 Hn2 Hb2 Hw1 Hw2 self1 tr1 tr2.
  pose proof (frame_size_range xl1 p1) as Hs1.
  pose proof (frame_size_range xl2 p2) as Hs2.
  assert (Hevs1 : evs1 = [])
    by (apply (socket_write_negative _ _ _ _ _ _ _ Hw1); lia).
  assert (Hevs2 : evs2 = [])
    by (apply (socket_write_negative _ _ _ _ _ _ _ Hw2); lia).
  subst evs1 evs2.
  split; [|split; [|split; reflexivity]].
  - enter_send_data Hchk1 Hw1.
    destruct (Z.ltb_spec (- e1) 0) as [_|H]; [|lia].
    rewrite (int_of_small (- e1)) by (unfold INT_MIN, INT_MAX in *; lia).
    destruct (Z.eqb_spec (- e1) (- ENOBUFS)) as [H|_]; [lia|].
    rewrite Z.opp_involutive, Hb1.
    unfold arsdk_transport_get_link_status. rewrite Hok.
    reflexivity.
  - assert (Hchk : send_checks_pass self1 p2 x2 xl2 = true) by exact Hchk2.
    enter_send_data Hchk Hw2.
    destruct (Z.ltb_spec (- e2) 0) as [_|H]; [|lia].
    rewrite (int_of_small (- e2)) by (unfold INT_MIN, INT_MAX in *; lia).
    destruct (Z.eqb_spec (- e2) (- ENOBUFS)) as [H|_]; [lia|].
    rewrite Z.opp_involutive, Hb2.
    reflexivity.
Qed.

(** ** Round trip through the send path *)

(** C2.  A header with [type], [id], [seq] in [0, 255] and a payload view
    within bounds, of any length that fits the 32-bit size field, sent
    without extra header on a started transport with an open socket and no
    fault injection: every [sendmsg] call of the send is handed the datagram
    "type, id, seq, 7 + length in four little-endian bytes, payload bytes";
    decoding that datagram returns after forwarding exactly one frame, with
    the original header fields and a view of exactly the original payload
    bytes. *)
Theorem send_then_decode_round_trip (self : arsdk_transport_net)
    (header : arsdk_transport_header) (payload : arsdk_transport_payload)
    (j k : nat) (r : sendmsg_result) (q : list sendmsg_result)
    (rq : list Z) (cq : list recvfrom_result)
    (sent : list (Z * list uint8_t)) :
  0 <= type header <= 255 ->
  0 <= id header <= 255 ->
  0 <= seq header <= 255 ->
  payload_in_bounds payload = true ->
  7 + len payload < UINT32_MOD ->
  started self <> 0 ->
  0 <= fd (data_sock self) ->
  tx_drop_ratio self = 0 ->
  r <> Send_err EINTR ->
  let n := len payload in
  let data := payload_bytes payload in
  let wire :=
    [ to_u8 (type header); to_u8 (id header); to_u8 (seq header);
      to_u8 (Z.land (7 + n) 255);
      to_u8 (Z.land (Z.shiftr (7 + n) 8) 255);
      to_u8 (Z.land (Z.shiftr (7 + n) 16) 255);
      to_u8 (Z.land (Z.shiftr (7 + n) 24) 255) ] ++ data in
  let view := {| cdata := if n =? 0 then None else Some data; len := n |} in
  (exists res self' evs,
     arsdk_transport_net_send_data self header payload None 0
       {| rand_q := rq; recvfrom_q := cq;
          sendmsg_q := repeat (Send_err EINTR) j ++ r :: q;
          sendmsg_calls := sent |}
     = Some ((res, self'),
             {| rand_q := rq; recvfrom_q := cq; sendmsg_q := q;
                sendmsg_calls :=
                  sent ++ repeat (fd (data_sock self), wire) (S j) |},
             evs))
  /\ Z.of_nat (length wire) = 7 + n
  /\ process_rxbuf (2 + k) wire (Z.of_nat (length wire))
     = Returned [ Ev_log_cmd (firstn 7 wire) view ARSDK_CMD_DIR_RX;
                  Ev_recv_data header view ]
  /\ forwarded (events_of (process_rxbuf (2 + k) wire (Z.of_nat (length wire))))
     = [ (header, view) ]
  /\ payload_bytes view = data.
Proof.
  intros Ht Hi Hs Hin Hfit Hst Hfd Hratio Hr n data wire view.
  destruct (send_datagram_layout header payload Hin) as [Hlay Hlen].
  fold data in Hlay, Hlen. fold n in Hlen.
  assert (Hn : 0 <= n) by lia.
  assert (Hsz : frame_size 0 payload = 7 + n).
  { unfold frame_size, ARSDK_FRAME_HEADER_SIZE. fold n.
    rewrite u32_small by (unfold UINT32_MOD in *; lia). lia. }
  rewrite Hsz in Hlay.
  assert (Hwire : send_datagram header payload = wire) by exact Hlay.
  assert (Hwlen : Z.of_nat (length wire) = 7 + n).
  { unfold wire. rewrite length_app. cbn [length]. lia. }
  assert (Hview : payload_bytes view = data).
  { subst view. unfold payload_bytes at 1. cbn [cdata len].
    destruct (Z.eqb_spec n 0) as [H0|_].
    - destruct data as [|b data']; [reflexivity|].
      cbn [length] in Hlen. lia.
    - rewrite <- Hlen, Nat2Z.id. apply firstn_all. }
  assert (Hrun : process_rxbuf (2 + k) wire (Z.of_nat (length wire))
     = Returned [ Ev_log_cmd (firstn 7 wire) view ARSDK_CMD_DIR_RX;
                  Ev_recv_data header view ]).
  { rewrite Hwlen, <- Hwire, Hlay. subst view. rewrite <- Hlen.
    apply (decode_sent_frame header data k Ht Hi Hs).
    rewrite Hlen. exact Hfit. }
  assert (Hchk : send_checks_pass self payload None 0 = true).
  { unfold send_checks_pass. cbn [Z.eqb orb andb].
    apply andb_true_intro. split.
    - unfold payload_in_bounds in Hin.
      destruct (cdata payload); cbn [is_null negb];
        [apply orb_true_r|rewrite Hin; reflexivity].
    - apply negb_true_iff, orb_false_intro;
        [apply Z.eqb_neq; exact Hst|apply Z.ltb_ge; exact Hfd]. }
  split.
  { destruct (send_data_hands_over self header payload None 0 j r q rq cq
                sent Hchk Hratio Hr) as (res & self' & evs & Hsend).
    exists res, self', evs. rewrite Hsend.
    unfold send_datagram in Hwire. rewrite Hwire. reflexivity. }
  split; [exact Hwlen|]. split; [exact Hrun|].
  split; [|exact Hview].
  rewrite Hrun. reflexivity.
Qed.

End NetProperties.

(** ** The theorems at work on Linux error numbers *)

(** A frame with a three-byte payload, sent on descriptor 3; the first
    [sendmsg] call is interrupted, the second takes the ten bytes. *)
Lemma send_then_decode_round_trip_witness :
  let self :=
    {| parent := {| link_status := ARSDK_LINK_STATUS_OK |}; started := 1;
       data_sock := {| fd := 3; rxbuf := [] |};
       rx_drop_ratio := 0; tx_drop_ratio := 0; tx_fail := 0 |} in
  let header := {| type := 2; id := 11; seq := 5 |} in
  let data := [x61; x62; x63] in
  let payload := {| cdata := Some data; len := 3 |} in
  let wire := [x02; x0b; x05; x0a; x00; x00; x00; x61; x62; x63] in
  (0 <= 2 <= 255 /\ 0 <= 11 <= 255 /\ 0 <= 5 <= 255
   /\ payload_in_bounds payload = true /\ 7 + 3 < UINT32_MOD
   /\ started self <> 0 /\ 0 <= fd (data_sock self)
   /\ tx_drop_ratio self = 0
   /\ Send_ok 10 <> Send_err (EINTR (errno_h := linux_errno))) /\
  (exists res self' evs,
     arsdk_transport_net_send_data (E := linux_errno) self header payload
       None 0
       {| rand_q := []; recvfrom_q := [];
          sendmsg_q := [Send_err 4; Send_ok 10]; sendmsg_calls := [] |}
     = Some ((res, self'),
             {| rand_q := []; recvfrom_q := []; sendmsg_q := [];
                sendmsg_calls := [ (3, wire); (3, wire) ] |},
             evs)) /\
  process_rxbuf 2 wire 10
  = Returned [ Ev_log_cmd [x02; x0b; x05; x0a; x00; x00; x00] payload
                 ARSDK_CMD_DIR_RX;
               Ev_recv_data header payload ].
Proof.
  intros self header data payload wire.
  assert (Ht : 0 <= 2 <= 255) by lia.
  assert (Hi : 0 <= 11 <= 255) by lia.
  assert (Hs : 0 <= 5 <= 255) by lia.
  assert (Hfit : 7 + 3 < UINT32_MOD) by (unfold UINT32_MOD; lia).
  assert (Hst : started self <> 0) by discriminate.
  assert (Hfd : 0 <= fd (data_sock self)) by (cbn; lia).
  assert (Hr : Send_ok 10 <> Send_err (EINTR (errno_h := linux_errno)))
    by discriminate.
  pose proof (send_then_decode_round_trip (E := linux_errno) self header
                payload 1 0 (Send_ok 10) [] [] [] [] Ht Hi Hs eq_refl Hfit
                Hst Hfd eq_refl Hr) as (Hsend & _ & Hrun & _).
  split; [repeat split; try reflexivity; try lia; assumption|].
  split; [exact Hsend|exact Hrun].
Defined.

Lemma partial_write_is_reported_witness :
  let header := {| type := 2; id := 11; seq := 5 |} in
  let payload := {| cdata := Some [x61; x62; x63]; len := 3 |} in
  let hb := [x02; x0b; x05; x0a; x00; x00; x00] in
  let net st :=
    {| parent := {| link_status := st |}; started := 1;
       data_sock := {| fd := 3; rxbuf := [] |};
       rx_drop_ratio := 0; tx_drop_ratio := 0; tx_fail := 0 |} in
  let w := {| rand_q := []; recvfrom_q := []; sendmsg_q := [Send_ok 4];
              sendmsg_calls := [] |} in
  let w' := {| rand_q := []; recvfrom_q := []; sendmsg_q := [];
               sendmsg_calls := [ (3, hb ++ [x61; x62; x63]) ] |} in
  let tr := [ Ev_log_cmd hb payload ARSDK_CMD_DIR_TX;
              Ev_log LOGE (Msg_partial_write 3 4 10) ] in
  (send_checks_pass (net ARSDK_LINK_STATUS_OK) payload None 0 = true
   /\ socket_write (E := linux_errno) (net ARSDK_LINK_STATUS_OK)
        (send_iov hb payload None 0) 10 w = Some (4, w', [])
   /\ 0 <= 4 < frame_size 0 payload)
  /\ arsdk_transport_net_send_data (E := linux_errno)
       (net ARSDK_LINK_STATUS_OK) header payload None 0 w
     = Some ((-11, net ARSDK_LINK_STATUS_OK), w', tr)
  /\ arsdk_transport_net_send_data (E := linux_errno)
       (net ARSDK_LINK_STATUS_KO) header payload None 0 w
     = Some ((-11, net ARSDK_LINK_STATUS_KO), w', tr).
Proof.
  intros header payload hb net w w' tr.
  assert (Hpart : 0 <= 4 < frame_size 0 payload)
    by (change (frame_size 0 payload) with 10; lia).
  split; [split; [reflexivity|split; [reflexivity|exact Hpart]]|].
  split.
  - exact (proj1 (partial_write_is_reported (E := linux_errno)
                    (net ARSDK_LINK_STATUS_OK) header payload None 0
                    w w' [] 4 eq_refl eq_refl Hpart)).
  - exact (proj1 (partial_write_is_reported (E := linux_errno)
                    (net ARSDK_LINK_STATUS_KO) header payload None 0
                    w w' [] 4 eq_refl eq_refl Hpart)).
Defined.

Lemma enobufs_is_dropped_then_recovered_witness :
  let header := {| type := 2; id := 11; seq := 5 |} in
  let payload := {| cdata := Some [x61; x62; x63]; len := 3 |} in
  let hb := [x02; x0b; x05; x0a; x00; x00; x00] in
  let net n :=
    {| parent := {| link_status := ARSDK_LINK_STATUS_OK |}; started := 1;
       data_sock := {| fd := 3; rxbuf := [] |};
       rx_drop_ratio := 0; tx_drop_ratio := 0; tx_fail := n |} in
  let w0 := {| rand_q := []; recvfrom_q := [];
               sendmsg_q := [Send_err 105; Send_ok 10];
               sendmsg_calls := [] |} in
  let w1 := {| rand_q := []; recvfrom_q := []; sendmsg_q := [Send_ok 10];
               sendmsg_calls := [ (3, hb ++ [x61; x62; x63]) ] |} in
  let w2 := {| rand_q := []; recvfrom_q := []; sendmsg_q := [];
               sendmsg_calls := [ (3, hb ++ [x61; x62; x63]);
                                  (3, hb ++ [x61; x62; x63]) ] |} in
  (send_checks_pass (net 0) payload None 0 = true
   /\ socket_write (E := linux_errno) (net 0)
        (send_iov hb payload None 0) 10 w0 = Some (-105, w1, [])
   /\ socket_write (E := linux_errno) (net 1)
        (send_iov hb payload None 0) 10 w1 = Some (10, w2, [])
   /\ 0 <= tx_fail (net 0) < INT_MAX /\ 0 < tx_fail (net 1))
  /\ arsdk_transport_net_send_data (E := linux_errno) (net 0) header payload
       None 0 w0
     = Some ((0, net 1), w1,
             [ Ev_log_cmd hb payload ARSDK_CMD_DIR_TX;
               Ev_log LOGW (Msg_sendmsg_enobufs 3 10 105) ])
  /\ arsdk_transport_net_send_data (E := linux_errno) (net 1) header payload
       None 0 w1
     = Some ((0, net 0), w2,
             [ Ev_log_cmd hb payload ARSDK_CMD_DIR_TX;
               Ev_log LOGI (Msg_succeed_after 3 10 1) ]).
Proof.
  intros header payload hb net w0 w1 w2.
  assert (Hcnt0 : 0 <= tx_fail (net 0) < INT_MAX)
    by (unfold INT_MAX, net; cbn [tx_fail]; lia).
  assert (Hcnt1 : 0 < tx_fail (net 1)) by (unfold net; cbn [tx_fail]; lia).
  split; [repeat split; try reflexivity; try apply Hcnt0; exact Hcnt1|].
  split.
  - exact (proj1 (proj1 (enobufs_is_dropped_then_recovered
                           (E := linux_errno) (net 0) header payload None 0
                           w0 w1 [] (-105) eq_refl eq_refl)
                        eq_refl Hcnt0)).
  - exact (proj2 (enobufs_is_dropped_then_recovered
                    (E := linux_errno) (net 1) header payload None 0
                    w1 w2 [] 10 eq_refl eq_refl)
                 eq_refl Hcnt1).
Defined.

Lemma two_write_failures_one_transition_witness :
  let header := {| type := 2; id := 11; seq := 5 |} in
  let payload := {| cdata := Some [x61; x62; x63]; len := 3 |} in
  let hb := [x02; x0b; x05; x0a; x00; x00; x00] in
  let net st :=
    {| parent := {| link_status := st |}; started := 1;
       data_sock := {| fd := 3; rxbuf := [] |};
       rx_drop_ratio := 0; tx_drop_ratio := 0; tx_fail := 0 |} in
  let w0 := {| rand_q := []; recvfrom_q := [];
               sendmsg_q := [Send_err 32; Send_err 104];
               sendmsg_calls := [] |} in
  let w1 := {| rand_q := []; recvfrom_q := [];
               sendmsg_q := [Send_err 104];
               sendmsg_calls := [ (3, hb ++ [x61; x62; x63]) ] |} in
  let w2 := {| rand_q := []; recvfrom_q := []; sendmsg_q := [];
               sendmsg_calls := [ (3, hb ++ [x61; x62; x63]);
                                  (3, hb ++ [x61; x62; x63]) ] |} in
  (link_status (parent (net ARSDK_LINK_STATUS_OK)) = ARSDK_LINK_STATUS_OK
   /\ send_checks_pass (net ARSDK_LINK_STATUS_OK) payload None 0 = true
   /\ (0 < 32 <= INT_MAX /\ 32 <> ENOBUFS (errno_h := linux_errno)
       /\ ARSDK_WOULD_BLOCK (E := linux_errno) 32 = false)
   /\ (0 < 104 <= INT_MAX /\ 104 <> ENOBUFS (errno_h := linux_errno)
       /\ ARSDK_WOULD_BLOCK (E := linux_errno) 104 = false)
   /\ socket_write (E := linux_errno) (net ARSDK_LINK_STATUS_OK)
        (send_iov hb payload None 0) 10 w0 = Some (-32, w1, [])
   /\ socket_write (E := linux_errno) (net ARSDK_LINK_STATUS_KO)
        (send_iov hb payload None 0) 10 w1 = Some (-104, w2, []))
  /\ arsdk_transport_net_send_data (E := linux_errno)
       (net ARSDK_LINK_STATUS_OK) header payload None 0 w0
     = Some ((-32, net ARSDK_LINK_STATUS_KO), w1,
             [ Ev_log_cmd hb payload ARSDK_CMD_DIR_TX;
               Ev_log LOGE (Msg_sendmsg_errno 3 32);
               Ev_set_link_status ARSDK_LINK_STATUS_KO ])
  /\ arsdk_transport_net_send_data (E := linux_errno)
       (net ARSDK_LINK_STATUS_KO) header payload None 0 w1
     = Some ((-104, net ARSDK_LINK_STATUS_KO), w2,
             [ Ev_log_cmd hb payload ARSDK_CMD_DIR_TX ]).
Proof.
  intros header payload hb net w0 w1 w2.
  assert (He1 : 0 < 32 <= INT_MAX) by (unfold INT_MAX; lia).
  assert (He2 : 0 < 104 <= INT_MAX) by (unfold INT_MAX; lia).
  assert (Hn1 : 32 <> ENOBUFS (errno_h := linux_errno))
    by (cbn [ENOBUFS linux_errno]; lia).
  assert (Hn2 : 104 <> ENOBUFS (errno_h := linux_errno))
    by (cbn [ENOBUFS linux_errno]; lia).
  pose proof (two_write_failures_one_transition (E := linux_errno)
                (net ARSDK_LINK_STATUS_OK) header header payload payload
                None None 0 0 w0 w1 w2 [] [] 32 104
                eq_refl eq_refl eq_refl He1 Hn1 eq_refl He2 Hn2 eq_refl
                eq_refl eq_refl) as [Hfirst [Hsecond _]].
  split; [|split; [exact Hfirst|exact Hsecond]].
  repeat split; try reflexivity; try lia; try apply He1; try apply He2.
Defined.

(** * Further properties of the decoder *)

Lemma forwarded_app (tr1 tr2 : list event) :
  forwarded (tr1 ++ tr2) = forwarded tr1 ++ forwarded tr2.
Proof.
  induction tr1 as [|e tr1 IH]; [reflexivity|].
  destruct e; cbn [app forwarded]; rewrite IH; reflexivity.
Qed.

Lemma events_of_emit_before (evs : list event) (o : outcome) :
  events_of (emit_before evs o) = evs ++ events_of o.
Proof. destruct o; reflexivity. Qed.

(** What a pass that dispatches a frame has read and checked. *)
Lemma process_rxbuf_iter_next_inv (rxbuf : list uint8_t) (rxlen rxoff : Z)
    (evs : list event) (rxoff' : Z) :
  process_rxbuf_iter rxbuf rxlen rxoff = Iter_next evs rxoff' ->
  exists b0 b1 b2 b3 b4 b5 b6,
    let size := decode_size b3 b4 b5 b6 in
    let payloadlen := u32 (size - 7) in
    let payload :=
      {| cdata := if payloadlen =? 0 then None
                  else Some (ptr_at rxbuf (u32 (rxoff + 7)));
         len := payloadlen |} in
    read_headerbuf rxbuf rxoff = Some [b0; b1; b2; b3; b4; b5; b6]
    /\ rxoff < rxlen
    /\ u32 (rxoff + 7) <= rxlen
    /\ 7 <= size
    /\ u32 (rxoff + size) <= rxlen
    /\ evs = [ Ev_log_cmd [b0; b1; b2; b3; b4; b5; b6] payload
                 ARSDK_CMD_DIR_RX;
               Ev_recv_data {| type := u8 b0; id := u8 b1; seq := u8 b2 |}
                 payload ]
    /\ rxoff' = u32 (u32 (rxoff + 7) + payloadlen).
Proof.
  unfold process_rxbuf_iter, ARSDK_FRAME_HEADER_SIZE. intros H.
  destruct (Z.ltb_spec rxoff rxlen) as [Hlt|_]; cbn [negb] in H;
    [|discriminate H].
  destruct (Z.gtb_spec (u32 (rxoff + 7)) rxlen) as [_|Hroom];
    [discriminate H|].
  destruct (read_headerbuf rxbuf rxoff) as [hb|] eqn:Hrd; [|discriminate H].
  destruct hb as [|b0 [|b1 [|b2 [|b3 [|b4 [|b5 [|b6 [|? ?]]]]]]]];
    try discriminate H.
  destruct (Z.ltb_spec (decode_size b3 b4 b5 b6) 7) as [_|Hsize];
    cbn [orb] in H; [discriminate H|].
  destruct (Z.gtb_spec (u32 (rxoff + decode_size b3 b4 b5 b6)) rxlen)
    as [_|Hfit]; [discriminate H|].
  injection H as Hevs Hoff.
  exists b0, b1, b2, b3, b4, b5, b6. cbv zeta.
  repeat split; try assumption; symmetry; assumption.
Qed.

Lemma decode_size_range (b3 b4 b5 b6 : uint8_t) :
  0 <= decode_size b3 b4 b5 b6 < UINT32_MOD.
Proof. unfold decode_size. apply u32_range. Qed.

Lemma length_ptr_at (buf : list uint8_t) (i : Z) :
  0 <= i <= Z.of_nat (length buf) ->
  Z.of_nat (length (ptr_at buf i)) = Z.of_nat (length buf) - i.
Proof.
  intros Hi. unfold ptr_at. rewrite length_skipn. lia.
Qed.

(** X1.  Whatever the bytes and whatever the fuel, the decoder's own reads
    stay inside the buffer when [rxlen] does not exceed the buffer and
    [rxlen + 7] fits 32 bits. *)
Theorem process_rxbuf_never_faults (fuel : nat) (rxbuf : list uint8_t)
    (rxlen : Z) (tr : list event) :
  rxlen <= Z.of_nat (length rxbuf) ->
  rxlen + 7 <= UINT32_MOD ->
  process_rxbuf fuel rxbuf rxlen <> Faulted tr.
Proof.
  intros Hlen Hmax. unfold process_rxbuf.
  assert (Hgen : forall rxoff tr', 0 <= rxoff ->
            process_rxbuf_loop fuel rxbuf rxlen rxoff <> Faulted tr').
  { induction fuel as [|fuel IH]; intros rxoff tr' Hoff;
      [discriminate|].
    cbn [process_rxbuf_loop].
    pose proof (process_rxbuf_iter_reads_inside rxbuf rxlen rxoff
                  Hoff Hlen Hmax) as Hin.
    destruct (process_rxbuf_iter rxbuf rxlen rxoff) as [|e| |evs rxoff']
      eqn:Hiter; try discriminate; [congruence|].
    apply process_rxbuf_iter_next_inv in Hiter.
    destruct Hiter as (b0 & b1 & b2 & b3 & b4 & b5 & b6 & Hiter).
    cbv zeta in Hiter. destruct Hiter as (_ & _ & _ & _ & _ & _ & Hoff').
    specialize (IH rxoff').
    destruct (process_rxbuf_loop fuel rxbuf rxlen rxoff') as [t|t|t];
      cbn [emit_before]; try discriminate.
    exfalso. apply (IH t); [|reflexivity].
    subst rxoff'. apply u32_range. }
  apply Hgen. lia.
Qed.

Lemma process_rxbuf_never_faults_witness :
  (14 <= Z.of_nat (length wrapping_datagram) /\ 14 + 7 <= UINT32_MOD)
  /\ process_rxbuf 5 wrapping_datagram 14
     <> Faulted (events_of (process_rxbuf 5 wrapping_datagram 14)).
Proof.
  assert (Hlen : 14 <= Z.of_nat (length wrapping_datagram))
    by (cbn [length wrapping_datagram]; lia).
  assert (Hmax : 14 + 7 <= UINT32_MOD) by (unfold UINT32_MOD; lia).
  split; [split; assumption|].
  exact (process_rxbuf_never_faults 5 wrapping_datagram 14 _ Hlen Hmax).
Defined.

Lemma no_wrapping_size_at (rxbuf : list uint8_t) (rxlen rxoff : Z)
    (b0 b1 b2 b3 b4 b5 b6 : uint8_t) :
  no_wrapping_size rxbuf rxlen = true ->
  0 <= rxoff < rxlen ->
  read_headerbuf rxbuf rxoff = Some [b0; b1; b2; b3; b4; b5; b6] ->
  rxoff + decode_size b3 b4 b5 b6 < UINT32_MOD.
Proof.
  unfold no_wrapping_size. intros Hall Hoff Hrd.
  rewrite forallb_forall in Hall.
  specialize (Hall (Z.to_nat rxoff)).
  rewrite Z2Nat.id in Hall by lia.
  unfold size_field_at in Hall. rewrite Hrd in Hall.
  apply Z.ltb_lt. apply Hall. apply in_seq. lia.
Qed.

(** A dispatched frame whose [rxoff + size] stays below 2^32 lies whole
    inside the received bytes: its view is within bounds and the offset
    moves forward by [size]. *)
Lemma process_rxbuf_iter_next_sound (rxbuf : list uint8_t) (rxlen rxoff : Z)
    (evs : list event) (rxoff' : Z) :
  0 <= rxoff ->
  rxlen <= Z.of_nat (length rxbuf) ->
  rxlen + 7 <= UINT32_MOD ->
  no_wrapping_size rxbuf rxlen = true ->
  process_rxbuf_iter rxbuf rxlen rxoff = Iter_next evs rxoff' ->
  rxoff + 7 <= rxoff' <= rxlen
  /\ length (forwarded evs) = 1%nat
  /\ Forall (fun f => payload_in_bounds (snd f) = true) (forwarded evs).
Proof.
  intros Hoff Hlen Hmax Hnw Hiter.
  apply process_rxbuf_iter_next_inv in Hiter.
  destruct Hiter as (b0 & b1 & b2 & b3 & b4 & b5 & b6 & Hiter).
  cbv zeta in Hiter.
  destruct Hiter as (Hrd & Hlt & Hroom & Hsize & Hfit & Hevs & Hoff').
  pose proof (no_wrapping_size_at _ _ _ _ _ _ _ _ _ _ Hnw
                (conj Hoff Hlt) Hrd) as Hnowrap.
  set (size := decode_size b3 b4 b5 b6) in *.
  rewrite (u32_small (rxoff + size)) in Hfit by lia.
  rewrite (u32_small (rxoff + 7)) in Hoff', Hevs by lia.
  rewrite (u32_small (size - 7)) in Hoff', Hevs by lia.
  rewrite (u32_small (rxoff + 7 + (size - 7))) in Hoff' by lia.
  subst evs rxoff'. cbn [forwarded length].
  split; [lia|]. split; [reflexivity|].
  constructor; [|constructor]. cbn [snd]. unfold payload_in_bounds.
  cbn [cdata len].
  destruct (Z.eqb_spec (size - 7) 0) as [H0|Hpos].
  - reflexivity.
  - apply andb_true_intro. split; [apply Z.leb_le; lia|].
    apply Z.leb_le. rewrite length_ptr_at by lia. lia.
Qed.

(** X2.  When no offset below [rxlen] holds a size field that
    wraps the 32-bit sum, decoding returns within [rxlen / 7 + 1] passes,
    forwards at most [rxlen / 7] frames and every forwarded view lies
    inside the buffer. *)
Theorem process_rxbuf_returns_without_wrapping (fuel : nat)
    (rxbuf : list uint8_t) (rxlen : Z) :
  0 <= rxlen <= Z.of_nat (length rxbuf) ->
  rxlen + 7 <= UINT32_MOD ->
  no_wrapping_size rxbuf rxlen = true ->
  rxlen < 7 * Z.of_nat fuel ->
  exists tr,
    process_rxbuf fuel rxbuf rxlen = Returned tr
    /\ 7 * Z.of_nat (length (forwarded tr)) <= rxlen
    /\ Forall (fun f => payload_in_bounds (snd f) = true) (forwarded tr).
Proof.
  intros [Hpos Hlen] Hmax Hnw Hfuel. unfold process_rxbuf.
  assert (Hgen : forall rxoff, 0 <= rxoff <= rxlen ->
            rxlen - rxoff < 7 * Z.of_nat fuel ->
            exists tr,
              process_rxbuf_loop fuel rxbuf rxlen rxoff = Returned tr
              /\ 7 * Z.of_nat (length (forwarded tr)) <= rxlen - rxoff
              /\ Forall (fun f => payload_in_bounds (snd f) = true)
                        (forwarded tr)).
  { clear Hfuel. induction fuel as [|fuel IH]; intros rxoff Hoff Hfuel;
      [lia|].
    cbn [process_rxbuf_loop].
    pose proof (process_rxbuf_iter_reads_inside rxbuf rxlen rxoff
                  (proj1 Hoff) Hlen Hmax) as Hin.
    destruct (process_rxbuf_iter rxbuf rxlen rxoff) as [|e| |evs rxoff']
      eqn:Hiter; [| |congruence|].
    - exists []. cbn [forwarded length]. repeat split; [lia|constructor].
    - assert (He : forwarded [e] = []).
      { unfold process_rxbuf_iter in Hiter.
        destruct (negb (rxoff <? rxlen)); [discriminate Hiter|].
        destruct (u32 (rxoff + ARSDK_FRAME_HEADER_SIZE) >? rxlen).
        - injection Hiter as <-. reflexivity.
        - destruct (read_headerbuf rxbuf rxoff)
            as [[|? [|? [|? [|? [|? [|? [|? [|? ?]]]]]]]]|];
            try discriminate Hiter.
          destruct (_ || _); [|discriminate Hiter].
          injection Hiter as <-. reflexivity. }
      exists [e]. rewrite He. cbn [length].
      repeat split; [lia|constructor].
    - destruct (process_rxbuf_iter_next_sound _ _ _ _ _ (proj1 Hoff) Hlen
                  Hmax Hnw Hiter) as (Hadv & Hone & Hin1).
      destruct (IH rxoff' ltac:(lia) ltac:(lia)) as (tr & Hrun & Hcnt & Hin2).
      exists (evs ++ tr). rewrite Hrun. cbn [emit_before].
      rewrite forwarded_app, length_app, Hone.
      repeat split; [lia|]. apply Forall_app. split; assumption. }
  destruct (Hgen 0 ltac:(lia) ltac:(lia)) as (tr & Hrun & Hcnt & Hin).
  exists tr. repeat split; [exact Hrun|lia|exact Hin].
Qed.

Lemma process_rxbuf_returns_without_wrapping_witness :
  let rxbuf := [x02; x0b; x01; x0a; x00; x00; x00; x61; x62; x63;
                x02; x0b; x02; x07; x00; x00; x00] in
  (0 <= 17 <= Z.of_nat (length rxbuf) /\ 17 + 7 <= UINT32_MOD
   /\ no_wrapping_size rxbuf 17 = true /\ 17 < 7 * Z.of_nat 3)
  /\ exists tr,
       process_rxbuf 3 rxbuf 17 = Returned tr
       /\ 7 * Z.of_nat (length (forwarded tr)) <= 17
       /\ Forall (fun f => payload_in_bounds (snd f) = true) (forwarded tr).
Proof.
  intros rxbuf.
  assert (H1 : 0 <= 17 <= Z.of_nat (length rxbuf))
    by (unfold rxbuf; cbn [length]; lia).
  assert (H2 : 17 + 7 <= UINT32_MOD) by (unfold UINT32_MOD; lia).
  assert (H3 : 17 < 7 * Z.of_nat 3) by lia.
  split; [repeat split; try apply H1; try assumption; reflexivity|].
  exact (process_rxbuf_returns_without_wrapping 3 rxbuf 17 H1 H2 eq_refl H3).
Defined.

(** ** Packed frames *)

Lemma emit_before_nil (o : outcome) : emit_before [] o = o.
Proof. destruct o; reflexivity. Qed.

Lemma emit_before_app (evs1 evs2 : list event) (o : outcome) :
  emit_before (evs1 ++ evs2) o = emit_before evs1 (emit_before evs2 o).
Proof. destruct o; cbn [emit_before]; rewrite app_assoc; reflexivity. Qed.

Lemma wire_frame_length (f : arsdk_transport_header * list uint8_t) :
  Z.of_nat (length (wire_frame f)) = 7 + Z.of_nat (length (snd f)).
Proof.
  unfold wire_frame, send_headerbuf. rewrite length_app. cbn [length]. lia.
Qed.

(** One pass over a frame laid out by [wire_frame], anywhere in a buffer. *)
Lemma process_rxbuf_iter_wire_frame (pre post : list uint8_t)
    (f : arsdk_transport_header * list uint8_t) (rxlen : Z) :
  header_in_range (fst f) ->
  Z.of_nat (length pre) + Z.of_nat (length (wire_frame f)) <= rxlen ->
  rxlen < UINT32_MOD ->
  let n := Z.of_nat (length (snd f)) in
  let view := {| cdata := if n =? 0 then None else Some (snd f ++ post);
                 len := n |} in
  process_rxbuf_iter (pre ++ wire_frame f ++ post) rxlen
                     (Z.of_nat (length pre))
  = Iter_next
      [ Ev_log_cmd (send_headerbuf (fst f) (7 + n)) view ARSDK_CMD_DIR_RX;
        Ev_recv_data (fst f) view ]
      (Z.of_nat (length (pre ++ wire_frame f)))
  /\ frame_content (fst f, view) = f
  /\ payload_in_bounds view = true.
Proof.
  intros (Ht & Hi & Hs) Hfit Hmax n view.
  rewrite wire_frame_length in Hfit. fold n in Hfit.
  assert (Hn : 0 <= n) by (subst n; lia).
  split; [|split].
  - unfold wire_frame. fold n. unfold send_headerbuf.
    rewrite <- app_assoc.
    pose proof (process_rxbuf_iter_frame pre (snd f) post
                  (to_u8 (type (fst f))) (to_u8 (id (fst f)))
                  (to_u8 (seq (fst f)))
                  (to_u8 (Z.land (7 + n) 255))
                  (to_u8 (Z.land (Z.shiftr (7 + n) 8) 255))
                  (to_u8 (Z.land (Z.shiftr (7 + n) 16) 255))
                  (to_u8 (Z.land (Z.shiftr (7 + n) 24) 255))
                  rxlen) as Hframe.
    cbv zeta in Hframe. fold n in Hframe.
    rewrite Hframe; [|apply decode_size_send; lia|lia|exact Hmax].
    rewrite !u8_to_u8_small by lia.
    rewrite !length_app. cbn [length].
    replace (Z.of_nat (length pre + (7 + length (snd f))))
      with (Z.of_nat (length pre) + 7 + n) by (subst n; lia).
    subst view. destruct (fst f) as [t i s]. reflexivity.
  - unfold frame_content, payload_bytes, view. cbn [fst snd cdata len].
    destruct f as [h d]. cbn [fst snd] in *. f_equal.
    destruct (Z.eqb_spec n 0) as [H0|_].
    + destruct d as [|b d']; [reflexivity|]. subst n. cbn [length] in H0. lia.
    + subst n. rewrite Nat2Z.id, firstn_app, Nat.sub_diag, firstn_all.
      cbn [firstn]. apply app_nil_r.
  - unfold payload_in_bounds, view. cbn [cdata len].
    destruct (Z.eqb_spec n 0) as [H0|_]; [reflexivity|].
    apply andb_true_intro. split; apply Z.leb_le; [lia|].
    rewrite length_app. subst n. lia.
Qed.

(** A run of well-formed frames at the head of what is left to decode is
    forwarded whole, in order and without any error log, before the decoder
    looks at what follows. *)
Lemma process_rxbuf_loop_wire_frames
    (fs : list (arsdk_transport_header * list uint8_t)) :
  forall (pre post : list uint8_t) (rxlen : Z) (n : nat),
  Forall (fun f => header_in_range (fst f)) fs ->
  Z.of_nat (length pre) + Z.of_nat (length (wire_frames fs)) <= rxlen ->
  rxlen < UINT32_MOD ->
  exists evs,
    process_rxbuf_loop (length fs + n) (pre ++ wire_frames fs ++ post) rxlen
                       (Z.of_nat (length pre))
    = emit_before evs
        (process_rxbuf_loop n (pre ++ wire_frames fs ++ post) rxlen
           (Z.of_nat (length (pre ++ wire_frames fs))))
    /\ map frame_content (forwarded evs) = fs
    /\ Forall (fun f => payload_in_bounds (snd f) = true) (forwarded evs)
    /\ filter is_error_log evs = [].
Proof.
  induction fs as [|f fs IH]; intros pre post rxlen n Hhdr Hfit Hmax.
  - exists []. cbn [wire_frames flat_map length Nat.add app].
    rewrite app_nil_r, emit_before_nil.
    repeat split; constructor.
  - inversion Hhdr as [|? ? Hf Hfs]; subst.
    change (wire_frames (f :: fs)) with (wire_frame f ++ wire_frames fs)
      in *.
    rewrite length_app in Hfit.
    destruct (process_rxbuf_iter_wire_frame pre (wire_frames fs ++ post) f
                rxlen Hf ltac:(lia) Hmax) as (Hstep & Hcontent & Hbound).
    cbv zeta in Hstep, Hcontent, Hbound.
    destruct (IH (pre ++ wire_frame f) post rxlen n Hfs
                ltac:(rewrite length_app; lia) Hmax)
      as (evs & Hrun & Hfw & Hin & Herr).
    rewrite <- !app_assoc in Hrun.
    match type of Hstep with
    | _ = Iter_next ?e _ => set (evs1 := e) in *
    end.
    exists (evs1 ++ evs). split.
    { cbn [length Nat.add]. rewrite <- (app_assoc (wire_frame f)).
      rewrite (process_rxbuf_loop_next _ _ _ _ _ _ Hstep).
      rewrite Hrun, <- emit_before_app.
      rewrite !app_assoc. reflexivity. }
    rewrite forwarded_app. subst evs1. cbn [forwarded app map].
    rewrite Hcontent, Hfw.
    split; [reflexivity|]. split; [constructor; assumption|].
    cbn [filter is_error_log app]. exact Herr.
Qed.

(** X3.  Any number of frames laid back to back as the send path lays
    them out decode to exactly those frames, in order, each with its own
    header and payload bytes and a view inside the buffer, without any
    error log. *)
Theorem packed_frames_all_forwarded
    (fs : list (arsdk_transport_header * list uint8_t)) (k : nat) :
  Forall (fun f => header_in_range (fst f)) fs ->
  Z.of_nat (length (wire_frames fs)) < UINT32_MOD ->
  exists tr,
    process_rxbuf (length fs + S k) (wire_frames fs)
                  (Z.of_nat (length (wire_frames fs)))
    = Returned tr
    /\ map frame_content (forwarded tr) = fs
    /\ Forall (fun f => payload_in_bounds (snd f) = true) (forwarded tr)
    /\ filter is_error_log tr = [].
Proof.
  intros Hhdr Hmax.
  destruct (process_rxbuf_loop_wire_frames fs [] []
              (Z.of_nat (length (wire_frames fs))) (S k) Hhdr
              ltac:(cbn [length]; lia) Hmax)
    as (evs & Hrun & Hfw & Hin & Herr).
  cbn [app length] in Hrun. rewrite app_nil_r in Hrun.
  exists evs. unfold process_rxbuf.
  change (Z.of_nat 0) with 0 in Hrun. rewrite Hrun.
  rewrite process_rxbuf_loop_end by lia. cbn [emit_before].
  rewrite app_nil_r. repeat split; assumption.
Qed.

Lemma packed_frames_all_forwarded_witness :
  let fs := [ ({| type := 2; id := 11; seq := 1 |}, [x61; x62; x63]);
              ({| type := 4; id := 126; seq := 9 |}, []) ] in
  (Forall (fun f => header_in_range (fst f)) fs
   /\ Z.of_nat (length (wire_frames fs)) < UINT32_MOD)
  /\ exists tr,
       process_rxbuf 3 (wire_frames fs) 17 = Returned tr
       /\ map frame_content (forwarded tr) = fs.
Proof.
  intros fs.
  assert (Hhdr : Forall (fun f => header_in_range (fst f)) fs)
    by (repeat constructor; cbn; lia).
  assert (Hmax : Z.of_nat (length (wire_frames fs)) < UINT32_MOD)
    by (unfold UINT32_MOD; cbn; lia).
  split; [split; assumption|].
  destruct (packed_frames_all_forwarded fs 0 Hhdr Hmax)
    as (tr & Hrun & Hfw & _).
  exists tr. split; [exact Hrun|exact Hfw].
Defined.

Lemma process_rxbuf_iter_partial (rxbuf : list uint8_t) (rxlen rxoff : Z) :
  0 <= rxoff < rxlen ->
  rxlen < rxoff + 7 < UINT32_MOD ->
  process_rxbuf_iter rxbuf rxlen rxoff
  = Iter_return (Ev_log LOGE (Msg_partial_header (rxlen - rxoff))).
Proof.
  intros Hoff Hshort. unfold process_rxbuf_iter, ARSDK_FRAME_HEADER_SIZE.
  destruct (Z.ltb_spec rxoff rxlen) as [_|H]; [cbn [negb]|lia].
  rewrite (u32_small (rxoff + 7)) by lia.
  destruct (Z.gtb_spec (rxoff + 7) rxlen) as [_|H]; [|lia].
  rewrite (u32_small (rxlen - rxoff)) by lia. reflexivity.
Qed.

(** X4.  Well-formed frames followed by one to six stray bytes: the
    frames are forwarded, then the truncated header is logged once, with
    the number of stray bytes, and nothing more is forwarded. *)
Theorem stray_bytes_after_frames
    (fs : list (arsdk_transport_header * list uint8_t))
    (junk : list uint8_t) (k : nat) :
  Forall (fun f => header_in_range (fst f)) fs ->
  (0 < length junk < 7)%nat ->
  Z.of_nat (length (wire_frames fs ++ junk)) + 7 <= UINT32_MOD ->
  exists evs,
    process_rxbuf (length fs + S k) (wire_frames fs ++ junk)
                  (Z.of_nat (length (wire_frames fs ++ junk)))
    = Returned
        (evs ++ [ Ev_log LOGE
                    (Msg_partial_header (Z.of_nat (length junk))) ])
    /\ map frame_content (forwarded evs) = fs
    /\ filter is_error_log evs = [].
Proof.
  intros Hhdr Hjunk Hmax. rewrite length_app in *.
  destruct (process_rxbuf_loop_wire_frames fs [] junk
              (Z.of_nat (length (wire_frames fs) + length junk)) (S k) Hhdr
              ltac:(cbn [length]; lia) ltac:(lia))
    as (evs & Hrun & Hfw & _ & Herr).
  cbn [app length] in Hrun.
  exists evs. unfold process_rxbuf.
  change (Z.of_nat 0) with 0 in Hrun. rewrite Hrun.
  cbn [process_rxbuf_loop].
  rewrite process_rxbuf_iter_partial by lia.
  cbn [emit_before].
  replace (Z.of_nat (length (wire_frames fs) + length junk)
           - Z.of_nat (length (wire_frames fs)))
    with (Z.of_nat (length junk)) by lia.
  repeat split; assumption.
Qed.

Lemma stray_bytes_after_frames_witness :
  let fs := [ ({| type := 2; id := 11; seq := 1 |}, [x61; x62; x63]) ] in
  let junk := [x02; x0b; x02] in
  (Forall (fun f => header_in_range (fst f)) fs
   /\ (0 < length junk < 7)%nat
   /\ Z.of_nat (length (wire_frames fs ++ junk)) + 7 <= UINT32_MOD)
  /\ exists evs,
       process_rxbuf 2 (wire_frames fs ++ junk) 13
       = Returned (evs ++ [ Ev_log LOGE (Msg_partial_header 3) ])
       /\ map frame_content (forwarded evs) = fs.
Proof.
  intros fs junk.
  assert (Hhdr : Forall (fun f => header_in_range (fst f)) fs)
    by (repeat constructor; cbn; lia).
  assert (Hjunk : (0 < length junk < 7)%nat) by (cbn; lia).
  assert (Hmax : Z.of_nat (length (wire_frames fs ++ junk)) + 7
                 <= UINT32_MOD)
    by (unfold UINT32_MOD; cbn; lia).
  split; [repeat split; try assumption; apply Hjunk|].
  destruct (stray_bytes_after_frames fs junk 0 Hhdr Hjunk Hmax)
    as (evs & Hrun & Hfw & _).
  exists evs. split; [exact Hrun|exact Hfw].
Defined.

(** X5.  Well-formed frames followed by a header whose size field is
    below 7, or runs past the received bytes without wrapping: the frames
    before it are forwarded, the bad frame is logged once, and nothing of
    what follows it is decoded, whatever it holds. *)
Theorem bad_size_after_frames
    (fs : list (arsdk_transport_header * list uint8_t))
    (b0 b1 b2 b3 b4 b5 b6 : uint8_t) (rest : list uint8_t) (k : nat) :
  let pre := wire_frames fs in
  let rxbuf := pre ++ [b0; b1; b2; b3; b4; b5; b6] ++ rest in
  let size := decode_size b3 b4 b5 b6 in
  Forall (fun f => header_in_range (fst f)) fs ->
  Z.of_nat (length rxbuf) < UINT32_MOD ->
  size < 7
  \/ (7 + Z.of_nat (length rest) < size
      /\ Z.of_nat (length pre) + size < UINT32_MOD) ->
  exists evs,
    process_rxbuf (length fs + S k) rxbuf (Z.of_nat (length rxbuf))
    = Returned (evs ++ [ Ev_log LOGE Msg_bad_frame ])
    /\ map frame_content (forwarded evs) = fs
    /\ filter is_error_log evs = [].
Proof.
  intros pre rxbuf size Hhdr Hmax Hbad.
  assert (Hlen : Z.of_nat (length rxbuf)
                 = Z.of_nat (length pre) + 7 + Z.of_nat (length rest)).
  { unfold rxbuf. rewrite !length_app. cbn [length]. lia. }
  destruct (process_rxbuf_loop_wire_frames fs []
              ([b0; b1; b2; b3; b4; b5; b6] ++ rest)
              (Z.of_nat (length rxbuf)) (S k) Hhdr
              ltac:(cbn [length]; fold pre; lia) Hmax)
    as (evs & Hrun & Hfw & _ & Herr).
  cbn [length] in Hrun. rewrite !app_nil_l in Hrun. fold pre in Hrun.
  fold rxbuf in Hrun.
  exists evs. unfold process_rxbuf.
  change (Z.of_nat 0) with 0 in Hrun. rewrite Hrun.
  cbn [process_rxbuf_loop].
  assert (Hrd : read_headerbuf rxbuf (Z.of_nat (length pre))
                = Some [b0; b1; b2; b3; b4; b5; b6])
    by apply read_headerbuf_at.
  assert (Hiter : process_rxbuf_iter rxbuf (Z.of_nat (length rxbuf))
                    (Z.of_nat (length pre))
                  = Iter_return (Ev_log LOGE Msg_bad_frame)).
  { destruct Hbad as [Hshort|[Hlong Hnowrap]].
    - apply (process_rxbuf_iter_short_size _ _ _ b0 b1 b2 b3 b4 b5 b6);
        [lia|rewrite u32_small; lia|exact Hrd|exact Hshort].
    - apply (process_rxbuf_iter_long_size _ _ _ b0 b1 b2 b3 b4 b5 b6);
        [lia|rewrite u32_small; lia|exact Hrd|fold size; lia]. }
  rewrite Hiter. cbn [emit_before].
  repeat split; assumption.
Qed.

Lemma bad_size_after_frames_witness :
  let fs := [ ({| type := 2; id := 11; seq := 1 |}, [x61; x62; x63]) ] in
  let rest := [x02; x0b; x02; x07; x00; x00; x00] in
  (Forall (fun f => header_in_range (fst f)) fs
   /\ Z.of_nat (length (wire_frames fs
                          ++ [x02; x0b; x09; x06; x00; x00; x00] ++ rest))
      < UINT32_MOD
   /\ decode_size x06 x00 x00 x00 < 7)
  /\ exists evs,
       process_rxbuf 2
         (wire_frames fs ++ [x02; x0b; x09; x06; x00; x00; x00] ++ rest) 24
       = Returned (evs ++ [ Ev_log LOGE Msg_bad_frame ])
       /\ map frame_content (forwarded evs) = fs.
Proof.
  intros fs rest.
  assert (Hhdr : Forall (fun f => header_in_range (fst f)) fs)
    by (repeat constructor; cbn; lia).
  assert (Hmax : Z.of_nat (length (wire_frames fs
                          ++ [x02; x0b; x09; x06; x00; x00; x00] ++ rest))
                 < UINT32_MOD)
    by (unfold UINT32_MOD; cbn; lia).
  assert (Hsize : decode_size x06 x00 x00 x00 < 7) by (vm_compute; reflexivity).
  split; [repeat split; assumption|].
  destruct (bad_size_after_frames fs x02 x0b x09 x06 x00 x00 x00 rest 0
              Hhdr Hmax (or_introl Hsize))
    as (evs & Hrun & Hfw & _).
  exists evs. split; [exact Hrun|exact Hfw].
Defined.

(** * Further properties of the read and write paths *)

Section NetExtra.

Context {E : errno_h}.

(** ** [socket_write] *)

(** X6.  Without fault injection, [socket_write] calls [sendmsg] again
    after every interrupted call and answers with the first outcome that is
    not an interruption: the byte count, or the negated error number.  Each
    of the calls is handed the socket's descriptor and the bytes of the
    scatter-gather list. *)
Theorem socket_write_retries_interrupts (self : arsdk_transport_net)
    (iov : list iovec) (total : Z) (n : nat) (r : sendmsg_result)
    (q : list sendmsg_result) (rq : list Z) (cq : list recvfrom_result)
    (sent : list (Z * list uint8_t)) :
  tx_drop_ratio self = 0 ->
  r <> Send_err EINTR ->
  socket_write self iov total
    {| rand_q := rq; recvfrom_q := cq;
       sendmsg_q := repeat (Send_err EINTR) n ++ r :: q;
       sendmsg_calls := sent |}
  = Some (match r with
          | Send_ok c => Z.of_N c
          | Send_err errno => - errno
          end,
          {| rand_q := rq; recvfrom_q := cq; sendmsg_q := q;
             sendmsg_calls :=
               sent ++ repeat (fd (data_sock self), iov_bytes iov) (S n) |},
          []).
Proof.
  intros Hratio Hr. unfold socket_write, drop_draw. rewrite Hratio.
  cbn [Z.eqb]. unfold bind, ret, sendmsg_ignoring_interrupts.
  cbn [sendmsg_q rand_q recvfrom_q sendmsg_calls].
  rewrite (sendmsg_loop_interrupted _ n r q sent Hr). reflexivity.
Qed.

(** X7.  Whatever the world answers, [socket_write] never hands
    [-EINTR] to its caller. *)
Theorem socket_write_never_EINTR (self : arsdk_transport_net)
    (iov : list iovec) (total writelen : Z) (w w' : world)
    (evs : list event) :
  0 <= total ->
  socket_write self iov total w = Some (writelen, w', evs) ->
  writelen <> - EINTR.
Proof.
  intros Htotal. pose proof EINTR_int as HE.
  unfold socket_write, drop_draw. intros H.
  destruct (tx_drop_ratio self =? 0);
    unfold bind, rand, emit, ret, sendmsg_ignoring_interrupts in H.
  - destruct (sendmsg_loop _ (sendmsg_q w) _) as [[[r q] cs]|] eqn:Hloop;
      simpl in H; [|discriminate H].
    apply sendmsg_loop_result in Hloop.
    injection H as Hwl _ _. subst writelen.
    destruct r as [c|e]; [lia|]. intros Heq. apply Hloop. f_equal. lia.
  - destruct (rand_q w) as [|v rq]; cbn [app] in H; [discriminate H|].
    destruct (Z.rem v 100 <? tx_drop_ratio self); cbn [app] in H.
    + injection H as Hwl _ _. lia.
    + cbn [sendmsg_q] in H.
      destruct (sendmsg_loop _ (sendmsg_q w) _) as [[[r q] cs]|] eqn:Hloop;
        simpl in H; [|discriminate H].
      apply sendmsg_loop_result in Hloop.
      injection H as Hwl _ _. subst writelen.
      destruct r as [c|e]; [lia|]. intros Heq. apply Hloop. f_equal. lia.
Qed.

(** With a transmit drop ratio of 100 or more the write is always
    simulated: [socket_write] answers [total] and makes no [sendmsg] call. *)
Lemma socket_write_drops_all (self : arsdk_transport_net) (iov : list iovec)
    (total v : Z) (rq : list Z) (cq : list recvfrom_result)
    (sq : list sendmsg_result)
    (sent : list (Z * list uint8_t)) :
  100 <= tx_drop_ratio self ->
  socket_write self iov total
    {| rand_q := v :: rq; recvfrom_q := cq; sendmsg_q := sq;
       sendmsg_calls := sent |}
  = Some (total, {| rand_q := rq; recvfrom_q := cq; sendmsg_q := sq;
                    sendmsg_calls := sent |},
          [ Ev_log LOGI (Msg_tx_drop (fd (data_sock self)) total) ]).
Proof.
  intros Hratio. unfold socket_write, drop_draw.
  destruct (Z.eqb_spec (tx_drop_ratio self) 0) as [H0|_]; [lia|].
  unfold bind, rand, ret, emit. cbn [rand_q recvfrom_q sendmsg_q app].
  pose proof (Z.rem_bound_abs v 100 ltac:(lia)) as Hrem.
  destruct (Z.ltb_spec (Z.rem v 100) (tx_drop_ratio self)) as [_|H]; [|lia].
  reflexivity.
Qed.

(** The only event [socket_write] can emit is the log of a simulated drop. *)
Lemma socket_write_events (self : arsdk_transport_net) (iov : list iovec)
    (total writelen : Z) (w w' : world) (evs : list event) :
  socket_write self iov total w = Some (writelen, w', evs) ->
  evs = []
  \/ evs = [ Ev_log LOGI (Msg_tx_drop (fd (data_sock self)) total) ].
Proof.
  unfold socket_write, drop_draw. intros H.
  destruct (tx_drop_ratio self =? 0);
    unfold bind, rand, emit, ret, sendmsg_ignoring_interrupts in H.
  - destruct (sendmsg_loop _ (sendmsg_q w) _) as [[[r q] cs]|];
      simpl in H; [|discriminate H].
    injection H as _ _ Hevs. left. symmetry. exact Hevs.
  - destruct (rand_q w) as [|v rq]; cbn [app] in H; [discriminate H|].
    destruct (Z.rem v 100 <? tx_drop_ratio self); cbn [app] in H.
    + injection H as _ _ Hevs. right. symmetry. exact Hevs.
    + cbn [sendmsg_q] in H.
      destruct (sendmsg_loop _ (sendmsg_q w) _) as [[[r q] cs]|];
        simpl in H; [|discriminate H].
      injection H as _ _ Hevs. left. symmetry. exact Hevs.
Qed.

(** ** [arsdk_transport_net_send_data] *)

(** Past the checks and past the write, at the handling of its result. *)
Ltac at_write_result Hchk Hwrite :=
  unfold arsdk_transport_net_send_data;
  let G1 := fresh "G" in
  let G2 := fresh "G" in
  let G3 := fresh "G" in
  destruct (send_checks_pass_elim _ _ _ _ Hchk) as (G1 & G2 & G3);
  rewrite G1, G2, G3; cbn [negb]; cbv zeta;
  rewrite bind_emit, (bind_run _ _ _ _ _ _ Hwrite); cbv beta.

(** X8.  With a transmit drop ratio of 100 or more, a send that
    passes the checks reports success (0) without any [sendmsg] call: the
    frame is logged, the drop is logged, and a positive [tx_fail] is reset
    as after a real write. *)
Theorem send_data_with_full_tx_drop (self : arsdk_transport_net)
    (header : arsdk_transport_header) (payload : arsdk_transport_payload)
    (extra_hdr : option (list uint8_t)) (extra_hdrlen : Z)
    (v : Z) (rq : list Z) (cq : list recvfrom_result)
    (sq : list sendmsg_result)
    (sent : list (Z * list uint8_t)) :
  send_checks_pass self payload extra_hdr extra_hdrlen = true ->
  100 <= tx_drop_ratio self ->
  let size := frame_size extra_hdrlen payload in
  arsdk_transport_net_send_data self header payload extra_hdr extra_hdrlen
    {| rand_q := v :: rq; recvfrom_q := cq; sendmsg_q := sq;
       sendmsg_calls := sent |}
  = Some ((0, if tx_fail self >? 0 then with_tx_fail self 0 else self),
          {| rand_q := rq; recvfrom_q := cq; sendmsg_q := sq;
             sendmsg_calls := sent |},
          Ev_log_cmd (send_headerbuf header size) payload ARSDK_CMD_DIR_TX
          :: Ev_log LOGI (Msg_tx_drop (fd (data_sock self)) size)
          :: (if tx_fail self >? 0
              then [ Ev_log LOGI
                       (Msg_succeed_after (fd (data_sock self)) size
                          (tx_fail self)) ]
              else [])).
Proof.
  intros Hchk Hratio size.
  pose proof (frame_size_range extra_hdrlen payload) as Hsize.
  pose proof (socket_write_drops_all self
                (send_iov (send_headerbuf header size) payload extra_hdr
                   extra_hdrlen) size v rq cq sq sent Hratio) as Hwrite.
  fold size in Hsize. subst size.
  at_write_result Hchk Hwrite.
  destruct (Z.ltb_spec (frame_size extra_hdrlen payload) 0) as [H|_]; [lia|].
  rewrite (u32_small (frame_size extra_hdrlen payload)) by lia.
  rewrite Z.eqb_refl. cbn [negb].
  destruct (tx_fail self >? 0); reflexivity.
Qed.

(** X9.  A send that fails the checks at the top of the function writes
    nothing, draws no random number and leaves the transport as it was; it
    returns [-EINVAL] for a missing buffer with a non-zero length, else
    [-EPIPE] for a transport that is not started or has no socket.  The
    [-EPIPE] exit, a plain [return], logs nothing and calls nothing.  The
    [-EINVAL] exits leave through [ARSDK_RETURN_ERR_IF_FAILED], of which
    only the early return is embedded: of what is logged there nothing is
    stated. *)
Theorem send_data_rejected_touches_nothing (self : arsdk_transport_net)
    (header : arsdk_transport_header) (payload : arsdk_transport_payload)
    (extra_hdr : option (list uint8_t)) (extra_hdrlen : Z) (w : world) :
  send_checks_pass self payload extra_hdr extra_hdrlen = false ->
  let args_ok :=
    ((extra_hdrlen =? 0) || negb (is_null extra_hdr))
    && ((len payload =? 0) || negb (is_null (cdata payload))) in
  (exists evs,
     arsdk_transport_net_send_data self header payload extra_hdr
       extra_hdrlen w
     = Some ((if args_ok then - EPIPE else - EINVAL, self), w, evs)
     /\ (args_ok = true -> evs = []))
  /\ (if args_ok then - EPIPE else - EINVAL) < 0.
Proof.
  pose proof EPIPE_int. pose proof EINVAL_int.
  intros Hchk args_ok. subst args_ok.
  unfold send_checks_pass in Hchk. unfold arsdk_transport_net_send_data.
  destruct ((extra_hdrlen =? 0) || negb (is_null extra_hdr));
    cbn [negb andb] in *;
    [|split; [eexists; split; [reflexivity|discriminate]|lia]].
  destruct ((len payload =? 0) || negb (is_null (cdata payload)));
    cbn [negb andb] in *;
    [|split; [eexists; split; [reflexivity|discriminate]|lia]].
  apply negb_false_iff in Hchk. rewrite Hchk.
  split; [exists []; split; reflexivity|lia].
Qed.

(** X10.  A send whose write answers a would-block error returns
    that error as it is: no error log, no change of link status or of the
    failure counter, whatever the link status. *)
Theorem send_data_would_block_is_silent (self : arsdk_transport_net)
    (header : arsdk_transport_header) (payload : arsdk_transport_payload)
    (extra_hdr : option (list uint8_t)) (extra_hdrlen : Z)
    (w w' : world) (evs : list event) (e : Z) :
  send_checks_pass self payload extra_hdr extra_hdrlen = true ->
  socket_write self
    (send_iov (send_headerbuf header (frame_size extra_hdrlen payload))
              payload extra_hdr extra_hdrlen)
    (frame_size extra_hdrlen payload) w
  = Some (- e, w', evs) ->
  ARSDK_WOULD_BLOCK e = true ->
  e <> ENOBUFS ->
  arsdk_transport_net_send_data self header payload extra_hdr extra_hdrlen w
  = Some ((- e, self), w',
          [ Ev_log_cmd (send_headerbuf header (frame_size extra_hdrlen payload))
              payload ARSDK_CMD_DIR_TX ]).
Proof.
  intros Hchk Hwrite Hwb Hne.
  pose proof (frame_size_range extra_hdrlen payload) as Hsize.
  assert (He : 0 < e <= INT_MAX).
  { unfold ARSDK_WOULD_BLOCK in Hwb. apply orb_true_iff in Hwb.
    destruct Hwb as [H|H]; apply Z.eqb_eq in H; subst e;
      [apply EAGAIN_int|apply EWOULDBLOCK_int]. }
  assert (Hevs : evs = [])
    by (apply (socket_write_negative _ _ _ _ _ _ _ Hwrite); lia).
  subst evs.
  at_write_result Hchk Hwrite.
  destruct (Z.ltb_spec (- e) 0) as [_|H]; [|lia].
  rewrite (int_of_small (- e)) by (unfold INT_MIN, INT_MAX in *; lia).
  destruct (Z.eqb_spec (- e) (- ENOBUFS)) as [H|_]; [lia|].
  rewrite Z.opp_involutive, Hwb. reflexivity.
Qed.

(** X11.  Whatever a send does, it leaves [started], the socket and the
    drop ratios as they were, hands no frame to the receive sink, and moves
    the link status, if at all, from OK to KO only. *)
Theorem send_data_keeps_transport (self self' : arsdk_transport_net)
    (header : arsdk_transport_header) (payload : arsdk_transport_payload)
    (extra_hdr : option (list uint8_t)) (extra_hdrlen : Z)
    (w w' : world) (res : Z) (evs : list event) :
  arsdk_transport_net_send_data self header payload extra_hdr extra_hdrlen w
  = Some ((res, self'), w', evs) ->
  started self' = started self
  /\ data_sock self' = data_sock self
  /\ rx_drop_ratio self' = rx_drop_ratio self
  /\ tx_drop_ratio self' = tx_drop_ratio self
  /\ (link_status (parent self') = link_status (parent self)
      \/ (link_status (parent self) = ARSDK_LINK_STATUS_OK
          /\ link_status (parent self') = ARSDK_LINK_STATUS_KO))
  /\ ~ In (Ev_set_link_status ARSDK_LINK_STATUS_OK) evs
  /\ forwarded evs = [].
Proof.
  unfold arsdk_transport_net_send_data. intros H.
  destruct (negb ((extra_hdrlen =? 0) || negb (is_null extra_hdr)));
    [injection H as _ <- _ <-; cbn; tauto|].
  destruct (negb ((len payload =? 0) || negb (is_null (cdata payload))));
    [injection H as _ <- _ <-; cbn; tauto|].
  destruct ((started self =? 0) || (fd (data_sock self) <? 0));
    [injection H as _ <- _ <-; cbn; tauto|].
  cbv zeta in H. rewrite bind_emit in H.
  unfold bind at 1 in H.
  destruct (socket_write self _ _ w) as [[[wl w1] e1]|] eqn:Hw;
    [|discriminate H].
  assert (He1 : ~ In (Ev_set_link_status ARSDK_LINK_STATUS_OK) e1
                /\ forwarded e1 = []).
  { destruct (socket_write_events _ _ _ _ _ _ _ Hw) as [->| ->];
      cbn [In forwarded]; split; try reflexivity; intuition discriminate. }
  destruct He1 as [Hno1 Hfw1].
  unfold bind, emit, ret, arsdk_transport_set_link_status in H.
  assert (Hst : link_status_eqb
                  (arsdk_transport_get_link_status (parent self))
                  ARSDK_LINK_STATUS_OK = true ->
                link_status (parent self) = ARSDK_LINK_STATUS_OK).
  { unfold arsdk_transport_get_link_status.
    destruct (link_status (parent self)); [discriminate|reflexivity]. }
  destruct (wl <? 0);
    [destruct (int_of wl =? - ENOBUFS);
       [|destruct (negb (ARSDK_WOULD_BLOCK (- int_of wl))); cbn [andb] in H;
           [destruct (link_status_eqb
                        (arsdk_transport_get_link_status (parent self))
                        ARSDK_LINK_STATUS_OK);
              [specialize (Hst eq_refl)|]|]]
    |destruct (negb (u32 wl =? frame_size extra_hdrlen payload));
       [|destruct (tx_fail self >? 0)]];
    injection H as _ <- _ <-;
    cbn [started data_sock rx_drop_ratio tx_drop_ratio parent link_status
         with_tx_fail with_link_status];
    cbn [forwarded]; rewrite ?forwarded_app, ?Hfw1; cbn [forwarded app];
    (repeat split; try tauto;
     cbn [In]; rewrite ?in_app_iff; cbn [In]; intuition discriminate).
Qed.

(** ** [socket_read] *)

Lemma with_rxbuf_same (self : arsdk_transport_net) :
  with_rxbuf self (rxbuf (data_sock self)) = self.
Proof. destruct self as [p s [f b] rx tx n]. reflexivity. Qed.

(** One failed [recvfrom] with a positive error number ends the read loop. *)
Lemma recvfrom_once (e : Z) (rq : list Z) (q : list recvfrom_result)
    (sq : list sendmsg_result)
    (sent : list (Z * list uint8_t)) :
  0 < e ->
  recvfrom_ignoring_interrupts
    {| rand_q := rq; recvfrom_q := Recv_err e :: q; sendmsg_q := sq;
       sendmsg_calls := sent |}
  = Some (Recv_err e,
          {| rand_q := rq; recvfrom_q := q; sendmsg_q := sq;
             sendmsg_calls := sent |}, []).
Proof.
  intros He. unfold recvfrom_ignoring_interrupts.
  cbn [recvfrom_q recvfrom_loop].
  rewrite read_loop_test_fails by exact He. reflexivity.
Qed.

Lemma would_block_positive (e : Z) : ARSDK_WOULD_BLOCK e = true -> 0 < e.
Proof.
  unfold ARSDK_WOULD_BLOCK. intros H. apply orb_true_iff in H.
  pose proof EAGAIN_int. pose proof EWOULDBLOCK_int.
  destruct H as [H|H]; apply Z.eqb_eq in H; lia.
Qed.

(** X12.  A read that would block returns the negated error and
    does nothing else: no log, no change of link status, with or without
    link-status checking. *)
Theorem socket_read_would_block_is_silent (self : arsdk_transport_net)
    (check_link_status e : Z) (rq : list Z) (q : list recvfrom_result)
    (sq : list sendmsg_result)
    (sent : list (Z * list uint8_t)) :
  ARSDK_WOULD_BLOCK e = true ->
  socket_read self check_link_status
    {| rand_q := rq; recvfrom_q := Recv_err e :: q; sendmsg_q := sq;
       sendmsg_calls := sent |}
  = Some ((- e, self),
          {| rand_q := rq; recvfrom_q := q; sendmsg_q := sq;
             sendmsg_calls := sent |}, []).
Proof.
  intros Hwb. pose proof (would_block_positive e Hwb) as He.
  unfold socket_read.
  rewrite (bind_run _ _ _ _ _ _ (recvfrom_once e rq q sq sent He)).
  cbn [recvfrom_ret recvfrom_fill Z.gtb Z.eqb Z.compare].
  rewrite with_rxbuf_same, Z.opp_involutive, Hwb. reflexivity.
Qed.

(** X13.  A read that fails with an error other than would-block,
    with link-status checking: when the link is OK the error is logged and
    the link set to KO; when the link is already KO nothing is logged and
    nothing is set.  The negated error is returned in both cases. *)
Theorem socket_read_error_logged_once (self : arsdk_transport_net)
    (check_link_status e : Z) (rq : list Z) (q : list recvfrom_result)
    (sq : list sendmsg_result)
    (sent : list (Z * list uint8_t)) :
  0 < e ->
  ARSDK_WOULD_BLOCK e = false ->
  check_link_status <> 0 ->
  socket_read self check_link_status
    {| rand_q := rq; recvfrom_q := Recv_err e :: q; sendmsg_q := sq;
       sendmsg_calls := sent |}
  = Some ((- e,
           match link_status (parent self) with
           | ARSDK_LINK_STATUS_OK =>
               with_link_status self ARSDK_LINK_STATUS_KO
           | ARSDK_LINK_STATUS_KO => self
           end),
          {| rand_q := rq; recvfrom_q := q; sendmsg_q := sq;
             sendmsg_calls := sent |},
          match link_status (parent self) with
          | ARSDK_LINK_STATUS_OK =>
              [ Ev_log LOGE (Msg_read_errno (fd (data_sock self)) e);
                Ev_set_link_status ARSDK_LINK_STATUS_KO ]
          | ARSDK_LINK_STATUS_KO => []
          end).
Proof.
  intros He Hwb Hchk. unfold socket_read.
  rewrite (bind_run _ _ _ _ _ _ (recvfrom_once e rq q sq sent He)).
  cbn [recvfrom_ret recvfrom_fill Z.gtb Z.eqb Z.compare].
  rewrite with_rxbuf_same, Z.opp_involutive, Hwb.
  destruct (Z.eqb_spec check_link_status 0) as [H|_]; [contradiction|].
  unfold arsdk_transport_get_link_status.
  destruct (link_status (parent self)); reflexivity.
Qed.

(** X14.  Without link-status checking, a read error other than
    would-block is logged whatever the link status, and the link status is
    left as it was. *)
Theorem socket_read_unchecked_error_logged (self : arsdk_transport_net)
    (e : Z) (rq : list Z) (q : list recvfrom_result)
    (sq : list sendmsg_result)
    (sent : list (Z * list uint8_t)) :
  0 < e ->
  ARSDK_WOULD_BLOCK e = false ->
  socket_read self 0
    {| rand_q := rq; recvfrom_q := Recv_err e :: q; sendmsg_q := sq;
       sendmsg_calls := sent |}
  = Some ((- e, self),
          {| rand_q := rq; recvfrom_q := q; sendmsg_q := sq;
             sendmsg_calls := sent |},
          [ Ev_log LOGE (Msg_read_errno (fd (data_sock self)) e) ]).
Proof.
  intros He Hwb. unfold socket_read.
  rewrite (bind_run _ _ _ _ _ _ (recvfrom_once e rq q sq sent He)).
  cbn [recvfrom_ret recvfrom_fill Z.gtb Z.eqb Z.compare].
  rewrite with_rxbuf_same, Z.opp_involutive, Hwb. reflexivity.
Qed.

(** A datagram at the head of the queue ends the read loop at once. *)
Lemma recvfrom_datagram (d : list uint8_t) (rq : list Z)
    (q : list recvfrom_result) (sq : list sendmsg_result)
    (sent : list (Z * list uint8_t)) :
  recvfrom_ignoring_interrupts
    {| rand_q := rq; recvfrom_q := Recv_ok d :: q; sendmsg_q := sq;
       sendmsg_calls := sent |}
  = Some (Recv_ok d,
          {| rand_q := rq; recvfrom_q := q; sendmsg_q := sq;
             sendmsg_calls := sent |}, []).
Proof. reflexivity. Qed.

(** X15.  With a receive drop ratio of 100 or more, a datagram that
    was read is never delivered: it is taken from the socket and written to
    the buffer, the drop is logged, and the caller is told [-EAGAIN]. *)
Theorem socket_read_with_full_rx_drop (self : arsdk_transport_net)
    (check_link_status v : Z) (d : list uint8_t) (rq : list Z)
    (q : list recvfrom_result) (sq : list sendmsg_result)
    (sent : list (Z * list uint8_t)) :
  100 <= rx_drop_ratio self ->
  d <> [] ->
  rxbuf (data_sock self) <> [] ->
  socket_read self check_link_status
    {| rand_q := v :: rq; recvfrom_q := Recv_ok d :: q; sendmsg_q := sq;
       sendmsg_calls := sent |}
  = Some ((- EAGAIN,
           with_rxbuf self (recvfrom_fill (data_sock self) (Recv_ok d))),
          {| rand_q := rq; recvfrom_q := q; sendmsg_q := sq;
             sendmsg_calls := sent |},
          [ Ev_log LOGI
              (Msg_rx_drop (fd (data_sock self))
                 (recvfrom_ret (data_sock self) (Recv_ok d))) ])
  /\ - EAGAIN < 0.
Proof.
  intros Hratio Hd Hbuf. pose proof EAGAIN_int as HE.
  split; [|lia]. unfold socket_read.
  rewrite (bind_run _ _ _ _ _ _ (recvfrom_datagram d (v :: rq) q sq sent)).
  assert (Hpos : 0 < recvfrom_ret (data_sock self) (Recv_ok d)).
  { unfold recvfrom_ret, rxbufsize.
    destruct d as [|b d']; [contradiction|].
    destruct (rxbuf (data_sock self)) as [|c buf]; [contradiction|].
    cbn [length]. lia. }
  destruct (Z.gtb_spec (recvfrom_ret (data_sock self) (Recv_ok d)) 0)
    as [_|H]; [|lia].
  cbn [rx_drop_ratio with_rxbuf]. unfold drop_draw.
  destruct (Z.eqb_spec (rx_drop_ratio self) 0) as [H0|_]; [lia|].
  unfold bind, rand, ret, emit. cbn [rand_q recvfrom_q sendmsg_q app].
  pose proof (Z.rem_bound_abs v 100 ltac:(lia)) as Hrem.
  destruct (Z.ltb_spec (Z.rem v 100) (rx_drop_ratio self)) as [_|H]; [|lia].
  reflexivity.
Qed.

(** ** [data_fd_cb] *)

(** [socket_read] hands nothing to the receive sink. *)
Lemma socket_read_forwards_nothing (self self' : arsdk_transport_net)
    (check_link_status readlen : Z) (w w' : world) (evs : list event) :
  socket_read self check_link_status w = Some ((readlen, self'), w', evs) ->
  forwarded evs = [].
Proof.
  unfold socket_read, drop_draw, arsdk_transport_set_link_status.
  unfold bind, recvfrom_ignoring_interrupts, rand, emit, ret.
  intros H.
  destruct (recvfrom_loop (recvfrom_q w)) as [[r q]|]; [|discriminate H].
  cbv beta iota zeta in H.
  repeat match type of H with
         | context [if ?b then _ else _] => destruct b; simpl in H
         | context [match rand_q ?x with _ => _ end] =>
             destruct (rand_q x); simpl in H
         end;
    try discriminate H; injection H as _ _ _ <-; reflexivity.
Qed.

(** X16.  When the read yields no data (an error, would-block
    included, a simulated drop, or zero bytes), the callback decodes
    nothing: it ends with the events of the read alone and no frame
    reaches the receive sink. *)
Theorem data_fd_cb_without_data (fuel : nat)
    (self self1 : arsdk_transport_net) (w w1 : world) (readlen : Z)
    (evs : list event) :
  socket_read self 1 w = Some ((readlen, self1), w1, evs) ->
  readlen <= 0 ->
  data_fd_cb fuel self w = Some (self1, w1, Returned evs)
  /\ forwarded evs = [].
Proof.
  intros Hread Hlen. unfold data_fd_cb. rewrite Hread.
  destruct (Z.gtb_spec readlen 0) as [H|_]; [lia|].
  split; [reflexivity|].
  exact (socket_read_forwards_nothing _ _ _ _ _ _ _ Hread).
Qed.

(** A datagram that fits the receive buffer is read whole, to the head of
    the buffer, when no drop is simulated. *)
Lemma socket_read_datagram (self : arsdk_transport_net)
    (check_link_status : Z) (d : list uint8_t) (rq : list Z)
    (q : list recvfrom_result) (sq : list sendmsg_result)
    (sent : list (Z * list uint8_t)) :
  rx_drop_ratio self = 0 ->
  d <> [] ->
  (length d <= length (rxbuf (data_sock self)))%nat ->
  socket_read self check_link_status
    {| rand_q := rq; recvfrom_q := Recv_ok d :: q; sendmsg_q := sq;
       sendmsg_calls := sent |}
  = Some ((Z.of_nat (length d),
           with_rxbuf self
             (d ++ skipn (length d) (rxbuf (data_sock self)))),
          {| rand_q := rq; recvfrom_q := q; sendmsg_q := sq;
             sendmsg_calls := sent |}, []).
Proof.
  intros Hratio Hd Hfit. unfold socket_read.
  rewrite (bind_run _ _ _ _ _ _ (recvfrom_datagram d rq q sq sent)).
  assert (Hret : recvfrom_ret (data_sock self) (Recv_ok d)
                 = Z.of_nat (length d))
    by (unfold recvfrom_ret, rxbufsize; lia).
  assert (Hfill : recvfrom_fill (data_sock self) (Recv_ok d)
                  = d ++ skipn (length d) (rxbuf (data_sock self))).
  { unfold recvfrom_fill. rewrite Nat.min_l by exact Hfit.
    rewrite firstn_all. reflexivity. }
  rewrite Hret, Hfill.
  destruct (Z.gtb_spec (Z.of_nat (length d)) 0) as [_|H].
  - cbn [rx_drop_ratio with_rxbuf]. rewrite Hratio. reflexivity.
  - destruct d; [contradiction|cbn [length] in H; lia].
Qed.

(** X17.  A datagram of frames laid out as the send path lays them
    out, received through the callback into a buffer it fits, with no drop
    simulated: every frame reaches the receive sink, in order, with its
    header and its payload bytes, each view inside the buffer, and no error
    is logged. *)
Theorem data_fd_cb_delivers_frames (k : nat) (self : arsdk_transport_net)
    (fs : list (arsdk_transport_header * list uint8_t))
    (rq : list Z) (q : list recvfrom_result) (sq : list sendmsg_result)
    (sent : list (Z * list uint8_t)) :
  fs <> [] ->
  Forall (fun f => header_in_range (fst f)) fs ->
  rx_drop_ratio self = 0 ->
  (length (wire_frames fs) <= length (rxbuf (data_sock self)))%nat ->
  Z.of_nat (length (wire_frames fs)) < UINT32_MOD ->
  exists self' tr,
    data_fd_cb (length fs + S k) self
      {| rand_q := rq; recvfrom_q := Recv_ok (wire_frames fs) :: q;
         sendmsg_q := sq; sendmsg_calls := sent |}
    = Some (self', {| rand_q := rq; recvfrom_q := q; sendmsg_q := sq;
                      sendmsg_calls := sent |},
            Returned tr)
    /\ map frame_content (forwarded tr) = fs
    /\ Forall (fun f => payload_in_bounds (snd f) = true) (forwarded tr)
    /\ filter is_error_log tr = [].
Proof.
  intros Hne Hhdr Hratio Hfit Hmax.
  assert (Hd : wire_frames fs <> []).
  { destruct fs as [|f fs']; [contradiction|].
    cbn [wire_frames flat_map]. unfold wire_frame, send_headerbuf.
    discriminate. }
  pose proof (socket_read_datagram self 1 (wire_frames fs) rq q sq sent
                Hratio Hd Hfit) as Hread.
  set (tail := skipn (length (wire_frames fs)) (rxbuf (data_sock self))) in *.
  destruct (process_rxbuf_loop_wire_frames fs [] tail
              (Z.of_nat (length (wire_frames fs))) (S k) Hhdr
              ltac:(cbn [length]; lia) Hmax)
    as (evs & Hrun & Hfw & Hin & Herr).
  cbn [app length] in Hrun. change (Z.of_nat 0) with 0 in Hrun.
  rewrite process_rxbuf_loop_end in Hrun by lia.
  cbn [emit_before] in Hrun. rewrite app_nil_r in Hrun.
  exists (with_rxbuf self (wire_frames fs ++ tail)), evs.
  unfold data_fd_cb. rewrite Hread.
  destruct (Z.gtb_spec (Z.of_nat (length (wire_frames fs))) 0) as [_|H].
  - cbn [rxbuf data_sock with_rxbuf].
    rewrite u32_small by lia. unfold process_rxbuf. rewrite Hrun.
    repeat split; assumption.
  - destruct (wire_frames fs); [contradiction|cbn [length] in H; lia].
Qed.

End NetExtra.

(** ** The further properties at work on Linux error numbers *)

Lemma socket_write_retries_interrupts_witness :
  let self :=
    {| parent := {| link_status := ARSDK_LINK_STATUS_OK |}; started := 1;
       data_sock := {| fd := 3; rxbuf := [] |};
       rx_drop_ratio := 0; tx_drop_ratio := 0; tx_fail := 0 |} in
  (tx_drop_ratio self = 0
   /\ Send_ok 10 <> Send_err (EINTR (errno_h := linux_errno)))
  /\ socket_write (E := linux_errno) self [] 10
       {| rand_q := []; recvfrom_q := [];
          sendmsg_q := [Send_err 4; Send_err 4; Send_ok 10; Send_err 32];
          sendmsg_calls := [] |}
     = Some (10, {| rand_q := []; recvfrom_q := [];
                    sendmsg_q := [Send_err 32];
                    sendmsg_calls := [ (3, []); (3, []); (3, []) ] |}, []).
Proof.
  intros self.
  assert (Hr : Send_ok 10 <> Send_err (EINTR (errno_h := linux_errno)))
    by discriminate.
  split; [split; [reflexivity|exact Hr]|].
  exact (socket_write_retries_interrupts (E := linux_errno) self [] 10 2
           (Send_ok 10) [Send_err 32] [] [] [] eq_refl Hr).
Defined.

Lemma socket_write_never_EINTR_witness :
  let self :=
    {| parent := {| link_status := ARSDK_LINK_STATUS_OK |}; started := 1;
       data_sock := {| fd := 3; rxbuf := [] |};
       rx_drop_ratio := 0; tx_drop_ratio := 0; tx_fail := 0 |} in
  let w := {| rand_q := []; recvfrom_q := [];
              sendmsg_q := [Send_err 4; Send_err 32];
              sendmsg_calls := [] |} in
  (0 <= 10
   /\ socket_write (E := linux_errno) self [] 10 w
      = Some (-32, {| rand_q := []; recvfrom_q := []; sendmsg_q := [];
                      sendmsg_calls := [ (3, []); (3, []) ] |}, []))
  /\ -32 <> - EINTR (errno_h := linux_errno).
Proof.
  intros self w.
  assert (Hpos : 0 <= 10) by lia.
  split; [split; [exact Hpos|reflexivity]|].
  exact (socket_write_never_EINTR (E := linux_errno) self [] 10 (-32) w _ []
           Hpos eq_refl).
Defined.

Lemma send_data_would_block_is_silent_witness :
  let self :=
    {| parent := {| link_status := ARSDK_LINK_STATUS_OK |}; started := 1;
       data_sock := {| fd := 3; rxbuf := [] |};
       rx_drop_ratio := 0; tx_drop_ratio := 0; tx_fail := 0 |} in
  let header := {| type := 2; id := 11; seq := 5 |} in
  let payload := {| cdata := Some [x61; x62; x63]; len := 3 |} in
  let hb := [x02; x0b; x05; x0a; x00; x00; x00] in
  let w := {| rand_q := []; recvfrom_q := []; sendmsg_q := [Send_err 11];
              sendmsg_calls := [] |} in
  let w' := {| rand_q := []; recvfrom_q := []; sendmsg_q := [];
               sendmsg_calls := [ (3, hb ++ [x61; x62; x63]) ] |} in
  (send_checks_pass self payload None 0 = true
   /\ socket_write (E := linux_errno) self (send_iov hb payload None 0) 10 w
      = Some (-11, w', [])
   /\ ARSDK_WOULD_BLOCK (E := linux_errno) 11 = true
   /\ 11 <> ENOBUFS (errno_h := linux_errno))
  /\ arsdk_transport_net_send_data (E := linux_errno) self header payload
       None 0 w
     = Some ((-11, self), w', [ Ev_log_cmd hb payload ARSDK_CMD_DIR_TX ]).
Proof.
  intros self header payload hb w w'.
  assert (Hne : 11 <> ENOBUFS (errno_h := linux_errno))
    by (cbn [ENOBUFS linux_errno]; lia).
  split; [repeat split; try reflexivity; exact Hne|].
  exact (send_data_would_block_is_silent (E := linux_errno) self header
           payload None 0 w w' [] 11 eq_refl eq_refl eq_refl Hne).
Defined.

Lemma send_data_keeps_transport_witness :
  let self st :=
    {| parent := {| link_status := st |}; started := 1;
       data_sock := {| fd := 3; rxbuf := [] |};
       rx_drop_ratio := 0; tx_drop_ratio := 0; tx_fail := 0 |} in
  let header := {| type := 2; id := 11; seq := 5 |} in
  let payload := {| cdata := Some [x61; x62; x63]; len := 3 |} in
  let hb := [x02; x0b; x05; x0a; x00; x00; x00] in
  let w := {| rand_q := []; recvfrom_q := []; sendmsg_q := [Send_err 32];
              sendmsg_calls := [] |} in
  let w' := {| rand_q := []; recvfrom_q := []; sendmsg_q := [];
               sendmsg_calls := [ (3, hb ++ [x61; x62; x63]) ] |} in
  let evs := [ Ev_log_cmd hb payload ARSDK_CMD_DIR_TX;
               Ev_log LOGE (Msg_sendmsg_errno 3 32);
               Ev_set_link_status ARSDK_LINK_STATUS_KO ] in
  arsdk_transport_net_send_data (E := linux_errno)
    (self ARSDK_LINK_STATUS_OK) header payload None 0 w
  = Some ((-32, self ARSDK_LINK_STATUS_KO), w', evs)
  /\ ~ In (Ev_set_link_status ARSDK_LINK_STATUS_OK) evs.
Proof.
  intros self header payload hb w w' evs.
  assert (Hrun : arsdk_transport_net_send_data (E := linux_errno)
                   (self ARSDK_LINK_STATUS_OK) header payload None 0 w
                 = Some ((-32, self ARSDK_LINK_STATUS_KO), w', evs))
    by reflexivity.
  split; [exact Hrun|].
  exact (proj1 (proj2 (proj2 (proj2 (proj2 (proj2
           (send_data_keeps_transport (E := linux_errno) _ _ header payload
              None 0 w w' (-32) evs Hrun))))))).
Defined.

Lemma socket_read_would_block_is_silent_witness :
  let self :=
    {| parent := {| link_status := ARSDK_LINK_STATUS_OK |}; started := 1;
       data_sock := {| fd := 3; rxbuf := [x00; x00] |};
       rx_drop_ratio := 0; tx_drop_ratio := 0; tx_fail := 0 |} in
  ARSDK_WOULD_BLOCK (E := linux_errno) 11 = true
  /\ socket_read (E := linux_errno) self 1
       {| rand_q := []; recvfrom_q := [Recv_err 11]; sendmsg_q := [];
          sendmsg_calls := [] |}
     = Some ((-11, self),
             {| rand_q := []; recvfrom_q := []; sendmsg_q := [];
                sendmsg_calls := [] |}, []).
Proof.
  intros self. split; [reflexivity|].
  exact (socket_read_would_block_is_silent (E := linux_errno) self 1 11
           [] [] [] [] eq_refl).
Defined.

Lemma socket_read_error_logged_once_witness :
  let self st :=
    {| parent := {| link_status := st |}; started := 1;
       data_sock := {| fd := 3; rxbuf := [x00; x00] |};
       rx_drop_ratio := 0; tx_drop_ratio := 0; tx_fail := 0 |} in
  let w := {| rand_q := []; recvfrom_q := [Recv_err 104]; sendmsg_q := [];
              sendmsg_calls := [] |} in
  let w' := {| rand_q := []; recvfrom_q := []; sendmsg_q := [];
               sendmsg_calls := [] |} in
  (0 < 104 /\ ARSDK_WOULD_BLOCK (E := linux_errno) 104 = false /\ 1 <> 0)
  /\ socket_read (E := linux_errno) (self ARSDK_LINK_STATUS_OK) 1 w
     = Some ((-104, self ARSDK_LINK_STATUS_KO), w',
             [ Ev_log LOGE (Msg_read_errno 3 104);
               Ev_set_link_status ARSDK_LINK_STATUS_KO ])
  /\ socket_read (E := linux_errno) (self ARSDK_LINK_STATUS_KO) 1 w
     = Some ((-104, self ARSDK_LINK_STATUS_KO), w', []).
Proof.
  intros self w w'.
  assert (He : 0 < 104) by lia.
  assert (Hchk : 1 <> 0) by lia.
  split; [repeat split; try reflexivity; assumption|].
  split.
  - exact (socket_read_error_logged_once (E := linux_errno)
             (self ARSDK_LINK_STATUS_OK) 1 104 [] [] [] [] He eq_refl Hchk).
  - exact (socket_read_error_logged_once (E := linux_errno)
             (self ARSDK_LINK_STATUS_KO) 1 104 [] [] [] [] He eq_refl Hchk).
Defined.

Lemma socket_read_unchecked_error_logged_witness :
  let self :=
    {| parent := {| link_status := ARSDK_LINK_STATUS_KO |}; started := 1;
       data_sock := {| fd := 3; rxbuf := [x00; x00] |};
       rx_drop_ratio := 0; tx_drop_ratio := 0; tx_fail := 0 |} in
  (0 < 104 /\ ARSDK_WOULD_BLOCK (E := linux_errno) 104 = false)
  /\ socket_read (E := linux_errno) self 0
       {| rand_q := []; recvfrom_q := [Recv_err 104]; sendmsg_q := [];
          sendmsg_calls := [] |}
     = Some ((-104, self),
             {| rand_q := []; recvfrom_q := []; sendmsg_q := [];
                sendmsg_calls := [] |},
             [ Ev_log LOGE (Msg_read_errno 3 104) ]).
Proof.
  intros self.
  assert (He : 0 < 104) by lia.
  split; [split; [exact He|reflexivity]|].
  exact (socket_read_unchecked_error_logged (E := linux_errno) self 104
           [] [] [] [] He eq_refl).
Defined.

Lemma socket_read_with_full_rx_drop_witness :
  let self buf :=
    {| parent := {| link_status := ARSDK_LINK_STATUS_OK |}; started := 1;
       data_sock := {| fd := 3; rxbuf := buf |};
       rx_drop_ratio := 100; tx_drop_ratio := 0; tx_fail := 0 |} in
  let d := [x02; x0b; x05; x07; x00; x00; x00] in
  (100 <= rx_drop_ratio (self (repeat x00 8)) /\ d <> []
   /\ rxbuf (data_sock (self (repeat x00 8))) <> [])
  /\ socket_read (E := linux_errno) (self (repeat x00 8)) 1
       {| rand_q := [7]; recvfrom_q := [Recv_ok d]; sendmsg_q := [];
          sendmsg_calls := [] |}
     = Some ((-11, self (d ++ [x00])),
             {| rand_q := []; recvfrom_q := []; sendmsg_q := [];
                sendmsg_calls := [] |},
             [ Ev_log LOGI (Msg_rx_drop 3 7) ]).
Proof.
  intros self d.
  assert (Hratio : 100 <= rx_drop_ratio (self (repeat x00 8)))
    by (unfold self; cbn [rx_drop_ratio]; lia).
  assert (Hd : d <> []) by discriminate.
  assert (Hbuf : rxbuf (data_sock (self (repeat x00 8))) <> [])
    by discriminate.
  split; [repeat split; assumption|].
  exact (proj1 (socket_read_with_full_rx_drop (E := linux_errno)
                  (self (repeat x00 8)) 1 7 d [] [] [] [] Hratio Hd Hbuf)).
Defined.

Lemma data_fd_cb_without_data_witness :
  let self :=
    {| parent := {| link_status := ARSDK_LINK_STATUS_KO |}; started := 1;
       data_sock := {| fd := 3; rxbuf := [x00; x00] |};
       rx_drop_ratio := 0; tx_drop_ratio := 0; tx_fail := 0 |} in
  let w := {| rand_q := []; recvfrom_q := [Recv_ok []]; sendmsg_q := [];
              sendmsg_calls := [] |} in
  let w' := {| rand_q := []; recvfrom_q := []; sendmsg_q := [];
               sendmsg_calls := [] |} in
  (socket_read (E := linux_errno) self 1 w
   = Some ((0, self), w', [ Ev_log LOGI (Msg_eof 3) ])
   /\ 0 <= 0)
  /\ data_fd_cb (E := linux_errno) 5 self w
     = Some (self, w', Returned [ Ev_log LOGI (Msg_eof 3) ]).
Proof.
  intros self w w'.
  assert (Hlen : 0 <= 0) by lia.
  split; [split; [reflexivity|exact Hlen]|].
  exact (proj1 (data_fd_cb_without_data (E := linux_errno) 5 self self w w' 0
                  _ eq_refl Hlen)).
Defined.

Lemma data_fd_cb_delivers_frames_witness :
  let self :=
    {| parent := {| link_status := ARSDK_LINK_STATUS_OK |}; started := 1;
       data_sock := {| fd := 3; rxbuf := repeat x00 32 |};
       rx_drop_ratio := 0; tx_drop_ratio := 0; tx_fail := 0 |} in
  let fs := [ ({| type := 2; id := 11; seq := 1 |}, [x61; x62; x63]);
              ({| type := 4; id := 126; seq := 9 |}, []) ] in
  (fs <> [] /\ Forall (fun f => header_in_range (fst f)) fs
   /\ rx_drop_ratio self = 0
   /\ (length (wire_frames fs) <= length (rxbuf (data_sock self)))%nat
   /\ Z.of_nat (length (wire_frames fs)) < UINT32_MOD)
  /\ exists self' tr,
       data_fd_cb (E := linux_errno) 3 self
         {| rand_q := []; recvfrom_q := [Recv_ok (wire_frames fs)];
            sendmsg_q := []; sendmsg_calls := [] |}
       = Some (self', {| rand_q := []; recvfrom_q := []; sendmsg_q := [];
                         sendmsg_calls := [] |},
               Returned tr)
       /\ map frame_content (forwarded tr) = fs.
Proof.
  intros self fs.
  assert (Hne : fs <> []) by discriminate.
  assert (Hhdr : Forall (fun f => header_in_range (fst f)) fs)
    by (repeat constructor; cbn; lia).
  assert (Hfit : (length (wire_frames fs)
                  <= length (rxbuf (data_sock self)))%nat)
    by (cbn; lia).
  assert (Hmax : Z.of_nat (length (wire_frames fs)) < UINT32_MOD)
    by (unfold UINT32_MOD; cbn; lia).
  split; [repeat split; try assumption; reflexivity|].
  destruct (data_fd_cb_delivers_frames (E := linux_errno) 0 self fs [] [] [] []
              Hne Hhdr eq_refl Hfit Hmax)
    as (self' & tr & Hrun & Hfw & _).
  exists self', tr. split; [exact Hrun|exact Hfw].
Defined.

Lemma send_data_with_full_tx_drop_witness :
  let self :=
    {| parent := {| link_status := ARSDK_LINK_STATUS_OK |}; started := 1;
       data_sock := {| fd := 3; rxbuf := [] |};
       rx_drop_ratio := 0; tx_drop_ratio := 100; tx_fail := 0 |} in
  let header := {| type := 2; id := 11; seq := 5 |} in
  let payload := {| cdata := Some [x61; x62; x63]; len := 3 |} in
  (send_checks_pass self payload None 0 = true
   /\ 100 <= tx_drop_ratio self)
  /\ arsdk_transport_net_send_data (E := linux_errno) self header payload
       None 0
       {| rand_q := [42]; recvfrom_q := []; sendmsg_q := [Send_err 32];
          sendmsg_calls := [] |}
     = Some ((0, self),
             {| rand_q := []; recvfrom_q := []; sendmsg_q := [Send_err 32];
                sendmsg_calls := [] |},
             [ Ev_log_cmd [x02; x0b; x05; x0a; x00; x00; x00] payload
                 ARSDK_CMD_DIR_TX;
               Ev_log LOGI (Msg_tx_drop 3 10) ]).
Proof.
  intros self header payload.
  assert (Hratio : 100 <= tx_drop_ratio self) by (unfold self; cbn; lia).
  split; [split; [reflexivity|exact Hratio]|].
  exact (send_data_with_full_tx_drop (E := linux_errno) self header payload
           None 0 42 [] [] [Send_err 32] [] eq_refl Hratio).
Defined.


Lemma send_data_rejected_touches_nothing_witness :
  let self :=
    {| parent := {| link_status := ARSDK_LINK_STATUS_OK |}; started := 0;
       data_sock := {| fd := 3; rxbuf := [] |};
       rx_drop_ratio := 0; tx_drop_ratio := 0; tx_fail := 0 |} in
  let header := {| type := 2; id := 11; seq := 5 |} in
  let payload := {| cdata := Some [x61; x62; x63]; len := 3 |} in
  let w := {| rand_q := []; recvfrom_q := []; sendmsg_q := [Send_ok 10];
              sendmsg_calls := [] |} in
  send_checks_pass self payload None 0 = false
  /\ exists evs,
       arsdk_transport_net_send_data (E := linux_errno) self header payload
         None 0 w
       = Some ((-32, self), w, evs)
       /\ (true = true -> evs = []).
Proof.
  intros self header payload w. split; [reflexivity|].
  exact (proj1 (send_data_rejected_touches_nothing (E := linux_errno) self
                  header payload None 0 w eq_refl)).
Defined.

(** * Frames with an extra header *)

(** The bytes of the scatter-gather list of a send with an extra header:
    the seven header bytes, the extra header, the payload bytes. *)
Lemma send_iov_bytes (header : arsdk_transport_header) (size : Z)
    (extra : list uint8_t) (payload : arsdk_transport_payload) :
  payload_in_bounds payload = true ->
  iov_bytes (send_iov (send_headerbuf header size) payload (Some extra)
               (Z.of_nat (length extra)))
  = send_headerbuf header size ++ extra ++ payload_bytes payload.
Proof.
  intros Hin. unfold send_iov, iov_bytes, send_headerbuf.
  rewrite !flat_map_app. cbn [flat_map iov_base iov_len app].
  change (Z.to_nat ARSDK_FRAME_HEADER_SIZE) with 7%nat. cbn [firstn app].
  do 7 f_equal.
  assert (Hx : flat_map
                 (fun s => match iov_base s with
                           | Some m => firstn (Z.to_nat (iov_len s)) m
                           | None => []
                           end)
                 (if Z.of_nat (length extra) >? 0
                  then [ {| iov_base := Some extra;
                            iov_len := Z.of_nat (length extra) |} ]
                  else [])
               = extra).
  { destruct (Z.gtb_spec (Z.of_nat (length extra)) 0) as [_|H0].
    - cbn [flat_map iov_base iov_len]. rewrite Nat2Z.id, firstn_all.
      apply app_nil_r.
    - destruct extra; [reflexivity|cbn [length] in H0; lia]. }
  rewrite Hx. f_equal.
  unfold payload_in_bounds, payload_bytes in *.
  destruct (Z.gtb_spec (len payload) 0) as [Hpos|H0].
  - cbn [flat_map iov_base iov_len]. rewrite app_nil_r. reflexivity.
  - destruct (cdata payload) as [m|]; [|reflexivity].
    apply andb_prop in Hin. destruct Hin as [Hge _]. apply Z.leb_le in Hge.
    replace (len payload) with 0 by lia. reflexivity.
Qed.

(** X18.  A send with an extra header, on a started transport with an open
    socket and no fault injection, hands every [sendmsg] call the datagram
    "seven header bytes, extra header, payload bytes", whose size field is
    the length of the datagram; the decoder gives that datagram back as one
    frame: the original header, and as payload the extra header followed by
    the payload bytes. *)
Theorem send_with_extra_header_round_trip {E : errno_h}
    (self : arsdk_transport_net) (header : arsdk_transport_header)
    (extra : list uint8_t) (payload : arsdk_transport_payload) (j k : nat)
    (r : sendmsg_result) (q : list sendmsg_result) (rq : list Z)
    (cq : list recvfrom_result) (sent : list (Z * list uint8_t)) :
  header_in_range header ->
  payload_in_bounds payload = true ->
  7 + Z.of_nat (length extra) + len payload < UINT32_MOD ->
  started self <> 0 ->
  0 <= fd (data_sock self) ->
  tx_drop_ratio self = 0 ->
  r <> Send_err EINTR ->
  let xl := Z.of_nat (length extra) in
  let size := 7 + xl + len payload in
  let wire := send_headerbuf header size ++ extra ++ payload_bytes payload in
  (exists res self' evs,
     arsdk_transport_net_send_data self header payload (Some extra) xl
       {| rand_q := rq; recvfrom_q := cq;
          sendmsg_q := repeat (Send_err EINTR) j ++ r :: q;
          sendmsg_calls := sent |}
     = Some ((res, self'),
             {| rand_q := rq; recvfrom_q := cq; sendmsg_q := q;
                sendmsg_calls :=
                  sent ++ repeat (fd (data_sock self), wire) (S j) |},
             evs))
  /\ Z.of_nat (length wire) = size
  /\ exists tr,
       process_rxbuf (2 + k) wire (Z.of_nat (length wire)) = Returned tr
       /\ map frame_content (forwarded tr)
          = [ (header, extra ++ payload_bytes payload) ]
       /\ filter is_error_log tr = [].
Proof.
  intros Hhdr Hin Hfit Hst Hfd Hratio Hr xl size wire.
  destruct (send_datagram_layout header payload Hin) as [_ Hplen].
  assert (Hsize : frame_size xl payload = size).
  { unfold size, frame_size, ARSDK_FRAME_HEADER_SIZE.
    apply u32_small. unfold UINT32_MOD in *. lia. }
  assert (Hwire : wire = wire_frames [ (header, extra ++ payload_bytes payload) ]).
  { unfold wire. cbn [wire_frames flat_map]. unfold wire_frame. cbn [fst snd].
    rewrite app_nil_r, length_app, Nat2Z.inj_add, Hplen.
    fold xl. unfold size.
    replace (7 + (xl + len payload)) with (7 + xl + len payload) by lia.
    reflexivity. }
  assert (Hlen : Z.of_nat (length wire) = size).
  { rewrite Hwire. cbn [wire_frames flat_map]. rewrite app_nil_r.
    rewrite wire_frame_length. cbn [snd].
    rewrite length_app, Nat2Z.inj_add, Hplen. fold xl. unfold size. lia. }
  assert (Hchk : send_checks_pass self payload (Some extra) xl = true).
  { unfold send_checks_pass. cbn [is_null negb].
    rewrite orb_true_r. cbn [andb].
    apply andb_true_intro. split.
    - unfold payload_in_bounds in Hin.
      destruct (cdata payload); cbn [is_null negb];
        [apply orb_true_r|rewrite Hin; reflexivity].
    - apply negb_true_iff, orb_false_intro;
        [apply Z.eqb_neq; exact Hst|apply Z.ltb_ge; exact Hfd]. }
  split.
  { destruct (send_data_hands_over self header payload (Some extra) xl j r
                q rq cq sent Hchk Hratio Hr) as (res & self' & evs & Hsend).
    exists res, self', evs. rewrite Hsend, Hsize.
    unfold xl. rewrite (send_iov_bytes header size extra payload Hin).
    reflexivity. }
  split; [exact Hlen|].
  rewrite Hwire.
  set (fs := [ (header, extra ++ payload_bytes payload) ]).
  assert (Hmax : Z.of_nat (length (wire_frames fs)) < UINT32_MOD)
    by (unfold fs; rewrite <- Hwire, Hlen; exact Hfit).
  destruct (process_rxbuf_loop_wire_frames fs [] []
              (Z.of_nat (length (wire_frames fs))) (S k)
              ltac:(constructor; [exact Hhdr|constructor])
              ltac:(cbn [length]; lia) Hmax)
    as (evs & Hrun & Hfw & _ & Herr).
  cbn [app length] in Hrun. rewrite app_nil_r in Hrun.
  change (Z.of_nat 0) with 0 in Hrun.
  exists evs. unfold process_rxbuf.
  change (2 + k)%nat with (length fs + S k)%nat. rewrite Hrun.
  rewrite process_rxbuf_loop_end by lia. cbn [emit_before].
  rewrite app_nil_r. repeat split; assumption.
Qed.

(** A frame with a two-byte extra header and a three-byte payload, sent on
    descriptor 3 and taken by the first [sendmsg] call. *)
Lemma send_with_extra_header_round_trip_witness :
  let self :=
    {| parent := {| link_status := ARSDK_LINK_STATUS_OK |}; started := 1;
       data_sock := {| fd := 3; rxbuf := [] |};
       rx_drop_ratio := 0; tx_drop_ratio := 0; tx_fail := 0 |} in
  let header := {| type := 2; id := 11; seq := 5 |} in
  let extra := [x01; x02] in
  let payload := {| cdata := Some [x61; x62; x63]; len := 3 |} in
  let wire := [x02; x0b; x05; x0c; x00; x00; x00;
               x01; x02; x61; x62; x63] in
  (header_in_range header /\ payload_in_bounds payload = true
   /\ 7 + Z.of_nat (length extra) + len payload < UINT32_MOD
   /\ started self <> 0 /\ 0 <= fd (data_sock self)
   /\ tx_drop_ratio self = 0
   /\ Send_ok 12 <> Send_err (EINTR (errno_h := linux_errno)))
  /\ (exists res self' evs,
        arsdk_transport_net_send_data (E := linux_errno) self header payload
          (Some extra) 2
          {| rand_q := []; recvfrom_q := []; sendmsg_q := [Send_ok 12];
             sendmsg_calls := [] |}
        = Some ((res, self'),
                {| rand_q := []; recvfrom_q := []; sendmsg_q := [];
                   sendmsg_calls := [ (3, wire) ] |},
                evs))
  /\ exists tr,
       process_rxbuf 2 wire 12 = Returned tr
       /\ map frame_content (forwarded tr)
          = [ (header, [x01; x02; x61; x62; x63]) ].
Proof.
  intros self header extra payload wire.
  assert (Hhdr : header_in_range header) by (repeat split; cbn; lia).
  assert (Hfit : 7 + Z.of_nat (length extra) + len payload < UINT32_MOD)
    by (unfold UINT32_MOD; cbn; lia).
  assert (Hst : started self <> 0) by discriminate.
  assert (Hfd : 0 <= fd (data_sock self)) by (cbn; lia).
  assert (Hr : Send_ok 12 <> Send_err (EINTR (errno_h := linux_errno)))
    by discriminate.
  destruct (send_with_extra_header_round_trip (E := linux_errno) self
              header extra payload 0 0 (Send_ok 12) [] [] [] [] Hhdr eq_refl
              Hfit Hst Hfd eq_refl Hr)
    as (Hsend & _ & tr & Hrun & Hfw & _).
  split; [repeat split; try apply Hhdr; try reflexivity; try lia;
          assumption|].
  split; [exact Hsend|].
  exists tr. split; [exact Hrun|exact Hfw].
Defined.

(** * Properties of the life cycle *)

Section LifecycleProperties.

Context {E : errno_h} {P : Lifecycle.platform_h}.

(** Boolean tests in the context, as propositions. *)
Ltac tests_to_props :=
  repeat match goal with
         | H : negb _ = true |- _ => apply negb_true_iff in H
         | H : negb _ = false |- _ => apply negb_false_iff in H
         | H : (_ && _) = true |- _ =>
             apply andb_true_iff in H; destruct H
         | H : (_ && _) = false |- _ =>
             apply andb_false_iff in H; destruct H
         | H : (_ <? _) = true |- _ => apply Z.ltb_lt in H
         | H : (_ <? _) = false |- _ => apply Z.ltb_ge in H
         | H : (_ >=? _) = true |- _ => rewrite Z.geb_leb in H
         | H : (_ >=? _) = false |- _ => rewrite Z.geb_leb in H
         | H : (_ <=? _) = true |- _ => apply Z.leb_le in H
         | H : (_ <=? _) = false |- _ => apply Z.leb_gt in H
         | H : (_ =? _) = true |- _ => apply Z.eqb_eq in H
         | H : (_ =? _) = false |- _ => apply Z.eqb_neq in H
         end.

(** Run a life-cycle function: unfold it down to the calls, then follow
    each test both ways. *)
Ltac run_calls :=
  unfold Lifecycle.arsdk_transport_net_new, Lifecycle.getenv_ratio,
    Lifecycle.arsdk_transport_net_dispose,
    Lifecycle.arsdk_transport_net_start, Lifecycle.arsdk_transport_net_stop,
    Lifecycle.socket_cleanup, Lifecycle.socket_start, Lifecycle.socket_stop,
    Lifecycle.socket_setup, Lifecycle.socket_setup_bound,
    Lifecycle.socket_setup_tx, Lifecycle.socket_setup_error,
    Lifecycle.setup_fd_flags;
  unfold Lifecycle.andthen, Lifecycle.ask, Lifecycle.tell, Lifecycle.pure;
  cbn [Lifecycle.fd Lifecycle.rxbuf Lifecycle.rxbufsize Lifecycle.rxenabled
       Lifecycle.txenabled Lifecycle.kind Lifecycle.data_sock
       Lifecycle.started Lifecycle.cfg Lifecycle.parent
       Lifecycle.with_sock Lifecycle.with_fd Lifecycle.with_kind
       Lifecycle.with_rxbuf Lifecycle.with_rxbufsize Lifecycle.with_started
       Lifecycle.with_cfg Lifecycle.with_rxport Lifecycle.data_rx_port
       Lifecycle.qos_mode];
  repeat (match goal with
          | |- context [if ?b then _ else _] =>
              let C := fresh "C" in destruct b eqn:C
          | |- context [match ?k with
                        | Lifecycle.ARSDK_SOCKET_KIND_COMMAND => _
                        | Lifecycle.ARSDK_SOCKET_KIND_VIDEO => _
                        | Lifecycle.ARSDK_SOCKET_KIND_OTHER => _
                        end] => destruct k
          end;
          cbn [Lifecycle.fd Lifecycle.rxbuf Lifecycle.rxbufsize
               Lifecycle.rxenabled Lifecycle.txenabled Lifecycle.kind
               Lifecycle.data_sock Lifecycle.started Lifecycle.cfg
               Lifecycle.parent Lifecycle.with_sock Lifecycle.with_fd
               Lifecycle.with_kind Lifecycle.with_rxbuf
               Lifecycle.with_rxbufsize Lifecycle.with_started
               Lifecycle.with_cfg Lifecycle.with_rxport
               Lifecycle.data_rx_port Lifecycle.qos_mode
               Lifecycle.calls_of Lifecycle.value_of fst snd app]);
  tests_to_props.

(** Bring the positivity of every error number in sight into the context. *)
Ltac errno_facts Hpos :=
  repeat match goal with
         | |- context [Lifecycle.errno (?sc ?m)] =>
             lazymatch goal with
             | _ : 0 < Lifecycle.errno (sc m) |- _ => fail
             | _ => pose proof (Hpos m)
             end
         | _ : context [Lifecycle.errno (?sc ?m)] |- _ =>
             lazymatch goal with
             | _ : 0 < Lifecycle.errno (sc m) |- _ => fail
             | _ => pose proof (Hpos m)
             end
         end.

(** X19.  Starting a transport that is not started either succeeds
    (returns 0, sets [started]; a second start is then refused with
    [-EBUSY] and makes no call) or fails with the negative code of the
    failing call, leaves the transport as it was, and ends by taking the
    socket off the event loop when reception is enabled. *)
Theorem start_succeeds_or_leaves_stopped (self : Lifecycle.arsdk_transport_net)
    (sc : nat -> Lifecycle.answer) (n : nat) :
  Lifecycle.errno_positive sc ->
  Lifecycle.started self = 0 ->
  let r := Lifecycle.arsdk_transport_net_start self sc n in
  let res := fst (Lifecycle.value_of r) in
  let self' := snd (Lifecycle.value_of r) in
  (res = 0
   /\ self' = Lifecycle.with_started self 1
   /\ (forall sc' n',
         Lifecycle.arsdk_transport_net_start self' sc' n'
         = (- Lifecycle.EBUSY, self', n', [])))
  \/ (res < 0
      /\ self' = self
      /\ (Lifecycle.rxenabled (Lifecycle.data_sock self) <> 0 ->
          last (Lifecycle.calls_of r) Lifecycle.C_free_self
          = Lifecycle.C_loop_remove
              (Lifecycle.fd (Lifecycle.data_sock self)))).
Proof.
  intros Hpos Hstopped r res self'. subst r res self'.
  destruct self as [p st c [f b bs rx tx k] rdr tdr tf].
  cbn [Lifecycle.started] in Hstopped. subst st.
  run_calls; errno_facts Hpos; try (exfalso; lia);
    first [ left; split; [reflexivity|];
            split; [reflexivity|intros sc' n'; reflexivity]
          | right; split; [lia|];
            split; [reflexivity|intros Hrx; first [reflexivity|lia]] ].
Qed.

(** X20.  Stopping takes the socket off the event loop exactly when the
    transport is started and reception is enabled, always returns 0 and
    leaves the transport stopped; a second stop makes no call and changes
    nothing, and a start after it is not refused as busy. *)
Theorem stop_is_idempotent (self : Lifecycle.arsdk_transport_net)
    (sc sc' : nat -> Lifecycle.answer) (n n' : nat) :
  let r := Lifecycle.arsdk_transport_net_stop self sc n in
  let self' := snd (Lifecycle.value_of r) in
  fst (Lifecycle.value_of r) = 0
  /\ Lifecycle.started self' = 0
  /\ Lifecycle.data_sock self' = Lifecycle.data_sock self
  /\ Lifecycle.calls_of r
     = (if negb (Lifecycle.started self =? 0)
           && negb (Lifecycle.rxenabled (Lifecycle.data_sock self) =? 0)
        then [ Lifecycle.C_loop_remove
                 (Lifecycle.fd (Lifecycle.data_sock self)) ]
        else [])
  /\ Lifecycle.arsdk_transport_net_stop self' sc' n' = (0, self', n', []).
Proof.
  intros r self'. subst r self'.
  destruct self as [p st c [f b bs rx tx k] rdr tdr tf].
  unfold Lifecycle.arsdk_transport_net_stop, Lifecycle.socket_stop,
    Lifecycle.andthen, Lifecycle.tell, Lifecycle.pure.
  cbn [Lifecycle.started Lifecycle.data_sock Lifecycle.rxenabled
       Lifecycle.fd].
  destruct (Z.eqb_spec st 0) as [->|Hst]; destruct (rx =? 0);
    cbn [negb andb Lifecycle.value_of Lifecycle.calls_of fst snd app
         Lifecycle.started Lifecycle.with_started Lifecycle.data_sock
         Z.eqb];
    repeat split; reflexivity.
Qed.

(** X21.  [socket_start] sets the type-of-service marking exactly when
    the QoS mode is 1 and the registration with the event loop did not
    fail: CS6 (0xc0) for the command kind, CS4 (0x80) for the video kind,
    nothing for the other kinds. *)
Theorem socket_start_marks_by_kind (self : Lifecycle.arsdk_transport_net)
    (sc : nat -> Lifecycle.answer) (n : nat) :
  let sock := Lifecycle.data_sock self in
  let added :=
    if negb (Lifecycle.rxenabled sock =? 0) then Lifecycle.ret (sc n)
    else 0 in
  filter Lifecycle.is_setsockopt_tos
    (Lifecycle.calls_of (Lifecycle.socket_start self sc n))
  = if (Lifecycle.qos_mode (Lifecycle.cfg self) =? 1) && (0 <=? added)
    then match Lifecycle.kind sock with
         | Lifecycle.ARSDK_SOCKET_KIND_COMMAND =>
             [ Lifecycle.C_setsockopt_tos (Lifecycle.fd sock) 192 ]
         | Lifecycle.ARSDK_SOCKET_KIND_VIDEO =>
             [ Lifecycle.C_setsockopt_tos (Lifecycle.fd sock) 128 ]
         | Lifecycle.ARSDK_SOCKET_KIND_OTHER => []
         end
    else [].
Proof.
  intros sock added. subst sock added.
  destruct self as [p st c [f b bs rx tx k] rdr tdr tf].
  destruct k; run_calls;
    unfold Lifecycle.IPTOS_PREC_INTERNETCONTROL,
      Lifecycle.IPTOS_PREC_FLASHOVERRIDE in *;
    first [reflexivity | exfalso; lia].
Qed.

(** X22.  Disposing closes the socket once if it is open, after
    taking it off the event loop if the transport is started and reception
    is enabled, releases the receive buffer, then the transport; it leaves
    no open descriptor and no buffer, and cleaning up again closes and
    unregisters nothing. *)
Theorem dispose_releases_once (self : Lifecycle.arsdk_transport_net)
    (sc sc' : nat -> Lifecycle.answer) (n n' : nat) :
  let sock := Lifecycle.data_sock self in
  let r := Lifecycle.arsdk_transport_net_dispose self sc n in
  let self' := snd (Lifecycle.value_of r) in
  let sock' := Lifecycle.data_sock self' in
  fst (Lifecycle.value_of r) = 0
  /\ Lifecycle.calls_of r
     = (if Lifecycle.fd sock >=? 0
        then (if negb (Lifecycle.started self =? 0)
                 && negb (Lifecycle.rxenabled sock =? 0)
              then [ Lifecycle.C_loop_remove (Lifecycle.fd sock) ]
              else [])
             ++ [ Lifecycle.C_close (Lifecycle.fd sock) ]
        else [])
       ++ (if negb (Lifecycle.rxenabled sock =? 0)
           then [ Lifecycle.C_free (is_null (Lifecycle.rxbuf sock)) ]
           else [])
       ++ [ Lifecycle.C_free_self ]
  /\ Lifecycle.fd sock' < 0
  /\ (Lifecycle.rxenabled sock <> 0 ->
      Lifecycle.rxbuf sock' = None /\ Lifecycle.rxbufsize sock' = 0)
  /\ filter (fun c => Lifecycle.is_close c || Lifecycle.is_loop_call c)
       (Lifecycle.calls_of (Lifecycle.socket_cleanup self' sc' n'))
     = [].
Proof.
  intros sock r self' sock'. subst sock r self' sock'.
  destruct self as [p st c [f b bs rx tx k] rdr tdr tf].
  run_calls;
    repeat split; try reflexivity; try lia; try contradiction;
    intros; try reflexivity; try lia.
Qed.

(** The three ways [socket_setup] can end. *)
Lemma socket_setup_outcome (self : Lifecycle.arsdk_transport_net)
    (k : Lifecycle.arsdk_socket_kind) (sc : nat -> Lifecycle.answer)
    (n : nat) :
  Lifecycle.errno_positive sc ->
  let sock := Lifecycle.data_sock self in
  let r := Lifecycle.socket_setup self k sc n in
  let res := fst (Lifecycle.value_of r) in
  let sock' := Lifecycle.data_sock (snd (Lifecycle.value_of r)) in
  let tr := Lifecycle.calls_of r in
  (Lifecycle.rxenabled sock = 0 /\ Lifecycle.txenabled sock = 0
   /\ Lifecycle.value_of r = (0, self) /\ tr = [])
  \/ (res = 0
      /\ Lifecycle.fd sock' = Lifecycle.ret (sc n)
      /\ 0 <= Lifecycle.fd sock'
      /\ Lifecycle.kind sock' = k
      /\ filter Lifecycle.is_close tr = []
      /\ filter Lifecycle.is_socketcb tr
         = [ Lifecycle.C_socketcb (Lifecycle.fd sock') k ]
      /\ last tr Lifecycle.C_free_self
         = Lifecycle.C_socketcb (Lifecycle.fd sock') k
      /\ (Lifecycle.rxenabled sock <> 0 ->
          exists buf,
            Lifecycle.rxbuf sock' = Some buf
            /\ Z.of_nat (length buf)
               = Z.max 0 (Lifecycle.rxbufsize sock')))
  \/ (res < 0
      /\ Lifecycle.fd sock' < 0
      /\ Lifecycle.rxbuf sock' = None
      /\ filter Lifecycle.is_socketcb tr = []
      /\ filter Lifecycle.is_close tr
         = (if Lifecycle.ret (sc n) >=? 0
            then [ Lifecycle.C_close (Lifecycle.ret (sc n)) ]
            else [])).
Proof.
  intros Hpos sock r res sock' tr. subst sock r res sock' tr.
  pose proof Lifecycle.ENOMEM_int as HENOMEM.
  destruct self as [p st c [f b bs rx tx k0] rdr tdr tf].
  run_calls; errno_facts Hpos; try (exfalso; lia);
    first
      [ left; repeat split; first [reflexivity|lia]
      | right; left;
        split; [reflexivity|]; split; [reflexivity|]; split; [lia|];
        split; [reflexivity|]; split; [reflexivity|];
        split; [reflexivity|]; split; [reflexivity|];
        intros Hrx;
        first [ eexists; split;
                [reflexivity|rewrite repeat_length; lia]
              | exfalso; lia ]
      | right; right;
        split; [lia|]; split; [lia|]; split; [reflexivity|];
        split; reflexivity ].
Qed.

(** What [socket_setup] leaves alone. *)
Lemma socket_setup_frame (self : Lifecycle.arsdk_transport_net)
    (k : Lifecycle.arsdk_socket_kind) (sc : nat -> Lifecycle.answer)
    (n : nat) :
  let self' := snd (Lifecycle.value_of (Lifecycle.socket_setup self k sc n)) in
  Lifecycle.parent self' = Lifecycle.parent self
  /\ Lifecycle.started self' = Lifecycle.started self
  /\ Lifecycle.rx_drop_ratio self' = Lifecycle.rx_drop_ratio self
  /\ Lifecycle.tx_drop_ratio self' = Lifecycle.tx_drop_ratio self
  /\ Lifecycle.tx_fail self' = Lifecycle.tx_fail self
  /\ Lifecycle.rxenabled (Lifecycle.data_sock self')
     = Lifecycle.rxenabled (Lifecycle.data_sock self)
  /\ Lifecycle.txenabled (Lifecycle.data_sock self')
     = Lifecycle.txenabled (Lifecycle.data_sock self)
  /\ Lifecycle.tx_addr (Lifecycle.cfg self')
     = Lifecycle.tx_addr (Lifecycle.cfg self)
  /\ Lifecycle.data_tx_port (Lifecycle.cfg self')
     = Lifecycle.data_tx_port (Lifecycle.cfg self)
  /\ Lifecycle.qos_mode (Lifecycle.cfg self')
     = Lifecycle.qos_mode (Lifecycle.cfg self).
Proof.
  intros self'. subst self'.
  destruct self as [p st c [f b bs rx tx k0] rdr tdr tf].
  run_calls; repeat split; reflexivity.
Qed.

(** The last call of a trace that ends in a non-empty one. *)
Lemma last_app_cons {A : Type} (l1 l2 : list A) (x d : A) :
  last (l1 ++ x :: l2) d = last (x :: l2) d.
Proof.
  induction l1 as [|y l1 IH]; [reflexivity|].
  rewrite <- IH. destruct l1; reflexivity.
Qed.

(** A [uint16_t] holds a value below 65536. *)
Lemma u16_range (z : Z) : 0 <= Lifecycle.u16 z < 65536.
Proof. unfold Lifecycle.u16. apply Z.mod_pos_bound. reflexivity. Qed.

(** X23.  Opening the data socket is all or nothing.  When it returns
    a negative code it leaves no open descriptor and no buffer, has closed
    the descriptor if one had been opened, and has not called the owner's
    socket callback.  When it does not, it returns 0; nothing was closed;
    and, if reception or transmission is enabled, the socket is open with
    the requested kind, the receive buffer (when reception is enabled) is
    allocated with the recorded size, and the owner's socket callback is
    the last thing called, once. *)
Theorem socket_setup_all_or_nothing (self : Lifecycle.arsdk_transport_net)
    (k : Lifecycle.arsdk_socket_kind) (sc : nat -> Lifecycle.answer)
    (n : nat) :
  Lifecycle.errno_positive sc ->
  let sock := Lifecycle.data_sock self in
  let r := Lifecycle.socket_setup self k sc n in
  let res := fst (Lifecycle.value_of r) in
  let sock' := Lifecycle.data_sock (snd (Lifecycle.value_of r)) in
  let tr := Lifecycle.calls_of r in
  (res < 0 ->
   Lifecycle.fd sock' < 0
   /\ Lifecycle.rxbuf sock' = None
   /\ filter Lifecycle.is_socketcb tr = []
   /\ filter Lifecycle.is_close tr
      = (if Lifecycle.ret (sc n) >=? 0
         then [ Lifecycle.C_close (Lifecycle.ret (sc n)) ]
         else []))
  /\ (0 <= res ->
      res = 0
      /\ filter Lifecycle.is_close tr = []
      /\ (Lifecycle.rxenabled sock <> 0 \/ Lifecycle.txenabled sock <> 0 ->
          0 <= Lifecycle.fd sock'
          /\ Lifecycle.kind sock' = k
          /\ filter Lifecycle.is_socketcb tr
             = [ Lifecycle.C_socketcb (Lifecycle.fd sock') k ]
          /\ last tr Lifecycle.C_free_self
             = Lifecycle.C_socketcb (Lifecycle.fd sock') k)
      /\ (Lifecycle.rxenabled sock <> 0 ->
          exists buf,
            Lifecycle.rxbuf sock' = Some buf
            /\ Z.of_nat (length buf)
               = Z.max 0 (Lifecycle.rxbufsize sock'))).
Proof.
  intros Hpos sock r res sock' tr. subst sock r res sock' tr.
  pose proof (socket_setup_outcome self k sc n Hpos) as H.
  cbv zeta in H.
  destruct H
    as [(Hrx & Htx & Hval & Htr)
       |[(Hres & Hfd & Hfd0 & Hk & Hclose & Hcb & Hlast & Hbuf)
        |(Hres & Hfd & Hbuf & Hcb & Hclose)]].
  - rewrite Htr, Hval. cbn [fst snd filter].
    split; [lia|]. intros _.
    split; [reflexivity|]. split; [reflexivity|].
    split; [intros [Hen|Hen]; contradiction|intros Hen; contradiction].
  - split; [lia|]. intros _.
    split; [exact Hres|]. split; [exact Hclose|].
    split; [intros _; auto|exact Hbuf].
  - split; [intros _; auto|lia].
Qed.

(** X24.  [socket_setup] binds at most twice, and not at all when
    reception is disabled: first on the configured port, and a second time,
    on port 0 (a port of the system's choice), only when the configured
    port is not 0 and the first attempt failed because the address is in
    use. *)
Theorem socket_setup_binds_at_most_twice
    (self : Lifecycle.arsdk_transport_net)
    (k : Lifecycle.arsdk_socket_kind) (sc : nat -> Lifecycle.answer)
    (n : nat) :
  Lifecycle.errno_positive sc ->
  let sock := Lifecycle.data_sock self in
  let port := Lifecycle.data_rx_port (Lifecycle.cfg self) in
  let fd := Lifecycle.ret (sc n) in
  let first_bind := sc (5 + n)%nat in
  let binds :=
    filter Lifecycle.is_bind
      (Lifecycle.calls_of (Lifecycle.socket_setup self k sc n)) in
  (Lifecycle.rxenabled sock = 0 -> binds = [])
  /\ (binds = []
      \/ binds = [ Lifecycle.C_bind fd port ]
      \/ (binds = [ Lifecycle.C_bind fd port; Lifecycle.C_bind fd 0 ]
          /\ port <> 0
          /\ Lifecycle.ret first_bind < 0
          /\ Lifecycle.errno first_bind = Lifecycle.EADDRINUSE)).
Proof.
  intros Hpos sock port fd first_bind binds.
  subst sock port fd first_bind binds.
  destruct self as [p st c [f b bs rx tx k0] rdr tdr tf].
  cbn [Lifecycle.data_sock Lifecycle.rxenabled Lifecycle.cfg Nat.add].
  run_calls; errno_facts Hpos; try (exfalso; lia);
    (split; [intros Hrx; first [reflexivity|exfalso; lia]|]);
    first [ left; reflexivity
          | right; left; reflexivity
          | right; right; split; [reflexivity|];
            split; [assumption|]; split; lia
          | exfalso; lia ].
Qed.

(** X25.  [socket_setup] changes nothing of the transport but the
    socket's descriptor, kind and receive buffer and the configured receive
    port.  When it succeeds with reception enabled, the configured receive
    port is the bound port, a 16-bit value, and the use of a dynamic port is
    logged exactly when it differs from the port that was configured. *)
Theorem socket_setup_records_bound_port
    (self : Lifecycle.arsdk_transport_net)
    (k : Lifecycle.arsdk_socket_kind) (sc : nat -> Lifecycle.answer)
    (n : nat) :
  Lifecycle.errno_positive sc ->
  let r := Lifecycle.socket_setup self k sc n in
  let self' := snd (Lifecycle.value_of r) in
  let oldport := Lifecycle.data_rx_port (Lifecycle.cfg self) in
  let newport := Lifecycle.data_rx_port (Lifecycle.cfg self') in
  Lifecycle.parent self' = Lifecycle.parent self
  /\ Lifecycle.started self' = Lifecycle.started self
  /\ Lifecycle.rx_drop_ratio self' = Lifecycle.rx_drop_ratio self
  /\ Lifecycle.tx_drop_ratio self' = Lifecycle.tx_drop_ratio self
  /\ Lifecycle.tx_fail self' = Lifecycle.tx_fail self
  /\ Lifecycle.rxenabled (Lifecycle.data_sock self')
     = Lifecycle.rxenabled (Lifecycle.data_sock self)
  /\ Lifecycle.txenabled (Lifecycle.data_sock self')
     = Lifecycle.txenabled (Lifecycle.data_sock self)
  /\ Lifecycle.tx_addr (Lifecycle.cfg self')
     = Lifecycle.tx_addr (Lifecycle.cfg self)
  /\ Lifecycle.data_tx_port (Lifecycle.cfg self')
     = Lifecycle.data_tx_port (Lifecycle.cfg self)
  /\ Lifecycle.qos_mode (Lifecycle.cfg self')
     = Lifecycle.qos_mode (Lifecycle.cfg self)
  /\ (fst (Lifecycle.value_of r) = 0 ->
      Lifecycle.rxenabled (Lifecycle.data_sock self) <> 0 ->
      0 <= newport < 65536
      /\ filter Lifecycle.is_log_dynamic_port (Lifecycle.calls_of r)
         = (if newport =? oldport then []
            else [ Lifecycle.C_log_dynamic_port newport oldport ])).
Proof.
  intros Hpos r self' oldport newport. subst r self' oldport newport.
  pose proof Lifecycle.ENOMEM_int as HENOMEM.
  destruct self as [p st c [f b bs rx tx k0] rdr tdr tf].
  cbn [Lifecycle.data_sock Lifecycle.rxenabled Lifecycle.txenabled
       Lifecycle.cfg Lifecycle.parent Lifecycle.started
       Lifecycle.rx_drop_ratio Lifecycle.tx_drop_ratio Lifecycle.tx_fail].
  run_calls; errno_facts Hpos; try (exfalso; lia);
    cbn [Lifecycle.parent Lifecycle.started Lifecycle.rx_drop_ratio
         Lifecycle.tx_drop_ratio Lifecycle.tx_fail Lifecycle.tx_addr
         Lifecycle.data_tx_port Lifecycle.qos_mode Lifecycle.cfg
         Lifecycle.data_sock Lifecycle.rxenabled Lifecycle.txenabled];
    repeat (split; [reflexivity|]);
    intros Hres Hrx; try (exfalso; lia);
    (split; [apply u16_range|reflexivity]).
Qed.

(** X26.  Creating a transport is all or nothing.  With a missing
    argument it returns [-EINVAL] and calls nothing.  When it hands out a
    transport it returns 0, and the transport is stopped, keeps the given
    configuration but for the receive port, takes its drop ratios from the
    environment (0 when the variable is not set), and has reception and
    transmission enabled on an open socket of the command kind with its
    receive buffer; the owner's socket callback was told of that socket
    once, as the last call.  Otherwise it returns a negative code, hands
    out nothing, has not called the owner's socket callback, and, once the
    base transport has been asked for, ends by destroying it. *)
Theorem new_all_or_nothing (parent0 : arsdk_transport) (loop : bool)
    (c : option Lifecycle.arsdk_transport_net_cfg)
    (cbs socketcb ret_obj : bool) (sc : nat -> Lifecycle.answer)
    (n : nat) :
  Lifecycle.errno_positive sc ->
  let r :=
    Lifecycle.arsdk_transport_net_new parent0 loop c cbs socketcb ret_obj
      sc n in
  let res := fst (Lifecycle.value_of r) in
  let tr := Lifecycle.calls_of r in
  let rx_env := sc (1 + n)%nat in
  let tx_env := sc (2 + n)%nat in
  (ret_obj && loop && (match c with Some _ => true | None => false end)
   && cbs && socketcb = false ->
   Lifecycle.value_of r = (- EINVAL, None) /\ tr = [])
  /\ match snd (Lifecycle.value_of r) with
     | Some self =>
         let sock := Lifecycle.data_sock self in
         res = 0
         /\ Lifecycle.parent self = parent0
         /\ Lifecycle.started self = 0
         /\ Lifecycle.tx_fail self = 0
         /\ (exists c0,
               c = Some c0
               /\ Lifecycle.tx_addr (Lifecycle.cfg self)
                  = Lifecycle.tx_addr c0
               /\ Lifecycle.data_tx_port (Lifecycle.cfg self)
                  = Lifecycle.data_tx_port c0
               /\ Lifecycle.qos_mode (Lifecycle.cfg self)
                  = Lifecycle.qos_mode c0)
         /\ Lifecycle.rx_drop_ratio self
            = (if Lifecycle.ret rx_env =? 0 then 0
               else int_of (Lifecycle.out rx_env))
         /\ Lifecycle.tx_drop_ratio self
            = (if Lifecycle.ret tx_env =? 0 then 0
               else int_of (Lifecycle.out tx_env))
         /\ Lifecycle.rxenabled sock = 1
         /\ Lifecycle.txenabled sock = 1
         /\ 0 <= Lifecycle.fd sock
         /\ Lifecycle.kind sock = Lifecycle.ARSDK_SOCKET_KIND_COMMAND
         /\ (exists buf, Lifecycle.rxbuf sock = Some buf)
         /\ filter Lifecycle.is_socketcb tr
            = [ Lifecycle.C_socketcb (Lifecycle.fd sock)
                  Lifecycle.ARSDK_SOCKET_KIND_COMMAND ]
         /\ last tr Lifecycle.C_free_self
            = Lifecycle.C_socketcb (Lifecycle.fd sock)
                Lifecycle.ARSDK_SOCKET_KIND_COMMAND
     | None =>
         res < 0
         /\ filter Lifecycle.is_socketcb tr = []
         /\ (In Lifecycle.C_transport_new tr ->
             last tr Lifecycle.C_free_self = Lifecycle.C_transport_destroy)
     end.
Proof.
  intros Hpos r res tr rx_env tx_env. subst r res tr rx_env tx_env.
  pose proof EINVAL_int as HEINVAL.
  pose proof Lifecycle.ENOMEM_int as HENOMEM.
  cbn [Nat.add].
  unfold Lifecycle.arsdk_transport_net_new, Lifecycle.getenv_ratio.
  destruct ret_obj, loop, c as [c0|], cbs, socketcb;
    cbn [negb andb Lifecycle.pure Lifecycle.value_of Lifecycle.calls_of
         fst snd];
    try (unfold Lifecycle.pure;
         cbn [Lifecycle.value_of Lifecycle.calls_of fst snd filter];
         split; [intros _; split; reflexivity|];
         split; [lia|]; split; [reflexivity|intros []]).
  split; [discriminate|].
  unfold Lifecycle.andthen, Lifecycle.ask, Lifecycle.tell, Lifecycle.pure.
  cbv beta iota.
  destruct (Lifecycle.ret (sc n) =? 0) eqn:Hmem; cbv beta iota.
  { cbn [Lifecycle.value_of Lifecycle.calls_of fst snd app filter
         Lifecycle.is_socketcb].
    split; [lia|]. split; [reflexivity|intros [Hin|[]]; discriminate]. }
  destruct (Lifecycle.ret (sc (S (S (S n)))) <? 0) eqn:Hbase;
    cbv beta iota.
  { apply Z.ltb_lt in Hbase.
    cbn [Lifecycle.value_of Lifecycle.calls_of fst snd app filter
         Lifecycle.is_socketcb last].
    split; [exact Hbase|]. split; reflexivity. }
  set (rx := if negb (Lifecycle.ret (sc (S n)) =? 0)
             then int_of (Lifecycle.out (sc (S n))) else 0).
  set (tx := if negb (Lifecycle.ret (sc (S (S n))) =? 0)
             then int_of (Lifecycle.out (sc (S (S n)))) else 0).
  set (self0 :=
         Lifecycle.mk_self parent0 0 c0
           (Lifecycle.mk_sock (-1) None 0 1 1
              Lifecycle.ARSDK_SOCKET_KIND_OTHER) rx tx 0).
  pose proof (socket_setup_outcome self0
                Lifecycle.ARSDK_SOCKET_KIND_COMMAND sc
                (S (S (S (S n)))) Hpos) as Hout.
  pose proof (socket_setup_frame self0
                Lifecycle.ARSDK_SOCKET_KIND_COMMAND sc
                (S (S (S (S n))))) as Hframe.
  cbv zeta in Hout, Hframe.
  destruct (Lifecycle.socket_setup self0
              Lifecycle.ARSDK_SOCKET_KIND_COMMAND sc (S (S (S (S n)))))
    as [[[res1 self1] n1] t1].
  cbn [Lifecycle.value_of Lifecycle.calls_of fst snd] in Hout, Hframe.
  cbn [self0 Lifecycle.data_sock Lifecycle.rxenabled Lifecycle.txenabled
       Lifecycle.parent Lifecycle.started Lifecycle.rx_drop_ratio
       Lifecycle.tx_drop_ratio Lifecycle.tx_fail Lifecycle.cfg]
    in Hout, Hframe.
  destruct Hframe as (Fp & Fst & Frx & Ftx & Ftf & Fre & Fte & Fa & Fport
                      & Fq).
  cbn [fst snd].
  destruct Hout
    as [(Hrx & _)
       |[(Hres & Hfd & Hfd0 & Hk & Hclose & Hcb & Hlast & Hbuf)
        |(Hres & Hfd & Hbuf & Hcb & Hclose)]].
  - discriminate Hrx.
  - subst res1. cbn [Z.ltb Z.compare]. cbv beta iota.
    cbn [Lifecycle.value_of Lifecycle.calls_of fst snd].
    rewrite app_nil_r.
    destruct (Hbuf ltac:(discriminate)) as (buf & Hrxbuf & _).
    repeat (split; [first [reflexivity|assumption]|]).
    split; [exists c0; repeat split; assumption|].
    split.
    { rewrite Frx. subst rx. destruct (Lifecycle.ret (sc (S n)) =? 0);
        reflexivity. }
    split.
    { rewrite Ftx. subst tx. destruct (Lifecycle.ret (sc (S (S n))) =? 0);
        reflexivity. }
    repeat (split; [first [reflexivity|assumption]|]).
    split; [exists buf; exact Hrxbuf|].
    cbn [app filter Lifecycle.is_socketcb]. rewrite ?app_nil_r.
    split; [exact Hcb|].
    destruct t1 as [|x t1]; [discriminate Hcb|].
    rewrite (last_app_cons
               [Lifecycle.C_calloc;
                Lifecycle.C_getenv
                  Lifecycle.ARSDK_TRANSPORT_NET_RX_DROP_RATIO;
                Lifecycle.C_getenv
                  Lifecycle.ARSDK_TRANSPORT_NET_TX_DROP_RATIO;
                Lifecycle.C_transport_new] t1 x).
    exact Hlast.
  - destruct (Z.ltb_spec res1 0) as [_|Hge]; [|lia]. cbv beta iota.
    cbn [Lifecycle.value_of Lifecycle.calls_of fst snd].
    split; [exact Hres|].
    cbn [app filter Lifecycle.is_socketcb].
    rewrite filter_app, Hcb.
    split; [reflexivity|]. intros _.
    change (last
              ([Lifecycle.C_calloc;
                Lifecycle.C_getenv
                  Lifecycle.ARSDK_TRANSPORT_NET_RX_DROP_RATIO;
                Lifecycle.C_getenv
                  Lifecycle.ARSDK_TRANSPORT_NET_TX_DROP_RATIO;
                Lifecycle.C_transport_new]
               ++ t1 ++ [Lifecycle.C_transport_destroy])
              Lifecycle.C_free_self = Lifecycle.C_transport_destroy).
    rewrite app_assoc. apply last_last.
Qed.

(** X27.  The life cycle gates the send path.  A send to a transport
    that has been stopped is refused with [-EPIPE] and touches nothing,
    whatever the state of the transport was before the stop; a send to a
    transport with an open socket that has just been started with success
    passes the checks and reaches the write. *)
Theorem send_follows_life_cycle (self : Lifecycle.arsdk_transport_net)
    (header : arsdk_transport_header) (payload : arsdk_transport_payload)
    (extra_hdr : option (list uint8_t)) (extra_hdrlen : Z)
    (sc : nat -> Lifecycle.answer) (n : nat) (w : world) :
  ((extra_hdrlen =? 0) || negb (is_null extra_hdr))
  && ((len payload =? 0) || negb (is_null (cdata payload))) = true ->
  let stopped :=
    snd (Lifecycle.value_of (Lifecycle.arsdk_transport_net_stop self sc n)) in
  let r := Lifecycle.arsdk_transport_net_start self sc n in
  arsdk_transport_net_send_data (Lifecycle.to_net stopped) header payload
    extra_hdr extra_hdrlen w
  = Some ((- EPIPE, Lifecycle.to_net stopped), w, [])
  /\ (Lifecycle.started self = 0 ->
      0 <= Lifecycle.fd (Lifecycle.data_sock self) ->
      fst (Lifecycle.value_of r) = 0 ->
      send_checks_pass (Lifecycle.to_net (snd (Lifecycle.value_of r)))
        payload extra_hdr extra_hdrlen = true).
Proof.
  intros Hargs stopped r. subst stopped r.
  apply andb_true_iff in Hargs. destruct Hargs as [Hextra Hpayload].
  destruct self as [p st c [f b bs rx tx k] rdr tdr tf].
  split.
  - assert (Hst : started
                    (Lifecycle.to_net
                       (snd (Lifecycle.value_of
                               (Lifecycle.arsdk_transport_net_stop
                                  (Lifecycle.mk_self p st c
                                     (Lifecycle.mk_sock f b bs rx tx k)
                                     rdr tdr tf) sc n)))) = 0).
    { unfold Lifecycle.arsdk_transport_net_stop, Lifecycle.socket_stop,
        Lifecycle.andthen, Lifecycle.tell, Lifecycle.pure.
      cbn [Lifecycle.started Lifecycle.data_sock Lifecycle.rxenabled].
      destruct (Z.eqb_spec st 0) as [->|Hst]; destruct (negb (rx =? 0));
        reflexivity. }
    unfold arsdk_transport_net_send_data.
    rewrite Hextra, Hpayload, Hst. reflexivity.
  - cbn [Lifecycle.started Lifecycle.data_sock Lifecycle.fd].
    intros -> Hfd.
    unfold send_checks_pass. rewrite Hextra, Hpayload. cbn [andb].
    run_calls; intros Hres; try (exfalso; lia);
      cbn [Lifecycle.to_net Lifecycle.started Lifecycle.data_sock
           Lifecycle.with_started Lifecycle.fd started data_sock fd Z.eqb orb negb];
      (destruct (Z.ltb_spec f 0); [lia|reflexivity]).
Qed.

End LifecycleProperties.

(** A transport whose registration with the event loop fails. *)
Lemma start_succeeds_or_leaves_stopped_witness :
  let self :=
    Lifecycle.mk_self {| link_status := ARSDK_LINK_STATUS_OK |} 0
      (Lifecycle.mk_cfg 0 2233 2233 1)
      (Lifecycle.mk_sock 3 (Some [x00; x00]) 2 1 1
         Lifecycle.ARSDK_SOCKET_KIND_COMMAND) 0 0 0 in
  let sc := fun _ : nat => Lifecycle.mk_answer (-1) 19 0 in
  let r :=
    Lifecycle.arsdk_transport_net_start (P := Lifecycle.linux_platform)
      self sc 0%nat in
  let res := fst (Lifecycle.value_of r) in
  let self' := snd (Lifecycle.value_of r) in
  Lifecycle.errno_positive sc
  /\ Lifecycle.started self = 0
  /\ ((res = 0
       /\ self' = Lifecycle.with_started self 1
       /\ (forall sc' n',
             Lifecycle.arsdk_transport_net_start
               (P := Lifecycle.linux_platform) self' sc' n'
             = (- 16, self', n', [])))
      \/ (res < 0
          /\ self' = self
          /\ (Lifecycle.rxenabled (Lifecycle.data_sock self) <> 0 ->
              last (Lifecycle.calls_of r) Lifecycle.C_free_self
              = Lifecycle.C_loop_remove 3))).
Proof.
  intros self sc r res self'.
  assert (Hpos : Lifecycle.errno_positive sc) by (intros m; reflexivity).
  split; [exact Hpos|]. split; [reflexivity|].
  exact (start_succeeds_or_leaves_stopped (P := Lifecycle.linux_platform)
           self sc 0%nat Hpos eq_refl).
Defined.

(** Every call answers 3 (a descriptor, a non-null pointer, a success);
    the port and the buffer size read back are 4096. *)
Lemma socket_setup_all_or_nothing_witness :
  let self :=
    Lifecycle.mk_self {| link_status := ARSDK_LINK_STATUS_OK |} 0
      (Lifecycle.mk_cfg 0 2233 2233 0)
      (Lifecycle.mk_sock (-1) None 0 1 1
         Lifecycle.ARSDK_SOCKET_KIND_OTHER) 0 0 0 in
  let sc := fun _ : nat => Lifecycle.mk_answer 3 1 4096 in
  let r :=
    Lifecycle.socket_setup (P := Lifecycle.linux_platform) self
      Lifecycle.ARSDK_SOCKET_KIND_COMMAND sc 0%nat in
  let res := fst (Lifecycle.value_of r) in
  let sock' := Lifecycle.data_sock (snd (Lifecycle.value_of r)) in
  let tr := Lifecycle.calls_of r in
  Lifecycle.errno_positive sc
  /\ (res < 0 ->
      Lifecycle.fd sock' < 0
      /\ Lifecycle.rxbuf sock' = None
      /\ filter Lifecycle.is_socketcb tr = []
      /\ filter Lifecycle.is_close tr = [ Lifecycle.C_close 3 ])
  /\ (0 <= res ->
      res = 0
      /\ filter Lifecycle.is_close tr = []
      /\ (1 <> 0 \/ 1 <> 0 ->
          0 <= Lifecycle.fd sock'
          /\ Lifecycle.kind sock' = Lifecycle.ARSDK_SOCKET_KIND_COMMAND
          /\ filter Lifecycle.is_socketcb tr
             = [ Lifecycle.C_socketcb 3
                   Lifecycle.ARSDK_SOCKET_KIND_COMMAND ]
          /\ last tr Lifecycle.C_free_self
             = Lifecycle.C_socketcb 3 Lifecycle.ARSDK_SOCKET_KIND_COMMAND)
      /\ (1 <> 0 ->
          exists buf,
            Lifecycle.rxbuf sock' = Some buf
            /\ Z.of_nat (length buf) = 2048)).
Proof.
  intros self sc r res sock' tr.
  assert (Hpos : Lifecycle.errno_positive sc) by (intros m; reflexivity).
  split; [exact Hpos|].
  exact (socket_setup_all_or_nothing (P := Lifecycle.linux_platform) self
           Lifecycle.ARSDK_SOCKET_KIND_COMMAND sc 0%nat Hpos).
Defined.

(** The configured port is in use: the first [bind] fails with
    [EADDRINUSE], the second, on port 0, succeeds, and [getsockname]
    reports port 50000. *)
Lemma socket_setup_binds_at_most_twice_witness :
  let self :=
    Lifecycle.mk_self {| link_status := ARSDK_LINK_STATUS_OK |} 0
      (Lifecycle.mk_cfg 0 2233 2233 0)
      (Lifecycle.mk_sock (-1) None 0 1 1
         Lifecycle.ARSDK_SOCKET_KIND_OTHER) 0 0 0 in
  let sc := fun m : nat =>
    if (m =? 5)%nat then Lifecycle.mk_answer (-1) 98 0
    else Lifecycle.mk_answer 3 1 50000 in
  let binds :=
    filter Lifecycle.is_bind
      (Lifecycle.calls_of
         (Lifecycle.socket_setup (P := Lifecycle.linux_platform) self
            Lifecycle.ARSDK_SOCKET_KIND_COMMAND sc 0%nat)) in
  Lifecycle.errno_positive sc
  /\ (1 = 0 -> binds = [])
  /\ (binds = []
      \/ binds = [ Lifecycle.C_bind 3 2233 ]
      \/ (binds = [ Lifecycle.C_bind 3 2233; Lifecycle.C_bind 3 0 ]
          /\ 2233 <> 0
          /\ -1 < 0
          /\ 98 = 98)).
Proof.
  intros self sc binds.
  assert (Hpos : Lifecycle.errno_positive sc).
  { intros m. unfold sc. destruct (m =? 5)%nat; reflexivity. }
  split; [exact Hpos|].
  exact (socket_setup_binds_at_most_twice (P := Lifecycle.linux_platform)
           self Lifecycle.ARSDK_SOCKET_KIND_COMMAND sc 0%nat Hpos).
Defined.

(** The same run: the configured port 2233 is replaced by 50000. *)
Lemma socket_setup_records_bound_port_witness :
  let self :=
    Lifecycle.mk_self {| link_status := ARSDK_LINK_STATUS_OK |} 0
      (Lifecycle.mk_cfg 0 2233 2233 0)
      (Lifecycle.mk_sock (-1) None 0 1 1
         Lifecycle.ARSDK_SOCKET_KIND_OTHER) 0 0 0 in
  let sc := fun m : nat =>
    if (m =? 5)%nat then Lifecycle.mk_answer (-1) 98 0
    else Lifecycle.mk_answer 3 1 50000 in
  let r :=
    Lifecycle.socket_setup (P := Lifecycle.linux_platform) self
      Lifecycle.ARSDK_SOCKET_KIND_COMMAND sc 0%nat in
  let self' := snd (Lifecycle.value_of r) in
  Lifecycle.errno_positive sc
  /\ Lifecycle.parent self' = Lifecycle.parent self
  /\ Lifecycle.started self' = 0
  /\ Lifecycle.rx_drop_ratio self' = 0
  /\ Lifecycle.tx_drop_ratio self' = 0
  /\ Lifecycle.tx_fail self' = 0
  /\ Lifecycle.rxenabled (Lifecycle.data_sock self') = 1
  /\ Lifecycle.txenabled (Lifecycle.data_sock self') = 1
  /\ Lifecycle.tx_addr (Lifecycle.cfg self') = 0
  /\ Lifecycle.data_tx_port (Lifecycle.cfg self') = 2233
  /\ Lifecycle.qos_mode (Lifecycle.cfg self') = 0
  /\ (fst (Lifecycle.value_of r) = 0 ->
      1 <> 0 ->
      0 <= Lifecycle.data_rx_port (Lifecycle.cfg self') < 65536
      /\ filter Lifecycle.is_log_dynamic_port (Lifecycle.calls_of r)
         = [ Lifecycle.C_log_dynamic_port 50000 2233 ]).
Proof.
  intros self sc r self'.
  assert (Hpos : Lifecycle.errno_positive sc).
  { intros m. unfold sc. destruct (m =? 5)%nat; reflexivity. }
  split; [exact Hpos|].
  exact (socket_setup_records_bound_port (P := Lifecycle.linux_platform)
           self Lifecycle.ARSDK_SOCKET_KIND_COMMAND sc 0%nat Hpos).
Defined.

(** Every call answers 3 (a descriptor, a non-null pointer, a success);
    the port read back is 4096, and both environment variables are set to
    4096. *)
Lemma new_all_or_nothing_witness :
  let parent0 := {| link_status := ARSDK_LINK_STATUS_KO |} in
  let c := Lifecycle.mk_cfg 0 2233 2233 0 in
  let sc := fun _ : nat => Lifecycle.mk_answer 3 1 4096 in
  let r :=
    Lifecycle.arsdk_transport_net_new (E := linux_errno)
      (P := Lifecycle.linux_platform) parent0 true (Some c) true true true
      sc 0%nat in
  let res := fst (Lifecycle.value_of r) in
  let tr := Lifecycle.calls_of r in
  Lifecycle.errno_positive sc
  /\ (true = false ->
      Lifecycle.value_of r = (- 22, None) /\ tr = [])
  /\ match snd (Lifecycle.value_of r) with
     | Some self =>
         let sock := Lifecycle.data_sock self in
         res = 0
         /\ Lifecycle.parent self = parent0
         /\ Lifecycle.started self = 0
         /\ Lifecycle.tx_fail self = 0
         /\ (exists c0,
               Some c = Some c0
               /\ Lifecycle.tx_addr (Lifecycle.cfg self)
                  = Lifecycle.tx_addr c0
               /\ Lifecycle.data_tx_port (Lifecycle.cfg self)
                  = Lifecycle.data_tx_port c0
               /\ Lifecycle.qos_mode (Lifecycle.cfg self)
                  = Lifecycle.qos_mode c0)
         /\ Lifecycle.rx_drop_ratio self = 4096
         /\ Lifecycle.tx_drop_ratio self = 4096
         /\ Lifecycle.rxenabled sock = 1
         /\ Lifecycle.txenabled sock = 1
         /\ 0 <= Lifecycle.fd sock
         /\ Lifecycle.kind sock = Lifecycle.ARSDK_SOCKET_KIND_COMMAND
         /\ (exists buf, Lifecycle.rxbuf sock = Some buf)
         /\ filter Lifecycle.is_socketcb tr
            = [ Lifecycle.C_socketcb (Lifecycle.fd sock)
                  Lifecycle.ARSDK_SOCKET_KIND_COMMAND ]
         /\ last tr Lifecycle.C_free_self
            = Lifecycle.C_socketcb (Lifecycle.fd sock)
                Lifecycle.ARSDK_SOCKET_KIND_COMMAND
     | None =>
         res < 0
         /\ filter Lifecycle.is_socketcb tr = []
         /\ (In Lifecycle.C_transport_new tr ->
             last tr Lifecycle.C_free_self = Lifecycle.C_transport_destroy)
     end.
Proof.
  intros parent0 c sc r res tr.
  assert (Hpos : Lifecycle.errno_positive sc) by (intros m; reflexivity).
  split; [exact Hpos|].
  exact (new_all_or_nothing (E := linux_errno)
           (P := Lifecycle.linux_platform) parent0 true (Some c) true true
           true sc 0%nat Hpos).
Defined.

(** A started transport with an open socket is stopped, or a stopped one
    is started, and a frame with a three-byte payload is sent. *)
Lemma send_follows_life_cycle_witness :
  let self :=
    Lifecycle.mk_self {| link_status := ARSDK_LINK_STATUS_OK |} 0
      (Lifecycle.mk_cfg 0 2233 2233 0)
      (Lifecycle.mk_sock 3 (Some [x00; x00]) 2 1 1
         Lifecycle.ARSDK_SOCKET_KIND_COMMAND) 0 0 0 in
  let header := {| type := 2; id := 11; seq := 5 |} in
  let payload := {| cdata := Some [x61; x62; x63]; len := 3 |} in
  let sc := fun _ : nat => Lifecycle.mk_answer 0 1 0 in
  let w := {| rand_q := []; recvfrom_q := []; sendmsg_q := [Send_ok 10];
              sendmsg_calls := [] |} in
  let stopped :=
    snd (Lifecycle.value_of
           (Lifecycle.arsdk_transport_net_stop self sc 0%nat)) in
  let r :=
    Lifecycle.arsdk_transport_net_start (P := Lifecycle.linux_platform)
      self sc 0%nat in
  ((0 =? 0) || negb (is_null (@None (list uint8_t))))
  && ((3 =? 0) || negb (is_null (Some [x61; x62; x63]))) = true
  /\ arsdk_transport_net_send_data (E := linux_errno)
       (Lifecycle.to_net stopped) header payload None 0 w
     = Some ((- 32, Lifecycle.to_net stopped), w, [])
  /\ (Lifecycle.started self = 0 ->
      0 <= 3 ->
      fst (Lifecycle.value_of r) = 0 ->
      send_checks_pass (Lifecycle.to_net (snd (Lifecycle.value_of r)))
        payload None 0 = true).
Proof.
  intros self header payload sc w stopped r.
  split; [reflexivity|].
  exact (send_follows_life_cycle (E := linux_errno)
           (P := Lifecycle.linux_platform) self header payload None 0 sc
           0%nat w eq_refl).
Defined.
